(** * The to-do list repository: a shallow embedding of [sheets_helper.py]
      and of the routes [index] and [edit] of [app.py]

    The repository keeps its tasks in one worksheet of a remote spreadsheet.
    The embedding follows the Python code function by function:

    - module-level globals ([_todos_cache], [_worksheet_cache], ...) are
      fields of an explicit program state;
    - Python lists and dicts that the code shares between the cache and its
      callers live in a heap of objects addressed by references, so that
      aliasing is visible;
    - the remote worksheet, the process environment, the clock and the
      failures of remote calls are the "world" part of the state; every
      remote call is recorded in a trace;
    - exceptions are results of a state-and-error monad, [try]/[except] is a
      combinator of that monad. *)

From Stdlib Require Import ZArith String Ascii List Bool Lia DecimalString DecimalZ.
From stdpp Require Import base list strings sorting.

Local Open Scope string_scope.
Local Open Scope list_scope.

(** ** Python strings and integers

    A Python [str] is modelled by its UTF-8 encoding, a Rocq [string].
    Equality of strings and their lexicographic order by code point coincide
    with equality and byte-wise order of the encodings. *)

(** [str(n)] for an integer [n]: decimal digits, with a leading minus sign
    for negative numbers. *)
Definition py_str (n : Z) : string := NilZero.string_of_int (Z.to_int n).

(** The strings made of one or more ASCII decimal digits, with the number
    they denote. *)
Definition ascii_digits (s : string) : option Z :=
  if String.eqb s "" then None
  else Z.of_uint <$> NilEmpty.uint_of_string s.

(** An ASCII character other than a decimal digit. *)
Definition ascii_non_digit (a : ascii) : bool :=
  (nat_of_ascii a <? 128)%nat && negb (bool_decide (is_Some (Ascii.is_nat a))).

Fixpoint has_ascii_non_digit (s : string) : bool :=
  match s with
  | EmptyString => false
  | String a s' => ascii_non_digit a || has_ascii_non_digit s'
  end.

(** [str.isdigit()] and [int()] look characters up in the Unicode database
    of the interpreter, which is not part of the repository.  The two
    built-ins are therefore an interface: what is fixed is their behaviour on
    ASCII, and that a string of digits never denotes a negative number.
    [int_of_digits s] is [int(s)] for a string with [s.isdigit()], the only
    strings the code converts; [None] stands for the [ValueError] that
    [int] raises on digit characters that are not decimal (such as a
    superscript two). *)
Class PyStr := {
  str_isdigit : string -> bool;
  int_of_digits : string -> option Z;
  isdigit_empty : str_isdigit "" = false;
  isdigit_ascii_digits s n : ascii_digits s = Some n -> str_isdigit s = true;
  isdigit_ascii_other s : has_ascii_non_digit s = true -> str_isdigit s = false;
  int_ascii_digits s n : ascii_digits s = Some n -> int_of_digits s = Some n;
  int_of_digits_nonneg s n :
    str_isdigit s = true -> int_of_digits s = Some n -> (0 <= n)%Z
}.

(** ** Exceptions *)

(** The text of the [Exception] raised by [get_or_create_spreadsheet]: which
    of its four messages, with the value interpolated into it. *)
Inductive error_msg :=
  | EnvFileMissing
  | SpreadsheetIdNotSet
  | SpreadsheetIdNotFound (spreadsheet_id : string)
  | AccessFailed (cause : string).

Inductive value_error :=
  | MaxEmptySequence
  | InvalidLiteral (s : string).

(** [TransportError] stands for any other subclass of [Exception] that the
    client library lets through (a connection failure, for instance). *)
Inductive exn :=
  | APIError (msg : string)
  | SpreadsheetNotFound
  | WorksheetNotFound
  | IndexError
  | ValueError (why : value_error)
  | TransportError (msg : string)
  | Exception_ (msg : error_msg).

(** [str(e)]; for the built-in exceptions, the texts of CPython. *)
Definition exn_str (e : exn) : string :=
  match e with
  | APIError m => m
  | SpreadsheetNotFound => ""
  | WorksheetNotFound => "Todos"
  | IndexError => "list index out of range"
  | ValueError MaxEmptySequence => "max() arg is an empty sequence"
  | ValueError (InvalidLiteral s) =>
      ("invalid literal for int() with base 10: " ++ s)%string
  | TransportError m => m
  | Exception_ _ => ""
  end.

(** ** Data *)

(** A row of the worksheet is the list of its cells. *)
Abbreviation cells := (list string).

(** The dict built for a task by [get_all_todos]; [t_row] is the 1-based
    number of the worksheet row it was read from. *)
Record todo := mk_todo {
  t_id : string;
  t_row : nat;
  t_title : string;
  t_content : string;
  t_due_date : string;
  t_priority : string;
  t_created_at : string;
  t_status : string
}.

Global Instance todo_inhabited : Inhabited todo :=
  populate (mk_todo "" 0 "" "" "" "" "" "").

Global Instance todo_eq_dec : EqDecision todo.
Proof. solve_decision. Defined.

(** The dict returned by [add_todo] (it has no ["row"] and no ["status"]). *)
Record added := mk_added {
  a_id : string;
  a_title : string;
  a_content : string;
  a_due_date : string;
  a_priority : string;
  a_created_at : string
}.

(** A reading of [datetime.now()]: the instant in microseconds and its
    rendering by [strftime("%Y-%m-%d %H:%M:%S")]. *)
Record datetime := mk_datetime {
  dt_micros : Z;
  dt_text : string
}.

(** [timedelta(seconds=10)] *)
Definition CACHE_DURATION : Z := (10 * 1000000)%Z.

(** Handles of the client library. *)
Inductive Client := ClientHandle.
Inductive Spreadsheet := SpreadsheetHandle (key : string).
Inductive Worksheet := WorksheetHandle (title : string).

(** References to Python objects. *)
Abbreviation ref := nat.

(** A remote call, as recorded in the trace.  [Update r c vs] writes the
    cells [vs] into row [r] from column [c] (numbered from 0): the range
    ["A1:G1"] is row 1, column 0, seven values; ["E1"] is row 1, column 4. *)
Inductive api_call :=
  | Authorize
  | OpenByKey (key : string)
  | GetWorksheet (title : string)
  | AddWorksheet (title : string) (rows cols : nat)
  | AppendRow (values : cells)
  | RowValues (r : nat)
  | Update (r c : nat) (values : cells)
  | GetAllValues
  | DeleteRows (r : nat).

Definition is_write (c : api_call) : bool :=
  match c with
  | AddWorksheet _ _ _ | AppendRow _ | Update _ _ _ | DeleteRows _ => true
  | _ => false
  end.

(** A line printed on standard output. *)
Inductive log_line :=
  | FetchWarning (text : string).

(** ** Program state *)

Record state := mk_state {
  (* module globals of sheets_helper.py *)
  _sheets_client : option Client;
  _spreadsheet_cache : option Spreadsheet;
  _worksheet_cache : option Worksheet;
  _todos_cache : option ref;
  _cache_timestamp : option datetime;
  (* heap: list objects (of references to dicts) and dict objects *)
  heap_lists : list (list ref);
  heap_dicts : list todo;
  (* the world *)
  env_SPREADSHEET_ID : option string;
  env_file_exists : bool;
  sheet : option (list cells);
  fault_plan : nat -> option exn;
  trace : list api_call;
  clock : nat -> datetime;
  ticks : nat;
  stdout : list log_line
}.

Definition set_sheets_client v s :=
  mk_state v (_spreadsheet_cache s) (_worksheet_cache s) (_todos_cache s)
    (_cache_timestamp s) (heap_lists s) (heap_dicts s) (env_SPREADSHEET_ID s)
    (env_file_exists s) (sheet s) (fault_plan s) (trace s) (clock s) (ticks s)
    (stdout s).
Definition set_spreadsheet_cache v s :=
  mk_state (_sheets_client s) v (_worksheet_cache s) (_todos_cache s)
    (_cache_timestamp s) (heap_lists s) (heap_dicts s) (env_SPREADSHEET_ID s)
    (env_file_exists s) (sheet s) (fault_plan s) (trace s) (clock s) (ticks s)
    (stdout s).
Definition set_worksheet_cache v s :=
  mk_state (_sheets_client s) (_spreadsheet_cache s) v (_todos_cache s)
    (_cache_timestamp s) (heap_lists s) (heap_dicts s) (env_SPREADSHEET_ID s)
    (env_file_exists s) (sheet s) (fault_plan s) (trace s) (clock s) (ticks s)
    (stdout s).
Definition set_todos_cache v s :=
  mk_state (_sheets_client s) (_spreadsheet_cache s) (_worksheet_cache s) v
    (_cache_timestamp s) (heap_lists s) (heap_dicts s) (env_SPREADSHEET_ID s)
    (env_file_exists s) (sheet s) (fault_plan s) (trace s) (clock s) (ticks s)
    (stdout s).
Definition set_cache_timestamp v s :=
  mk_state (_sheets_client s) (_spreadsheet_cache s) (_worksheet_cache s)
    (_todos_cache s) v (heap_lists s) (heap_dicts s) (env_SPREADSHEET_ID s)
    (env_file_exists s) (sheet s) (fault_plan s) (trace s) (clock s) (ticks s)
    (stdout s).
Definition set_heap_lists v s :=
  mk_state (_sheets_client s) (_spreadsheet_cache s) (_worksheet_cache s)
    (_todos_cache s) (_cache_timestamp s) v (heap_dicts s)
    (env_SPREADSHEET_ID s) (env_file_exists s) (sheet s) (fault_plan s)
    (trace s) (clock s) (ticks s) (stdout s).
Definition set_heap_dicts v s :=
  mk_state (_sheets_client s) (_spreadsheet_cache s) (_worksheet_cache s)
    (_todos_cache s) (_cache_timestamp s) (heap_lists s) v
    (env_SPREADSHEET_ID s) (env_file_exists s) (sheet s) (fault_plan s)
    (trace s) (clock s) (ticks s) (stdout s).
Definition set_sheet v s :=
  mk_state (_sheets_client s) (_spreadsheet_cache s) (_worksheet_cache s)
    (_todos_cache s) (_cache_timestamp s) (heap_lists s) (heap_dicts s)
    (env_SPREADSHEET_ID s) (env_file_exists s) v (fault_plan s) (trace s)
    (clock s) (ticks s) (stdout s).
Definition set_trace v s :=
  mk_state (_sheets_client s) (_spreadsheet_cache s) (_worksheet_cache s)
    (_todos_cache s) (_cache_timestamp s) (heap_lists s) (heap_dicts s)
    (env_SPREADSHEET_ID s) (env_file_exists s) (sheet s) (fault_plan s) v
    (clock s) (ticks s) (stdout s).
Definition set_ticks v s :=
  mk_state (_sheets_client s) (_spreadsheet_cache s) (_worksheet_cache s)
    (_todos_cache s) (_cache_timestamp s) (heap_lists s) (heap_dicts s)
    (env_SPREADSHEET_ID s) (env_file_exists s) (sheet s) (fault_plan s)
    (trace s) (clock s) v (stdout s).
Definition set_stdout v s :=
  mk_state (_sheets_client s) (_spreadsheet_cache s) (_worksheet_cache s)
    (_todos_cache s) (_cache_timestamp s) (heap_lists s) (heap_dicts s)
    (env_SPREADSHEET_ID s) (env_file_exists s) (sheet s) (fault_plan s)
    (trace s) (clock s) (ticks s) v.

(** ** The monad of Python computations: state and exceptions *)

Inductive outcome (A : Type) :=
  | Return (a : A)
  | Raise (e : exn).
Arguments Return {A} a.
Arguments Raise {A} e.

Definition M (A : Type) : Type := state -> outcome A * state.

Definition ret {A} (a : A) : M A := fun s => (Return a, s).

Definition raise {A} (e : exn) : M A := fun s => (Raise e, s).

Definition bind {A B} (m : M A) (k : A -> M B) : M B :=
  fun s =>
    match m s with
    | (Return a, s') => k a s'
    | (Raise e, s') => (Raise e, s')
    end.

(** [try: body except <classes>: handler]; [catches] tells which
    exceptions the [except] clause names. *)
Definition try_except {A} (body : M A) (catches : exn -> bool)
    (handler : exn -> M A) : M A :=
  fun s =>
    match body s with
    | (Return a, s') => (Return a, s')
    | (Raise e, s') => if catches e then handler e s' else (Raise e, s')
    end.

Definition gets {A} (f : state -> A) : M A := fun s => (Return (f s), s).

Definition modify (f : state -> state) : M unit := fun s => (Return tt, f s).

Declare Scope py_scope.
Delimit Scope py_scope with py.
Notation "x <- m ;; k" := (bind m (fun x => k))
  (at level 100, m at next level, right associativity) : py_scope.
Notation "m ;;; k" := (bind m (fun _ => k))
  (at level 100, right associativity) : py_scope.
Local Open Scope py_scope.

(** [if c: body] without [else] *)
Definition when (c : bool) (body : M unit) : M unit :=
  if c then body else ret tt.

(** An [except] clause that names nothing catches everything. *)
Definition any_exception (e : exn) : bool := true.

(** [except (IndexError, gspread.exceptions.APIError)] *)
Definition index_or_api_error (e : exn) : bool :=
  match e with
  | IndexError | APIError _ => true
  | _ => false
  end.

(** [except gspread.exceptions.SpreadsheetNotFound] *)
Definition is_spreadsheet_not_found (e : exn) : bool :=
  match e with SpreadsheetNotFound => true | _ => false end.

(** [except gspread.exceptions.WorksheetNotFound] *)
Definition is_worksheet_not_found (e : exn) : bool :=
  match e with WorksheetNotFound => true | _ => false end.

(** ** The heap of Python objects *)

(** A new dict object. *)
Definition alloc_dict (t : todo) : M ref :=
  fun s => (Return (length (heap_dicts s)),
            set_heap_dicts (heap_dicts s ++ [t]) s).

(** A new list object that holds the references [items]. *)
Definition alloc_list (items : list ref) : M ref :=
  fun s => (Return (length (heap_lists s)),
            set_heap_lists (heap_lists s ++ [items]) s).

(** The references held by the list object [l]. *)
Definition list_items (s : state) (l : ref) : list ref := heap_lists s !!! l.

(** The dict object [d]. *)
Definition dict_at (s : state) (d : ref) : todo := heap_dicts s !!! d.

(** The tasks one sees through the list object [l]. *)
Definition read_list (s : state) (l : ref) : list todo :=
  dict_at s <$> list_items s l.

(** [l.append(d)]: the list object is changed in place. *)
Definition list_append (l d : ref) : M unit :=
  modify (fun s => set_heap_lists (<[l := list_items s l ++ [d]]> (heap_lists s)) s).

(** [l.copy()]: a new list object with the same elements. *)
Definition list_copy (l : ref) : M ref :=
  items <- gets (fun s => list_items s l) ;;
  alloc_list items.

(** ** The world: clock, environment and remote calls *)

(** [datetime.now()] *)
Definition datetime_now : M datetime :=
  fun s => (Return (clock s (ticks s)), set_ticks (S (ticks s)) s).

(** [print(...)] *)
Definition print (l : log_line) : M unit :=
  modify (fun s => set_stdout (stdout s ++ [l]) s).

(** Every remote call is recorded, then fails when the fault plan of the
    world says that the call at this position of the trace fails. *)
Definition remote (c : api_call) : M unit :=
  fun s =>
    let s' := set_trace (trace s ++ [c]) s in
    match fault_plan s (length (trace s)) with
    | Some e => (Raise e, s')
    | None => (Return tt, s')
    end.

(** The rows of the worksheet a handle refers to; the service answers with
    an error when the worksheet does not exist. *)
Definition the_rows : M (list cells) :=
  fun s =>
    match sheet s with
    | Some rows => (Return rows, s)
    | None => (Raise (APIError "worksheet not found"), s)
    end.

(** [Credentials.from_service_account_file(...)] and [gspread.authorize] *)
Definition authorize : M Client :=
  remote Authorize ;;; ret ClientHandle.

(** [client.open_by_key(key)] *)
Definition open_by_key (client : Client) (key : string) : M Spreadsheet :=
  remote (OpenByKey key) ;;; ret (SpreadsheetHandle key).

(** [spreadsheet.worksheet(title)] *)
Definition worksheet (sp : Spreadsheet) (title : string) : M Worksheet :=
  remote (GetWorksheet title) ;;;
  present <- gets (fun s => bool_decide (is_Some (sheet s))) ;;
  if present : bool then ret (WorksheetHandle title) else raise WorksheetNotFound.

(** [spreadsheet.add_worksheet(title=..., rows=..., cols=...)]: a new, empty
    worksheet; the service refuses a title that is taken. *)
Definition add_worksheet (sp : Spreadsheet) (title : string) (rows cols : nat)
    : M Worksheet :=
  remote (AddWorksheet title rows cols) ;;;
  present <- gets (fun s => bool_decide (is_Some (sheet s))) ;;
  if present : bool then raise (APIError "worksheet exists")
  else modify (set_sheet (Some [])) ;;; ret (WorksheetHandle title).

(** [worksheet.append_row(values)] *)
Definition append_row (ws : Worksheet) (values : cells) : M unit :=
  remote (AppendRow values) ;;;
  rows <- the_rows ;;
  modify (set_sheet (Some (rows ++ [values]))).

(** [worksheet.row_values(r)]: the cells of row [r], none when the row does
    not exist. *)
Definition row_values (ws : Worksheet) (r : nat) : M cells :=
  remote (RowValues r) ;;;
  rows <- the_rows ;;
  ret (default [] (rows !! pred r)).

(** [vs] written over the cells of [row] from column [c]; a row that is too
    short is first filled with empty cells. *)
Definition write_cells (c : nat) (vs : cells) (row : cells) : cells :=
  take c (row ++ replicate (c - length row) "") ++ vs ++ drop (c + length vs) row.

(** [vs] written into row [r] (numbered from 1) from column [c]; missing rows
    are created empty. *)
Definition write_row (r c : nat) (vs : cells) (rows : list cells) : list cells :=
  let rows' := rows ++ replicate (r - length rows) [] in
  <[pred r := write_cells c vs (rows' !!! pred r)]> rows'.

(** [worksheet.update(range, [values])] for a range within one row. *)
Definition update (ws : Worksheet) (r c : nat) (values : cells) : M unit :=
  remote (Update r c values) ;;;
  rows <- the_rows ;;
  modify (set_sheet (Some (write_row r c values rows))).

(** [worksheet.get_all_values()] *)
Definition get_all_values (ws : Worksheet) : M (list cells) :=
  remote GetAllValues ;;;
  the_rows.

(** [worksheet.delete_rows(r)] *)
Definition delete_rows (ws : Worksheet) (r : nat) : M unit :=
  remote (DeleteRows r) ;;;
  rows <- the_rows ;;
  modify (set_sheet (Some (take (pred r) rows ++ drop r rows))).

(** ** sheets_helper.py *)

(** The header row that the code writes to ["A1:G1"]. *)
Definition HEADER : cells :=
  ["ID"; "タイトル"; "内容"; "期日"; "重要度"; "作成日時"; "ステータス"].

(** The header row appended to a worksheet that was just created. *)
Definition CREATED_HEADER : cells :=
  ["ID"; "タイトル"; "内容"; "期日"; "作成日時"].

(** [l[i]] at a place where the code has checked that [i < len(l)]. *)
Definition item (l : cells) (i : nat) : string := l !!! i.

(** [get_sheets_client] *)
Definition get_sheets_client : M Client :=
  cached <- gets _sheets_client ;;
  match cached with
  | Some client => ret client
  | None =>
      client <- authorize ;;
      modify (set_sheets_client (Some client)) ;;;
      ret client
  end.

(** Lines 130-174 of [get_or_create_spreadsheet]: the check of the header
    row, with the [except] clauses that try again. *)
Definition check_header (ws : Worksheet) : M unit :=
  try_except
    (header_row <- row_values ws 1 ;;
     if bool_decide (header_row = []) then
       update ws 1 0 HEADER
     else if negb (item header_row 0 =? "ID") || (length header_row <? 7)%nat then
       if (length header_row <? 7)%nat then
         if (length header_row <? 5)%nat then
           update ws 1 0 HEADER
         else if (length header_row <? 6)%nat then
           update ws 1 0 HEADER
         else
           update ws 1 6 ["ステータス"] ;;;
           when ((length header_row <? 5)%nat
                 || negb (item header_row 4 =? "重要度"))
             (update ws 1 4 ["重要度"])
       else
         if negb (item header_row 0 =? "ID") then
           update ws 1 0 HEADER
         else
           when ((length header_row <? 5)%nat
                 || negb (item header_row 4 =? "重要度"))
             (update ws 1 4 ["重要度"]) ;;;
           when ((length header_row <? 7)%nat
                 || negb (item header_row 6 =? "ステータス"))
             (update ws 1 6 ["ステータス"])
     else ret tt)
    index_or_api_error
    (fun _ =>
       try_except (update ws 1 0 HEADER) any_exception
         (fun _ =>
            try_except (update ws 1 4 ["重要度"]) any_exception
              (fun _ => ret tt) ;;;
            try_except (update ws 1 6 ["ステータス"]) any_exception
              (fun _ => ret tt))).

(** [get_or_create_spreadsheet] *)
Definition get_or_create_spreadsheet : M (Spreadsheet * Worksheet) :=
  sc <- gets _spreadsheet_cache ;;
  wc <- gets _worksheet_cache ;;
  match sc, wc with
  | Some spreadsheet, Some ws => ret (spreadsheet, ws)
  | _, _ =>
      client <- get_sheets_client ;;
      spreadsheet_id <- gets env_SPREADSHEET_ID ;;
      env_exists <- gets env_file_exists ;;
      match spreadsheet_id with
      | Some key =>
          if key =? "" then
            raise (Exception_
                     (if env_exists then SpreadsheetIdNotSet else EnvFileMissing))
          else
            spreadsheet <-
              try_except (open_by_key client key) any_exception
                (fun e =>
                   if is_spreadsheet_not_found e then
                     raise (Exception_ (SpreadsheetIdNotFound key))
                   else raise (Exception_ (AccessFailed (exn_str e)))) ;;
            ws <-
              try_except (worksheet spreadsheet "Todos") is_worksheet_not_found
                (fun _ =>
                   ws <- add_worksheet spreadsheet "Todos" 1000 10 ;;
                   append_row ws CREATED_HEADER ;;;
                   ret ws) ;;
            check_header ws ;;;
            modify (set_spreadsheet_cache (Some spreadsheet)) ;;;
            modify (set_worksheet_cache (Some ws)) ;;;
            ret (spreadsheet, ws)
      | None =>
          raise (Exception_
                   (if env_exists then SpreadsheetIdNotSet else EnvFileMissing))
      end
  end.

(** [clear_cache] *)
Definition clear_cache : M unit :=
  modify (set_todos_cache None) ;;;
  modify (set_cache_timestamp None) ;;;
  modify (set_spreadsheet_cache None) ;;;
  modify (set_worksheet_cache None).

(** [not row or len(row) == 0 or not row[0]]: the rows that the loop of
    [get_all_todos] skips. *)
Definition skipped (row : cells) : bool :=
  match row with
  | [] => true
  | c :: _ => c =? ""
  end.

(** [row[k] if len(row) > k else d] *)
Definition cell_or (row : cells) (k : nat) (d : string) : string :=
  if (k <? length row)%nat then item row k else d.

(** The dict that [get_all_todos] builds for row number [i]. *)
Definition todo_of_row (i : nat) (row : cells) : todo :=
  {| t_id := if (0 <? length row)%nat && negb (item row 0 =? "")
             then item row 0 else "";
     t_row := i;
     t_title := cell_or row 1 "";
     t_content := cell_or row 2 "";
     t_due_date := cell_or row 3 "";
     t_priority := cell_or row 4 "中";
     t_created_at := cell_or row 5 "";
     t_status := cell_or row 6 "" |}.

(** The loop [for i, row in enumerate(all_values[1:], start=2)], which
    appends to the list object [todos]. *)
Fixpoint collect_todos (todos : ref) (i : nat) (rows : list cells) : M unit :=
  match rows with
  | [] => ret tt
  | row :: rest =>
      if skipped row then collect_todos todos (S i) rest
      else
        d <- alloc_dict (todo_of_row i row) ;;
        list_append todos d ;;;
        collect_todos todos (S i) rest
  end.

(** The text of the warning that [get_all_todos] prints. *)
Definition fetch_warning (e : exn) : log_line :=
  FetchWarning ("警告: Todoの取得中にエラーが発生しました: " ++ exn_str e)%string.

(** Lines 211-254 of [get_all_todos]: the [try] statement that reads the
    worksheet; [return []] makes a new, empty list object. *)
Definition read_todos (ws : Worksheet) (now : datetime) : M ref :=
  try_except
    (all_values <- get_all_values ws ;;
     if (length all_values <=? 1)%nat then alloc_list []
     else
       todos <- alloc_list [] ;;
       collect_todos todos 2 (drop 1 all_values) ;;;
       modify (set_todos_cache (Some todos)) ;;;
       modify (set_cache_timestamp (Some now)) ;;;
       ret todos)
    index_or_api_error
    (fun e => print (fetch_warning e) ;;; alloc_list []).

(** Lines 208-254 of [get_all_todos]: the path taken when the cache cannot
    be used. *)
Definition fetch_todos (now : datetime) : M ref :=
  p <- get_or_create_spreadsheet ;;
  read_todos (snd p) now.

(** [get_all_todos]; the result is a reference to a list object. *)
Definition get_all_todos : M ref :=
  now <- datetime_now ;;
  cache <- gets _todos_cache ;;
  stamp <- gets _cache_timestamp ;;
  match cache, stamp with
  | Some cached, Some t =>
      if (dt_micros now - dt_micros t <? CACHE_DURATION)%Z then list_copy cached
      else fetch_todos now
  | _, _ => fetch_todos now
  end.

(** The argument [status_filter] of [get_all_todos_filtered]. *)
Definition is_open (t : todo) : bool :=
  (t_status t =? "") || negb (t_status t =? "完了").

Definition is_completed (t : todo) : bool := t_status t =? "完了".

(** A list comprehension [[todo for todo in todos if keep(todo)]]: a new
    list object that holds the dicts of [todos] that pass the test. *)
Definition comprehension (keep : todo -> bool) (todos : ref) : M ref :=
  items <- gets (fun s => List.filter (fun d => keep (dict_at s d))
                                      (list_items s todos)) ;;
  alloc_list items.

(** [get_all_todos_filtered]; [None] is Python's [None]. *)
Definition get_all_todos_filtered (status_filter : option string) : M ref :=
  todos <- get_all_todos ;;
  match status_filter with
  | None => comprehension is_open todos
  | Some f =>
      if f =? "完了" then comprehension is_completed todos
      else ret todos
  end.

(** A result computed without the state. *)
Definition lift {A} (o : outcome A) : M A := fun s => (o, s).

(** [max(ns)] *)
Definition py_max (ns : list Z) : outcome Z :=
  match ns with
  | [] => Raise (ValueError MaxEmptySequence)
  | n :: rest => Return (fold_left Z.max rest n)
  end.

Section WithPyStr.
Context {PS : PyStr}.

(** The generator [int(todo["id"]) for todo in todos if todo["id"].isdigit()]
    run to its end. *)
Fixpoint numeric_ids (todos : list todo) : outcome (list Z) :=
  match todos with
  | [] => Return []
  | t :: rest =>
      if str_isdigit (t_id t) then
        match int_of_digits (t_id t) with
        | Some n =>
            match numeric_ids rest with
            | Return ns => Return (n :: ns)
            | Raise e => Raise e
            end
        | None => Raise (ValueError (InvalidLiteral (t_id t)))
        end
      else numeric_ids rest
  end.

(** Lines 272-277 of [add_todo]: the new id, from the tasks read. *)
Definition new_id_of (todos : list todo) : outcome string :=
  match todos with
  | [] => Return "1"
  | _ :: _ =>
      match numeric_ids todos with
      | Return ns =>
          match py_max ns with
          | Return max_id => Return (py_str (max_id + 1))
          | Raise e => Raise e
          end
      | Raise e => Raise e
      end
  end.

(** [add_todo] *)
Definition add_todo (title content due_date priority : string) : M added :=
  p <- get_or_create_spreadsheet ;;
  let ws := snd p in
  todos <- get_all_todos_filtered (Some "all") ;;
  seen <- gets (fun s => read_list s todos) ;;
  new_id <- lift (new_id_of seen) ;;
  now <- datetime_now ;;
  let created_at := dt_text now in
  append_row ws [new_id; title; content; due_date; priority; created_at; ""] ;;;
  clear_cache ;;;
  ret (mk_added new_id title content due_date priority created_at).

End WithPyStr.

(** [update_todo] *)
Definition update_todo (row : nat) (title content due_date priority : string)
    : M unit :=
  p <- get_or_create_spreadsheet ;;
  update (snd p) row 1 [title; content; due_date; priority] ;;;
  clear_cache.

(** [delete_todo] *)
Definition delete_todo (row : nat) : M unit :=
  p <- get_or_create_spreadsheet ;;
  delete_rows (snd p) row ;;;
  clear_cache.

(** [complete_todo] *)
Definition complete_todo (row : nat) : M unit :=
  p <- get_or_create_spreadsheet ;;
  update (snd p) row 6 ["完了"] ;;;
  clear_cache.

(** ** app.py: the sorting step of [index] (lines 65-73) *)

(** [priority_order = {"高": 3, "中": 2, "低": 1}], as [priority_order.get] *)
Definition priority_order (p : string) : option Z :=
  if p =? "高" then Some 3%Z
  else if p =? "中" then Some 2%Z
  else if p =? "低" then Some 1%Z
  else None.

(** [priority_order.get(x.get("priority", "中"), 2)] *)
Definition priority_rank (t : todo) : Z := default 2%Z (priority_order (t_priority t)).

(** [x.get("due_date") or "9999-12-31"] *)
Definition due_date_or_sentinel (t : todo) : string :=
  if t_due_date t =? "" then "9999-12-31" else t_due_date t.

(** The key of the sort by priority and the key of the sort by due date. *)
Definition priority_key (t : todo) : Z * string := (priority_rank t, t_due_date t).
Definition due_date_key (t : todo) : string * Z := (due_date_or_sentinel t, priority_rank t).

(** Python's [<] on these tuples. *)
Definition priority_key_ltb (a b : Z * string) : bool :=
  (fst a <? fst b)%Z || ((fst a =? fst b)%Z && (snd a <? snd b)%string).
Definition due_date_key_ltb (a b : string * Z) : bool :=
  (fst a <? fst b)%string || ((fst a =? fst b)%string && (snd a <? snd b)%Z).

Section PySort.
Context {A K : Type} (ltb : K -> K -> bool) (key : A -> K).

(** [x] goes behind the elements whose key is not greater than its own. *)
Fixpoint insert_by_key (x : A) (sorted : list A) : list A :=
  match sorted with
  | [] => [x]
  | y :: rest =>
      if ltb (key x) (key y) then x :: y :: rest
      else y :: insert_by_key x rest
  end.

(** A stable sort by key that compares with [<] only, as [list.sort] is;
    the elements are inserted from left to right. *)
Definition sort_by_key (l : list A) : list A :=
  fold_left (fun sorted x => insert_by_key x sorted) l [].

(** [list.sort(key=..., reverse=...)]: with [reverse] the list is reversed
    before and after the sort, which keeps equal elements in their order. *)
Definition py_sort (reverse : bool) (l : list A) : list A :=
  if reverse then rev (sort_by_key (rev l)) else sort_by_key l.

End PySort.

(** [todos.sort(key=..., reverse=...)] on a list object, in place. *)
Definition list_sort {K} (ltb : K -> K -> bool) (key : todo -> K)
    (reverse : bool) (todos : ref) : M unit :=
  modify (fun s =>
    set_heap_lists
      (<[todos := py_sort ltb (fun d => key (dict_at s d)) reverse
                    (list_items s todos)]> (heap_lists s)) s).

(** The branches on [sort_by]. *)
Definition sort_todos (sort_by : string) (todos : ref) : M unit :=
  if sort_by =? "priority" then
    list_sort priority_key_ltb priority_key true todos
  else if sort_by =? "due_date" then
    list_sort due_date_key_ltb due_date_key false todos
  else ret tt.

(** ** A concrete interpreter and concrete worlds, for evaluation *)

(** The built-ins on ASCII: no other character counts as a digit. *)
Definition ascii_isdigit (s : string) : bool := bool_decide (is_Some (ascii_digits s)).

Definition ascii_pystr : PyStr.
Proof.
  refine {| str_isdigit := ascii_isdigit; int_of_digits := ascii_digits |}.
  - reflexivity.
  - intros s n Hs. apply bool_decide_eq_true. rewrite Hs. eauto.
  - intros s Hs. apply bool_decide_eq_false. intros [n Hn].
    unfold ascii_digits in Hn. destruct (s =? "")%string; [discriminate|].
    assert (Hnone : NilEmpty.uint_of_string s = None).
    { clear Hn. induction s as [|a s IH]; [discriminate|].
      simpl in *. apply orb_true_iff in Hs as [Ha|Hs].
      - destruct (NilEmpty.uint_of_string s); [|reflexivity].
        destruct a as [[|] [|] [|] [|] [|] [|] [|] [|]];
          first [reflexivity | discriminate].
      - rewrite (IH Hs). reflexivity. }
    rewrite Hnone in Hn. discriminate.
  - auto.
  - intros s n _ Hn. unfold ascii_digits in Hn.
    destruct (s =? "")%string; [discriminate|].
    destruct (NilEmpty.uint_of_string s) as [d|]; [|discriminate].
    injection Hn as <-. unfold Z.of_uint. apply N2Z.is_nonneg.
Defined.

(** A world without failures and a clock that advances by one second at
    every reading. *)
Definition no_faults : nat -> option exn := fun _ => None.

Definition one_second_clock : nat -> datetime :=
  fun n => mk_datetime (Z.of_nat n * 1000000)%Z "2025-01-01 00:00:00".

(** A process that has just started: no global is set, the heap is empty.
    [key] is the value of [SPREADSHEET_ID], [rows] the content of the
    worksheet (or [None] when the worksheet does not exist). *)
Definition fresh_process (key : option string) (rows : option (list cells))
    (plan : nat -> option exn) : state :=
  mk_state None None None None None [] [] key true rows plan []
    one_second_clock 0 [].

(** ** Vocabulary of the statements *)

(** The result of a computation and the state it leaves. *)
Definition result {A} (m : M A) (s : state) : outcome A := fst (m s).
Definition after {A} (m : M A) (s : state) : state := snd (m s).

(** No remote call ever fails. *)
Definition fault_free (s : state) : Prop := forall n, fault_plan s n = None.

(** The store identifier is configured. *)
Definition configured (s : state) : Prop :=
  exists key, env_SPREADSHEET_ID s = Some key /\ key <> "".

(** Nothing is cached: the state of a process that has just started, and
    the state that [clear_cache] leaves. *)
Definition cold (s : state) : Prop :=
  _worksheet_cache s = None /\ _todos_cache s = None.

(** The writes issued to the store so far. *)
Definition writes (s : state) : list api_call := List.filter is_write (trace s).

(** The state in which [get_all_todos] goes on after it has read the
    clock. *)
Definition tick (s : state) : state := set_ticks (S (ticks s)) s.

(** The rows of the worksheet, none when it does not exist. *)
Definition rows_of (s : state) : list cells := default [] (sheet s).

(** The header row, the first row of the worksheet. *)
Definition header_of (s : state) : cells := hd [] (rows_of s).

(** The tasks of the rows [rows], the first of which has number [i]: what
    the loop of [get_all_todos] builds, as values. *)
Fixpoint parse_rows (i : nat) (rows : list cells) : list todo :=
  match rows with
  | [] => []
  | row :: rest =>
      if skipped row then parse_rows (S i) rest
      else todo_of_row i row :: parse_rows (S i) rest
  end.

(** The header row that [check_header] leaves in a world without failures,
    from the header row it finds. *)
Definition repaired_header (h : cells) : cells :=
  if bool_decide (h = []) then HEADER
  else if (length h <? 6)%nat then write_cells 0 HEADER h
  else if (length h <? 7)%nat then
    let h' := write_cells 6 ["ステータス"] h in
    if item h 4 =? "重要度" then h' else write_cells 4 ["重要度"] h'
  else if item h 0 =? "ID" then h
  else write_cells 0 HEADER h.

(** The state after a remote call that did nothing but be recorded. *)
Definition called (c : api_call) (s : state) : state :=
  set_trace (trace s ++ [c]) s.

(** [get_all_todos] cannot answer from its cache: there is none, or it is
    older than [CACHE_DURATION] at the next reading of the clock. *)
Definition cache_unusable (s : state) : Prop :=
  match _todos_cache s, _cache_timestamp s with
  | Some _, Some t =>
      (CACHE_DURATION <= dt_micros (clock s (ticks s)) - dt_micros t)%Z
  | _, _ => True
  end.

(** What each variant of [get_all_todos_filtered] keeps. *)
Definition selected (status_filter : option string) (t : todo) : bool :=
  match status_filter with
  | None => is_open t
  | Some f => if f =? "完了" then is_completed t else true
  end.

(** *** The [add] route of app.py, as far as ids are concerned

    The route calls [add_todo] inside [try: ... except Exception], so that a
    failed call does not stop the process. *)
Record new_task := mk_new_task {
  n_title : string;
  n_content : string;
  n_due_date : string;
  n_priority : string
}.

Definition attempt {A} (m : M A) : M (outcome A) :=
  fun s => (Return (fst (m s)), snd (m s)).

Section AddMany.
Context {PS : PyStr}.

(** One call of [add_todo] after the other. *)
Fixpoint add_many (calls : list new_task) : M (list (outcome added)) :=
  match calls with
  | [] => ret []
  | c :: rest =>
      r <- attempt (add_todo (n_title c) (n_content c) (n_due_date c)
                      (n_priority c)) ;;
      rs <- add_many rest ;;
      ret (r :: rs)
  end.

End AddMany.

(** The ids that the successful calls have assigned, in order. *)
Definition assigned_ids (rs : list (outcome added)) : list string :=
  omap (fun r => match r with Return a => Some (a_id a) | Raise _ => None end) rs.


(** *** What a caller may do with the list it was given *)

(** [l.clear()] *)
Definition list_clear (l : ref) : M unit :=
  modify (fun s => set_heap_lists (<[l := []]> (heap_lists s)) s).

(** [l[i]], with Python's [IndexError]. *)
Definition list_get (l : ref) (i : nat) : M ref :=
  items <- gets (fun s => list_items s l) ;;
  match items !! i with
  | Some d => ret d
  | None => raise IndexError
  end.

(** [d["title"] = v] *)
Definition dict_set_title (d : ref) (v : string) : M unit :=
  modify (fun s =>
    let t := dict_at s d in
    set_heap_dicts
      (<[d := mk_todo (t_id t) (t_row t) v (t_content t) (t_due_date t)
                (t_priority t) (t_created_at t) (t_status t)]> (heap_dicts s)) s).

(** A caller empties the list it got from a read that went to the store,
    then reads again. The result holds what the two reads showed. *)
Definition clear_then_read_again : M (list todo * list todo) :=
  first <- get_all_todos ;;
  before <- gets (fun s => read_list s first) ;;
  list_clear first ;;;
  second <- get_all_todos ;;
  later <- gets (fun s => read_list s second) ;;
  ret (before, later).

(** A caller renames the first task of the list it got from a read that was
    answered from the cache, then reads again. *)
Definition rename_then_read_again : M (list todo * list todo) :=
  warm_up <- get_all_todos ;;
  served <- get_all_todos ;;
  before <- gets (fun s => read_list s served) ;;
  d <- list_get served 0 ;;
  dict_set_title d "changed by the caller" ;;;
  again <- get_all_todos ;;
  later <- gets (fun s => read_list s again) ;;
  ret (before, later).

(** [index] with [status=すべて] and [sort=due_date]: the list that
    [get_all_todos_filtered] returned is sorted in place; then a second
    read. *)
Definition sort_then_read_again : M (list todo * list todo) :=
  todos <- get_all_todos_filtered (Some "all") ;;
  before <- gets (fun s => read_list s todos) ;;
  sort_todos "due_date" todos ;;;
  again <- get_all_todos ;;
  later <- gets (fun s => read_list s again) ;;
  ret (before, later).

(** *** Orders on tasks *)

(** The order that the sort by due date produces: the key
    [(due_date or "9999-12-31", rank)] does not decrease. *)
Definition due_date_order (a b : todo) : Prop :=
  String.ltb (due_date_or_sentinel a) (due_date_or_sentinel b) = true
  \/ (due_date_or_sentinel a = due_date_or_sentinel b
      /\ (priority_rank a <= priority_rank b)%Z).

(** The order as the specification words it: due date ascending with the
    empty date as the sentinel, ties broken by priority descending. *)
Definition specified_due_date_order (a b : todo) : Prop :=
  String.ltb (due_date_or_sentinel a) (due_date_or_sentinel b) = true
  \/ (due_date_or_sentinel a = due_date_or_sentinel b
      /\ (priority_rank b <= priority_rank a)%Z).

(** What a caller sees of a read: the tasks in the list object returned,
    or the exception. *)
Definition listing (m : M ref) (s : state) : outcome (list todo) :=
  match m s with
  | (Return l, s') => Return (read_list s' l)
  | (Raise e, _) => Raise e
  end.

(** A plan in which the remote call number [n] (from 0) fails with [e]. *)
Definition fails_at (n : nat) (e : exn) : nat -> option exn :=
  fun k => if (k =? n)%nat then Some e else None.

(** *** Concrete stores *)

(** A store with a task whose id is not numeric, a row without id, an empty
    row, and a completed task with a priority outside the three levels. *)
Definition sample_rows : list cells :=
  [HEADER;
   ["abc"; "Buy milk"];
   [""; "no id"];
   [];
   ["12"; "Write report"; ""; "2025-01-05"; "urgent"; "2025-01-01 09:00:00"; "完了"]].

Definition sample_process : state :=
  fresh_process (Some "sheet-1") (Some sample_rows) no_faults.

(** The same store, when the call that reads the rows (the fifth remote
    call of a new process) fails. *)
Definition failing_read_process : state :=
  fresh_process (Some "sheet-1") (Some sample_rows)
    (fails_at 4 (APIError "quota exceeded")).

(** The same store, when opening the spreadsheet (the second remote call)
    fails. *)
Definition failing_open_process : state :=
  fresh_process (Some "sheet-1") (Some sample_rows)
    (fails_at 1 (APIError "quota exceeded")).

(** A store whose header row has the three columns that the code looks at,
    and other names in the remaining columns. *)
Definition other_header : cells :=
  ["ID"; "Name"; "Notes"; "Deadline"; "重要度"; "Created"; "ステータス"].

Definition other_header_process : state :=
  fresh_process (Some "sheet-1") (Some [other_header; ["1"; "Buy milk"]]) no_faults.

(** A store in which no task has a numeric id. *)
Definition non_numeric_process : state :=
  fresh_process (Some "sheet-1") (Some [HEADER; ["abc"; "Buy milk"]]) no_faults.

(** The two tasks of [sample_rows], as [get_all_todos] builds them. *)
Definition task_abc : todo := mk_todo "abc" 2 "Buy milk" "" "" "中" "" "".
Definition task_12 : todo :=
  mk_todo "12" 5 "Write report" "" "2025-01-05" "urgent" "2025-01-01 09:00:00" "完了".

(** Two tasks due on the same day, one of high and one of low priority. *)
Definition milk_high : todo :=
  mk_todo "1" 2 "Buy milk" "" "2025-01-10" "高" "2025-01-01 09:00:00" "".
Definition report_low : todo :=
  mk_todo "2" 3 "Write report" "" "2025-01-10" "低" "2025-01-01 09:05:00" "".

(** *** The numbers behind the ids *)

Section NextNumber.
Context {PS : PyStr}.

(** The number whose decimal writing [add_todo] takes as the new id. *)
Definition next_number (todos : list todo) : outcome Z :=
  match todos with
  | [] => Return 1%Z
  | _ :: _ =>
      match numeric_ids todos with
      | Return ns =>
          match py_max ns with
          | Return max_id => Return (max_id + 1)%Z
          | Raise e => Raise e
          end
      | Raise e => Raise e
      end
  end.

(** A process in which [add_todo] has failed on the ids it read: the store
    is resolved, and the cache holds the tasks of the store, for which the
    computation of the new id raises [e]. *)
Definition stuck (e : exn) (s : state) : Prop :=
  exists sp ws l stamp rows,
    _spreadsheet_cache s = Some sp /\
    _worksheet_cache s = Some ws /\
    _todos_cache s = Some l /\
    _cache_timestamp s = Some stamp /\
    l < length (heap_lists s) /\
    sheet s = Some rows /\
    1 < length rows /\
    read_list s l = parse_rows 2 (drop 1 rows) /\
    new_id_of (parse_rows 2 (drop 1 rows)) = Raise e.

End NextNumber.


(** Two calls of [add_todo], those of the example of the specification. *)
Definition two_calls : list new_task :=
  [mk_new_task "Buy milk" "" "2025-01-10" "高";
   mk_new_task "Write report" "" "2025-01-05" "低"].

(** A new process on a worksheet that holds the header row only. *)
Definition empty_store_process : state :=
  fresh_process (Some "sheet-1") (Some [HEADER]) no_faults.

(** The sample store, when the read of the rows made by the second call of
    [add_todo] (the tenth remote call) fails. *)
Definition failing_second_read_process : state :=
  fresh_process (Some "sheet-1") (Some sample_rows)
    (fails_at 9 (APIError "quota exceeded")).

(** The ids assigned by the calls [calls], or nothing when the sequence
    itself raises. *)
Definition ids_assigned_by {PS : PyStr} (calls : list new_task) (s : state)
    : option (list string) :=
  match result (add_many calls) s with
  | Return rs => Some (assigned_ids rs)
  | Raise _ => None
  end.

(** The example of the specification: the tasks are added, all are listed,
    and the list is sorted by priority and then by due date. The result
    holds the titles in the two orders. *)
Definition add_then_sort {PS : PyStr} (calls : list new_task)
    : M (list string * list string) :=
  add_many calls ;;;
  todos <- get_all_todos_filtered (Some "all") ;;
  sort_todos "priority" todos ;;;
  by_priority <- gets (fun s => t_title <$> read_list s todos) ;;
  sort_todos "due_date" todos ;;;
  by_due_date <- gets (fun s => t_title <$> read_list s todos) ;;
  ret (by_priority, by_due_date).

(** A process that has resolved its store once and cleared its caches; at
    the start the worksheet did not exist, or had a header row of six cells
    that does not start with ["ID"]. *)
Definition resolved_once (rows : option (list cells)) : state :=
  after (get_or_create_spreadsheet ;;; clear_cache)
    (fresh_process (Some "sheet-1") rows no_faults).

Definition six_cells : cells := ["No"; "タイトル"; "内容"; "期日"; "重要度"; "作成日時"].

(** *** Vocabulary of the statements about the calls that write *)

(** The task [t] once [update_todo] has written the four cells of its row. *)
Definition edited (title content due_date priority : string) (t : todo) : todo :=
  mk_todo (t_id t) (t_row t) title content due_date priority
    (t_created_at t) (t_status t).

(** [y] is the task [x] once [complete_todo] has written the status cell of
    its row.  A row that had no priority cell gets an empty one when the
    row is filled up to the status cell. *)
Definition completed_version (x y : todo) : Prop :=
  t_status y = "完了" /\
  t_id y = t_id x /\ t_row y = t_row x /\ t_title y = t_title x /\
  t_content y = t_content x /\ t_due_date y = t_due_date x /\
  t_created_at y = t_created_at x /\
  (t_priority y = t_priority x \/ t_priority y = "").

(** The task [t] read from the row above. *)
Definition moved_up (t : todo) : todo :=
  mk_todo (t_id t) (pred (t_row t)) (t_title t) (t_content t) (t_due_date t)
    (t_priority t) (t_created_at t) (t_status t).

(** A clock that advances by one minute at every reading, and a new
    process that reads it. *)
Definition slow_clock : nat -> datetime :=
  fun n => mk_datetime (Z.of_nat n * 60000000)%Z "2025-01-01 00:00:00".

Definition slow_process : state :=
  mk_state None None None None None [] [] (Some "sheet-1") true (Some sample_rows)
    no_faults [] slow_clock 0 [].

(** The remote calls that [get_sheets_client] makes: none once the client
    is kept in the global. *)
Definition authorization (s : state) : list api_call :=
  match _sheets_client s with
  | Some _ => []
  | None => [Authorize]
  end.

(** The store is not resolved, or no longer. *)
Definition unresolved (s : state) : Prop :=
  _spreadsheet_cache s = None \/ _worksheet_cache s = None.

(** A process that holds an authorized client, when the next remote call
    fails with [e]. *)
Definition authorized_process (e : exn) : state :=
  mk_state (Some ClientHandle) None None None None [] [] (Some "sheet-1") true
    (Some sample_rows) (fails_at 1 e) [Authorize] one_second_clock 0 [].

(** *** Invariants of the calls *)

(** [m] leaves every state it is run in related by [R] to the state it
    ends in, whether it returns or raises. *)
Definition keeps {A} (R : state -> state -> Prop) (m : M A) : Prop :=
  forall s, R s (after m s).

(** The rows below the header row are the same. *)
Definition same_data_rows (s s' : state) : Prop :=
  tl (rows_of s') = tl (rows_of s).

Definition is_authorize (c : api_call) : bool :=
  match c with Authorize => true | _ => false end.

(** How often the client has been authorized, or tried to be. *)
Definition authorizations (s : state) : nat :=
  length (List.filter is_authorize (trace s)).

(** A process that holds a client keeps it, and does not authorize again. *)
Definition stays_authorized (s s' : state) : Prop :=
  _sheets_client s <> None ->
  _sheets_client s' <> None /\ authorizations s' = authorizations s.

(** The calls that the routes of app.py make to the repository. *)
Inductive repository_call :=
  | ListTodos (status_filter : option string)
  | AddTodo (title content due_date priority : string)
  | UpdateTodo (row : nat) (title content due_date priority : string)
  | DeleteTodo (row : nat)
  | CompleteTodo (row : nat).

Definition run {PS : PyStr} (c : repository_call) : M unit :=
  match c with
  | ListTodos f => get_all_todos_filtered f ;;; ret tt
  | AddTodo title content due_date priority =>
      add_todo title content due_date priority ;;; ret tt
  | UpdateTodo row title content due_date priority =>
      update_todo row title content due_date priority
  | DeleteTodo row => delete_todo row
  | CompleteTodo row => complete_todo row
  end.

Definition is_mutation (c : repository_call) : bool :=
  match c with ListTodos _ => false | _ => true end.

(** One request after the other; a request that fails does not stop the
    process. *)
Fixpoint serve {PS : PyStr} (calls : list repository_call) : M unit :=
  match calls with
  | [] => ret tt
  | c :: rest => attempt (run c) ;;; serve rest
  end.

(** What [clear_cache] leaves: no list of tasks, no time stamp, no handle
    of the spreadsheet or the worksheet. *)
Definition cleared (s : state) : Prop :=
  _todos_cache s = None /\ _cache_timestamp s = None /\
  _spreadsheet_cache s = None /\ _worksheet_cache s = None.



(** Requests of one session: a listing, an added task, a deleted row. *)
Definition session : list repository_call :=
  [ListTodos None; AddTodo "Call Bob" "" "2025-03-01" "低"; DeleteTodo 2;
   ListTodos (Some "完了")].

(** *** More orders on tasks *)

(** The order that the sort by priority produces: the key [(rank, due_date)]
    does not increase.  Within one rank the later due date comes first, and
    a task without due date comes last. *)
Definition priority_sort_order (a b : todo) : Prop :=
  (priority_rank b < priority_rank a)%Z
  \/ (priority_rank a = priority_rank b
      /\ (String.ltb (t_due_date b) (t_due_date a) = true
          \/ t_due_date a = t_due_date b)).

(** The tasks of rank [rank] that are due on [due]. *)
Definition tied (rank : Z) (due : string) (t : todo) : bool :=
  (priority_rank t =? rank)%Z && (t_due_date t =? due)%string.

(** ** app.py: [index] (lines 26-73), the body of its [try] statement *)

(** [(datetime.now().date() + timedelta(days=n)).strftime("%Y-%m-%d")]: the
    text of the date [n] days after the day of a reading of the clock.  The
    calendar is the datetime library's, not the repository's: an
    interface. *)
Class Calendar := {
  date_text : datetime -> nat -> string
}.

(** The truth value of a string: it is not empty. *)
Definition truthy (s : string) : bool := negb (s =? "").

Section Index.
Context {CAL : Calendar}.

(** The list that [index] passes to the template, from the four request
    parameters. *)
Definition index_todos (status_filter priority_filter due_date_filter sort_by : string)
    : M ref :=
  todos <-
    (if status_filter =? "完了" then get_all_todos_filtered (Some "完了")
     else if status_filter =? "すべて" then get_all_todos_filtered (Some "all")
     else get_all_todos_filtered None) ;;
  todos <-
    (if negb (priority_filter =? "すべて") then
       comprehension (fun todo => t_priority todo =? priority_filter) todos
     else ret todos) ;;
  now <- datetime_now ;;
  let today_str := date_text now 0 in
  let week_later := date_text now 7 in
  let month_later := date_text now 30 in
  todos <-
    (if due_date_filter =? "今日" then
       comprehension (fun todo => t_due_date todo =? today_str) todos
     else if due_date_filter =? "今週" then
       comprehension
         (fun todo => truthy (t_due_date todo)
                      && String.leb today_str (t_due_date todo)
                      && String.leb (t_due_date todo) week_later) todos
     else if due_date_filter =? "今月" then
       comprehension
         (fun todo => truthy (t_due_date todo)
                      && String.leb today_str (t_due_date todo)
                      && String.leb (t_due_date todo) month_later) todos
     else if due_date_filter =? "期限切れ" then
       comprehension
         (fun todo => truthy (t_due_date todo)
                      && String.ltb (t_due_date todo) today_str) todos
     else if due_date_filter =? "期日未設定" then
       comprehension (fun todo => negb (truthy (t_due_date todo))) todos
     else ret todos) ;;
  sort_todos sort_by todos ;;;
  ret todos.

End Index.

(** *** Vocabulary for [index] *)

(** The argument that [index] gives to [get_all_todos_filtered]. *)
Definition status_argument (status_filter : string) : option string :=
  if status_filter =? "完了" then Some "完了"
  else if status_filter =? "すべて" then Some "all"
  else None.

(** The tasks that the two later filters of [index] keep, when today's
    date and the dates 7 and 30 days later read [today], [week] and
    [month]. *)
Definition passes (priority_filter due_date_filter today week month : string)
    (t : todo) : bool :=
  ((priority_filter =? "すべて") || (t_priority t =? priority_filter))
  && (if due_date_filter =? "今日" then t_due_date t =? today
      else if due_date_filter =? "今週" then
        truthy (t_due_date t) && String.leb today (t_due_date t)
        && String.leb (t_due_date t) week
      else if due_date_filter =? "今月" then
        truthy (t_due_date t) && String.leb today (t_due_date t)
        && String.leb (t_due_date t) month
      else if due_date_filter =? "期限切れ" then
        truthy (t_due_date t) && String.ltb (t_due_date t) today
      else if due_date_filter =? "期日未設定" then negb (truthy (t_due_date t))
      else true).

(** The order of the result. *)
Definition arranged (sort_by : string) (l : list todo) : list todo :=
  if sort_by =? "priority" then py_sort priority_key_ltb priority_key true l
  else if sort_by =? "due_date" then py_sort due_date_key_ltb due_date_key false l
  else l.

(** A calendar for the examples: every reading of the clock is taken on
    2025-01-10. *)
Definition january_10 : Calendar :=
  {| date_text := fun _ n =>
       if (n =? 0)%nat then "2025-01-10"
       else if (n =? 7)%nat then "2025-01-17"
       else "2025-02-09" |}.

(** The dates of the calendar read in ascending order as texts, which
    dates in the form %Y-%m-%d do up to the year 9999, and today's date is
    not the empty text. *)
Definition ascending_dates {CAL : Calendar} : Prop :=
  forall now,
    date_text now 0 <> "" /\
    String.leb (date_text now 0) (date_text now 7) = true /\
    String.leb (date_text now 7) (date_text now 30) = true.

(** The filters on the due date that name a span of days. *)
Definition dated_filters : list string := ["今日"; "今週"; "今月"; "期限切れ"].

(** A store with a task due on 2025-01-10, one due five days later, one due
    three weeks later, and one without due date. *)
Definition dated_rows : list cells :=
  [HEADER;
   ["1"; "Pay rent"; ""; "2025-01-10"; "高"; "2025-01-01 09:00:00"; ""];
   ["2"; "Book flight"; ""; "2025-01-15"; "中"; "2025-01-01 09:00:00"; ""];
   ["3"; "Renew passport"; ""; "2025-02-01"; "低"; "2025-01-01 09:00:00"; ""];
   ["4"; "Learn chess"; ""; ""; "中"; "2025-01-01 09:00:00"; ""]].

Definition dated_process : state :=
  fresh_process (Some "sheet-1") (Some dated_rows) no_faults.

Definition pay_rent : todo :=
  mk_todo "1" 2 "Pay rent" "" "2025-01-10" "高" "2025-01-01 09:00:00" "".
Definition book_flight : todo :=
  mk_todo "2" 3 "Book flight" "" "2025-01-15" "中" "2025-01-01 09:00:00" "".
Definition renew_passport : todo :=
  mk_todo "3" 4 "Renew passport" "" "2025-02-01" "低" "2025-01-01 09:00:00" "".
Definition learn_chess : todo :=
  mk_todo "4" 5 "Learn chess" "" "" "中" "2025-01-01 09:00:00" "".

(** ** app.py: [edit] (lines 130-167) *)

(** The messages that [edit] flashes; [ErrorOccurred e] is the message made
    of the text of [e]. *)
Inductive flash_message :=
  | TodoNotFound
  | TitleRequired
  | TodoUpdated
  | ErrorOccurred (e : exn).

(** What a route returns: a redirection to an endpoint, or a template
    rendered with a task. *)
Inductive response :=
  | Redirect (endpoint : string)
  | RenderTemplate (template : string) (todo : ref).

(** The fields of the form of a POST request, after [strip()]. *)
Record form := mk_form {
  f_title : string;
  f_content : string;
  f_due_date : string;
  f_priority : string
}.

(** The loop [for t in todos: if t["row"] == row: todo = t; break]. *)
Definition find_by_row (row : nat) (todos : ref) : M (option ref) :=
  gets (fun s => List.find (fun d => (t_row (dict_at s d) =? row)%nat)
                   (list_items s todos)).

(** [edit(row)]; [post] is the form of a POST request, [None] for a GET
    request.  The result holds the messages flashed and the response. *)
Definition edit (row : nat) (post : option form)
    : M (list flash_message * response) :=
  todos <- get_all_todos_filtered (Some "all") ;;
  todo <- find_by_row row todos ;;
  match todo with
  | None => ret ([TodoNotFound], Redirect "index")
  | Some todo =>
      match post with
      | Some f =>
          if f_title f =? "" then
            ret ([TitleRequired], RenderTemplate "edit.html" todo)
          else
            try_except
              (update_todo row (f_title f) (f_content f) (f_due_date f)
                 (f_priority f) ;;;
               ret ([TodoUpdated], Redirect "index"))
              any_exception
              (fun e => ret ([ErrorOccurred e], RenderTemplate "edit.html" todo))
      | None => ret ([], RenderTemplate "edit.html" todo)
      end
  end.

(** A caller empties the list it got from a read that was answered from
    the cache, then reads again.  The result holds what the second read
    shows. *)
Definition clear_copy_then_read_again : M (list todo) :=
  served <- get_all_todos ;;
  list_clear served ;;;
  again <- get_all_todos ;;
  gets (fun s => read_list s again).

(** The cache of a process holds the list object [l], filled at [t], and
    the next two readings of the clock fall within [CACHE_DURATION] of
    [t]. *)
Definition warm (l : ref) (t : datetime) (s : state) : Prop :=
  _todos_cache s = Some l /\ _cache_timestamp s = Some t /\
  l < length (heap_lists s) /\
  (dt_micros (clock s (ticks s)) - dt_micros t < CACHE_DURATION)%Z /\
  (dt_micros (clock s (S (ticks s))) - dt_micros t < CACHE_DURATION)%Z.

(* ================================================================== *)
(** * Properties *)

(** ** Running the monad step by step *)

Arguments update : simpl never.
Arguments row_values : simpl never.
Arguments write_row : simpl never.
Arguments write_cells : simpl never.
Arguments bind : simpl never.

Lemma bind_Return {A B} (m : M A) (k : A -> M B) s a s' :
  m s = (Return a, s') -> bind m k s = k a s'.
Proof. unfold bind. intros ->. reflexivity. Qed.

Lemma bind_Raise {A B} (m : M A) (k : A -> M B) s e s' :
  m s = (Raise e, s') -> bind m k s = (Raise e, s').
Proof. unfold bind. intros ->. reflexivity. Qed.

Lemma write_row_first_cons c vs h rest :
  write_row 1 c vs (h :: rest) = write_cells c vs h :: rest.
Proof. unfold write_row. simpl. rewrite app_nil_r. reflexivity. Qed.

Lemma write_row_first_nil c vs : write_row 1 c vs [] = [write_cells c vs []].
Proof. reflexivity. Qed.

Lemma write_row_first c vs rows :
  write_row 1 c vs rows = write_cells c vs (hd [] rows) :: tl rows.
Proof. destruct rows; [apply write_row_first_nil|apply write_row_first_cons]. Qed.

Lemma remote_ok c s :
  fault_free s -> remote c s = (Return tt, set_trace (trace s ++ [c]) s).
Proof. intros H. unfold remote. rewrite H. reflexivity. Qed.

Lemma row_values_ok ws r s rows :
  fault_free s -> sheet s = Some rows ->
  row_values ws r s =
    (Return (default [] (rows !! pred r)), set_trace (trace s ++ [RowValues r]) s).
Proof.
  intros Hf Hs. unfold row_values.
  rewrite (bind_Return _ _ _ _ _ (remote_ok _ _ Hf)).
  unfold bind, the_rows. simpl. rewrite Hs. reflexivity.
Qed.

Lemma update_ok ws r c vs s rows :
  fault_free s -> sheet s = Some rows ->
  update ws r c vs s =
    (Return tt,
     set_sheet (Some (write_row r c vs rows)) (set_trace (trace s ++ [Update r c vs]) s)).
Proof.
  intros Hf Hs. unfold update.
  rewrite (bind_Return _ _ _ _ _ (remote_ok _ _ Hf)).
  unfold bind, the_rows, modify. simpl. rewrite Hs. reflexivity.
Qed.

Lemma set_sheet_set_trace_same s tr rows :
  sheet s = Some rows -> set_sheet (Some rows) (set_trace tr s) = set_trace tr s.
Proof. destruct s; simpl; intros ->; reflexivity. Qed.

Lemma set_sheet_twice v w tr tr' s :
  set_sheet v (set_trace tr (set_sheet w (set_trace tr' s))) =
  set_sheet v (set_trace tr s).
Proof. destruct s; reflexivity. Qed.

Lemma set_trace_twice tr tr' s :
  set_trace tr (set_trace tr' s) = set_trace tr s.
Proof. destruct s; reflexivity. Qed.

Lemma check_header_ok ws s rows :
  fault_free s -> sheet s = Some rows ->
  exists tr,
    check_header ws s =
      (Return tt,
       set_sheet (Some (repaired_header (hd [] rows) :: tl rows)) (set_trace tr s)).
Proof.
  intros Hf Hs. unfold check_header, try_except.
  rewrite (bind_Return _ _ _ _ _ (row_values_ok ws 1 s rows Hf Hs)).
  replace (default [] (rows !! pred 1)) with (hd [] rows) by (destruct rows; reflexivity).
  set (s1 := set_trace (trace s ++ [RowValues 1]) s).
  assert (Hf1 : fault_free s1) by exact Hf.
  assert (Hs1 : sheet s1 = Some rows) by exact Hs.
  assert (Hfull : update ws 1 0 HEADER s1 =
     (Return tt, set_sheet (Some (write_cells 0 HEADER (hd [] rows) :: tl rows))
                   (set_trace (trace s1 ++ [Update 1 0 HEADER]) s))).
  { rewrite (update_ok ws 1 0 HEADER s1 rows Hf1 Hs1), write_row_first.
    unfold s1. rewrite set_trace_twice. reflexivity. }
  assert (Hnone : exists tr, (Return tt, s1) =
     (Return tt, set_sheet (Some (hd [] rows :: tl rows)) (set_trace tr s)) \/ rows = []).
  { exists (trace s ++ [RowValues 1]). destruct rows; [right; reflexivity|left].
    simpl. rewrite set_sheet_set_trace_same by exact Hs. reflexivity. }
  unfold repaired_header.
  destruct (hd [] rows) as [|a [|b [|c [|d [|e [|f [|g h]]]]]]] eqn:Hh.
  - simpl. rewrite Hfull. eexists. reflexivity.
  - simpl. rewrite orb_true_r. rewrite Hfull. eexists. reflexivity.
  - simpl. rewrite orb_true_r. rewrite Hfull. eexists. reflexivity.
  - simpl. rewrite orb_true_r. rewrite Hfull. eexists. reflexivity.
  - simpl. rewrite orb_true_r. rewrite Hfull. eexists. reflexivity.
  - simpl. rewrite orb_true_r. rewrite Hfull. eexists. reflexivity.
  - (* six cells *)
    cbn [length Nat.ltb Nat.leb orb negb bool_decide decide_rel].
    replace (bool_decide ([a; b; c; d; e; f] = [])) with false by reflexivity.
    replace (negb (item [a; b; c; d; e; f] 0 =? "ID") || true) with true
      by (destruct (item _ 0 =? "ID")%string; reflexivity).
    cbv iota. unfold when.
    rewrite (bind_Return _ _ _ _ _ (update_ok ws 1 6 ["ステータス"] s1 rows Hf1 Hs1)).
    rewrite write_row_first, Hh.
    replace (item [a; b; c; d; e; f] 4) with e by reflexivity.
    simpl orb.
    destruct (e =? "重要度")%string; cbn [negb].
    + unfold ret, s1. rewrite set_trace_twice. eexists. reflexivity.
    + erewrite update_ok; [|exact Hf|reflexivity].
      rewrite write_row_first. simpl hd. simpl tl.
      unfold s1. rewrite set_trace_twice. simpl trace.
      rewrite set_sheet_twice. eexists. reflexivity.
  - (* seven cells or more *)
    replace (bool_decide (a :: b :: c :: d :: e :: f :: g :: h = [])) with false
      by reflexivity.
    replace (length (a :: b :: c :: d :: e :: f :: g :: h) <? 7)%nat with false
      by reflexivity.
    replace (length (a :: b :: c :: d :: e :: f :: g :: h) <? 6)%nat with false
      by reflexivity.
    replace (item (a :: b :: c :: d :: e :: f :: g :: h) 0) with a by reflexivity.
    rewrite orb_false_r.
    destruct (a =? "ID")%string; cbn [negb].
    + destruct Hnone as [tr [Hn|Hn]]; [|subst rows; discriminate].
      exists tr. unfold ret. rewrite Hn. reflexivity.
    + rewrite Hfull. eexists. reflexivity.
Qed.

Lemma bind_gets {A B} (f : state -> A) (k : A -> M B) s :
  bind (gets f) k s = k (f s) s.
Proof. reflexivity. Qed.

Lemma bind_modify {B} (f : state -> state) (k : unit -> M B) s :
  bind (modify f) k s = k tt (f s).
Proof. reflexivity. Qed.

Lemma bind_ret {A B} (a : A) (k : A -> M B) s : bind (ret a) k s = k a s.
Proof. reflexivity. Qed.

Lemma try_Return {A} (m : M A) c h s a s' :
  m s = (Return a, s') -> try_except m c h s = (Return a, s').
Proof. unfold try_except. intros ->. reflexivity. Qed.

Lemma try_Raise {A} (m : M A) c h s e s' :
  m s = (Raise e, s') -> try_except m c h s = if c e then h e s' else (Raise e, s').
Proof. unfold try_except. intros ->. reflexivity. Qed.

Lemma get_sheets_client_ok s :
  fault_free s ->
  exists tr,
    get_sheets_client s =
      (Return ClientHandle, set_sheets_client (Some ClientHandle) (set_trace tr s)).
Proof.
  intros Hf. unfold get_sheets_client. rewrite bind_gets.
  destruct (_sheets_client s) as [[]|] eqn:Hc.
  - exists (trace s). unfold ret. f_equal. destruct s; simpl in *; subst; reflexivity.
  - unfold authorize.
    rewrite (bind_Return _ _ _ _ _
      (bind_Return _ (fun _ => ret ClientHandle) _ _ _ (remote_ok Authorize s Hf))).
    rewrite bind_modify. eexists. reflexivity.
Qed.

Lemma open_by_key_ok client key s :
  fault_free s ->
  open_by_key client key s =
    (Return (SpreadsheetHandle key), set_trace (trace s ++ [OpenByKey key]) s).
Proof.
  intros Hf. unfold open_by_key.
  rewrite (bind_Return _ _ _ _ _ (remote_ok _ s Hf)). reflexivity.
Qed.

(** The rows found once the worksheet has been looked up or created. *)
Lemma find_worksheet_ok sp s :
  fault_free s ->
  exists tr,
    try_except (worksheet sp "Todos") is_worksheet_not_found
      (fun _ =>
         ws <- add_worksheet sp "Todos" 1000 10 ;;
         append_row ws CREATED_HEADER ;;;
         ret ws) s =
      (Return (WorksheetHandle "Todos"),
       set_sheet (Some (match sheet s with Some rows => rows | None => [CREATED_HEADER] end))
         (set_trace tr s)).
Proof.
  intros Hf. destruct (sheet s) as [rows|] eqn:Hs.
  - exists (trace s ++ [GetWorksheet "Todos"]).
    apply try_Return.
    unfold worksheet. rewrite (bind_Return _ _ _ _ _ (remote_ok _ s Hf)).
    rewrite bind_gets. simpl. rewrite Hs. simpl.
    rewrite (set_sheet_set_trace_same s _ rows Hs). reflexivity.
  - eexists. erewrite try_Raise; cycle 1.
    { unfold worksheet. rewrite (bind_Return _ _ _ _ _ (remote_ok _ s Hf)).
      rewrite bind_gets. simpl. rewrite Hs. simpl. reflexivity. }
    simpl. unfold add_worksheet.
    erewrite bind_Return; cycle 1.
    { erewrite bind_Return; [|apply remote_ok; exact Hf].
      rewrite bind_gets. simpl. rewrite Hs. simpl.
      rewrite bind_modify. reflexivity. }
    unfold append_row.
    erewrite bind_Return; cycle 1.
    { erewrite bind_Return; [|apply remote_ok; exact Hf].
      unfold bind, the_rows, modify. simpl. reflexivity. }
    unfold ret. reflexivity.
Qed.

Lemma resolve_cold s key :
  fault_free s -> env_SPREADSHEET_ID s = Some key -> key <> "" ->
  _spreadsheet_cache s = None \/ _worksheet_cache s = None ->
  exists tr,
    get_or_create_spreadsheet s =
      (Return (SpreadsheetHandle key, WorksheetHandle "Todos"),
       mk_state (Some ClientHandle) (Some (SpreadsheetHandle key))
         (Some (WorksheetHandle "Todos")) (_todos_cache s) (_cache_timestamp s)
         (heap_lists s) (heap_dicts s) (env_SPREADSHEET_ID s) (env_file_exists s)
         (Some (repaired_header (header_of s) :: tl (rows_of s)))
         (fault_plan s) tr (clock s) (ticks s) (stdout s)).
Proof.
  intros Hf Hkey Hne Hcold.
  apply String.eqb_neq in Hne.
  unfold get_or_create_spreadsheet. rewrite !bind_gets.
  assert (Hgo : forall (X : Type) (a : Spreadsheet -> Worksheet -> X) (b : X),
             match _spreadsheet_cache s, _worksheet_cache s with
             | Some sp, Some ws => a sp ws
             | _, _ => b
             end = b).
  { intros X a b. destruct Hcold as [-> | ->]; [reflexivity|].
    destruct (_spreadsheet_cache s); reflexivity. }
  rewrite Hgo. clear Hgo.
  destruct (get_sheets_client_ok s Hf) as [tr1 H1].
  rewrite (bind_Return _ _ _ _ _ H1). rewrite !bind_gets.
  set (s1 := set_sheets_client (Some ClientHandle) (set_trace tr1 s)).
  assert (Hf1 : fault_free s1) by exact Hf.
  replace (env_SPREADSHEET_ID s1) with (Some key) by (symmetry; exact Hkey).
  rewrite Hne.
  erewrite bind_Return; cycle 1.
  { eapply try_Return. apply open_by_key_ok. exact Hf1. }
  set (s2 := set_trace (trace s1 ++ [OpenByKey key]) s1).
  assert (Hf2 : fault_free s2) by exact Hf.
  destruct (find_worksheet_ok (SpreadsheetHandle key) s2 Hf2) as [tr3 H3].
  rewrite (bind_Return _ _ _ _ _ H3).
  match type of H3 with _ = (_, ?st) => set (s3 := st) end.
  assert (Hf3 : fault_free s3) by exact Hf.
  destruct (check_header_ok (WorksheetHandle "Todos") s3 _ Hf3 eq_refl) as [tr4 H4].
  rewrite (bind_Return _ _ _ _ _ H4).
  rewrite !bind_modify. unfold ret.
  exists tr4. f_equal.
  unfold header_of, rows_of.
  destruct s as [cl sc wc tc ts hl hd k ef sh plan tr ck tk out].
  simpl in *. subst k.
  destruct sh as [rows|]; simpl; [reflexivity|].
  reflexivity.
Qed.

(** ** The heap *)

Lemma insert_lookup_total_id {A} `{Inhabited A} (l : list A) i :
  <[i := l !!! i]> l = l.
Proof.
  destruct (decide (i < length l)) as [Hlt|Hge].
  - apply list_insert_id. apply list_lookup_lookup_total_lt. exact Hlt.
  - apply list_insert_ge. lia.
Qed.

Lemma lookup_total_snoc {A} `{Inhabited A} (l : list A) x :
  (l ++ [x]) !!! length l = x.
Proof. apply list_lookup_total_middle. reflexivity. Qed.

Lemma insert_snoc {A} (l : list A) x y : <[length l := y]> (l ++ [x]) = l ++ [y].
Proof.
  rewrite insert_app_r_alt by lia. rewrite Nat.sub_diag. reflexivity.
Qed.

(** Dicts allocated one after the other are read back in order. *)
Lemma read_back (old new : list todo) :
  (fun d => (old ++ new) !!! d) <$> seq (length old) (length new) = new.
Proof.
  revert old. induction new as [|t new IH]; intros old; [reflexivity|].
  simpl. f_equal.
  - apply list_lookup_total_middle. reflexivity.
  - specialize (IH (old ++ [t])). rewrite <- app_assoc, length_app in IH.
    simpl in IH. replace (length old + 1) with (S (length old)) in IH by lia.
    exact IH.
Qed.

Lemma collect_todos_spec rows : forall i l s,
  l < length (heap_lists s) ->
  collect_todos l i rows s =
    (Return tt,
     set_heap_lists
       (<[l := list_items s l ++ seq (length (heap_dicts s)) (length (parse_rows i rows))]>
          (heap_lists s))
       (set_heap_dicts (heap_dicts s ++ parse_rows i rows) s)).
Proof.
  induction rows as [|row rest IH]; intros i l s Hl; simpl.
  - unfold ret, list_items. rewrite !app_nil_r, insert_lookup_total_id.
    destruct s; reflexivity.
  - destruct (skipped row); [apply IH; exact Hl|].
    unfold bind, alloc_dict, list_append, modify. simpl.
    rewrite IH by (simpl; rewrite length_insert; exact Hl).
    destruct s as [cl sc wc tc ts hl hd key ef sh plan tr ck tk out].
    unfold list_items, set_heap_lists, set_heap_dicts in *. simpl in *.
    rewrite list_insert_insert_eq.
    rewrite list_lookup_total_insert_eq by exact Hl.
    rewrite length_app. simpl.
    rewrite <- !app_assoc. simpl.
    replace (length hd + 1) with (S (length hd)) by lia.
    reflexivity.
Qed.

(** ** [read_todos] case by case *)

Lemma get_all_values_ok ws s rows :
  fault_plan s (length (trace s)) = None -> sheet s = Some rows ->
  get_all_values ws s = (Return rows, set_trace (trace s ++ [GetAllValues]) s).
Proof.
  intros Hp Hs. unfold get_all_values, bind, remote, the_rows.
  rewrite Hp. simpl. rewrite Hs. reflexivity.
Qed.

Lemma read_todos_failed ws now s e :
  fault_plan s (length (trace s)) = Some e ->
  read_todos ws now s =
    if index_or_api_error e then
      (Return (length (heap_lists s)),
       set_heap_lists (heap_lists s ++ [[]])
         (set_stdout (stdout s ++ [fetch_warning e]) (called GetAllValues s)))
    else (Raise e, called GetAllValues s).
Proof.
  intros Hp. unfold read_todos.
  erewrite try_Raise; cycle 1.
  { unfold get_all_values. apply bind_Raise. apply bind_Raise.
    unfold remote. rewrite Hp. reflexivity. }
  reflexivity.
Qed.

Lemma read_todos_missing ws now s :
  fault_plan s (length (trace s)) = None -> sheet s = None ->
  read_todos ws now s =
    (Return (length (heap_lists s)),
     set_heap_lists (heap_lists s ++ [[]])
       (set_stdout (stdout s ++ [fetch_warning (APIError "worksheet not found")])
          (called GetAllValues s))).
Proof.
  intros Hp Hs. unfold read_todos.
  erewrite try_Raise; cycle 1.
  { apply bind_Raise. unfold get_all_values, bind, remote, the_rows.
    rewrite Hp. simpl. rewrite Hs. reflexivity. }
  reflexivity.
Qed.

Lemma read_todos_short ws now s rows :
  fault_plan s (length (trace s)) = None -> sheet s = Some rows ->
  length rows <= 1 ->
  read_todos ws now s =
    (Return (length (heap_lists s)),
     set_heap_lists (heap_lists s ++ [[]]) (called GetAllValues s)).
Proof.
  intros Hp Hs Hlen. unfold read_todos.
  apply try_Return.
  rewrite (bind_Return _ _ _ _ _ (get_all_values_ok ws s rows Hp Hs)).
  apply Nat.leb_le in Hlen. rewrite Hlen. reflexivity.
Qed.

Lemma read_todos_full ws now s rows :
  fault_plan s (length (trace s)) = None -> sheet s = Some rows ->
  1 < length rows ->
  read_todos ws now s =
    (Return (length (heap_lists s)),
     mk_state (_sheets_client s) (_spreadsheet_cache s) (_worksheet_cache s)
       (Some (length (heap_lists s))) (Some now)
       (heap_lists s ++
          [seq (length (heap_dicts s)) (length (parse_rows 2 (drop 1 rows)))])
       (heap_dicts s ++ parse_rows 2 (drop 1 rows))
       (env_SPREADSHEET_ID s) (env_file_exists s) (sheet s) (fault_plan s)
       (trace s ++ [GetAllValues]) (clock s) (ticks s) (stdout s)).
Proof.
  intros Hp Hs Hlen. unfold read_todos.
  apply try_Return.
  rewrite (bind_Return _ _ _ _ _ (get_all_values_ok ws s rows Hp Hs)).
  apply Nat.leb_gt in Hlen. rewrite Hlen.
  unfold alloc_list at 1. unfold bind at 1.
  erewrite bind_Return; cycle 1.
  { apply collect_todos_spec. simpl. rewrite length_app. simpl. lia. }
  rewrite !bind_modify. unfold ret. f_equal.
  destruct s as [cl sc wc tc ts hl hd key ef sh plan tr ck tk out].
  unfold list_items. simpl.
  rewrite lookup_total_snoc, insert_snoc. reflexivity.
Qed.

Lemma read_list_fresh_empty s :
  read_list (set_heap_lists (heap_lists s ++ [[]]) s) (length (heap_lists s)) = [].
Proof.
  unfold read_list, list_items. destruct s; simpl.
  rewrite lookup_total_snoc. reflexivity.
Qed.

(** ** [get_all_todos] *)

Lemma get_all_todos_unusable s :
  cache_unusable s ->
  get_all_todos s = fetch_todos (clock s (ticks s)) (tick s).
Proof.
  unfold cache_unusable, get_all_todos. intros Hc.
  unfold bind at 1, datetime_now. rewrite !bind_gets.
  change (set_ticks (S (ticks s)) s) with (tick s).
  change (_todos_cache (tick s)) with (_todos_cache s).
  change (_cache_timestamp (tick s)) with (_cache_timestamp s).
  destruct (_todos_cache s); [|reflexivity].
  destruct (_cache_timestamp s); [|reflexivity].
  apply Z.ltb_ge in Hc. rewrite Hc. reflexivity.
Qed.

Lemma cold_cache_unusable s : cold s -> cache_unusable s.
Proof. intros [_ H]. unfold cache_unusable. rewrite H. exact I. Qed.

(** A read that goes to the store, in a world without failures. *)
Lemma get_all_todos_fresh s key :
  cold s -> fault_free s -> env_SPREADSHEET_ID s = Some key -> key <> "" ->
  let data := tl (rows_of s) in
  exists tr,
    get_all_todos s =
      (Return (length (heap_lists s)),
       mk_state (Some ClientHandle) (Some (SpreadsheetHandle key))
         (Some (WorksheetHandle "Todos"))
         (match data with [] => None | _ => Some (length (heap_lists s)) end)
         (match data with
          | [] => _cache_timestamp s
          | _ => Some (clock s (ticks s))
          end)
         (heap_lists s ++ [seq (length (heap_dicts s)) (length (parse_rows 2 data))])
         (heap_dicts s ++ parse_rows 2 data)
         (env_SPREADSHEET_ID s) (env_file_exists s)
         (Some (repaired_header (header_of s) :: data))
         (fault_plan s) tr (clock s) (S (ticks s)) (stdout s)).
Proof.
  intros Hcold Hf Hkey Hne data.
  rewrite (get_all_todos_unusable s (cold_cache_unusable s Hcold)).
  unfold fetch_todos.
  destruct (resolve_cold (tick s) key Hf Hkey Hne (or_intror (proj1 Hcold)))
    as [tr Hr].
  rewrite (bind_Return _ _ _ _ _ Hr).
  match type of Hr with _ = (_, ?st) => set (s1 := st) end.
  change (header_of (tick s)) with (header_of s) in *.
  change (rows_of (tick s)) with (rows_of s) in *.
  fold data in s1. simpl snd.
  exists (tr ++ [GetAllValues]).
  destruct Hcold as [_ Hc].
  destruct data as [|row rest] eqn:Hdata.
  - rewrite (read_todos_short _ _ s1 [repaired_header (header_of s)]);
      [|apply Hf|reflexivity|simpl; lia].
    simpl. rewrite app_nil_r.
    destruct s; simpl in *; subst; reflexivity.
  - rewrite (read_todos_full _ _ s1 (repaired_header (header_of s) :: row :: rest));
      [|apply Hf|reflexivity|simpl; lia].
    reflexivity.
Qed.

Lemma read_list_last s hl hd new :
  heap_lists s = hl ++ [seq (length hd) (length new)] ->
  heap_dicts s = hd ++ new ->
  read_list s (length hl) = new.
Proof.
  intros Hl Hd. unfold read_list, list_items, dict_at. rewrite Hl, Hd.
  rewrite lookup_total_snoc. apply read_back.
Qed.

(** ** [get_all_todos_filtered] *)

Lemma filter_fmap_comm {A B} (f : A -> B) (p : B -> bool) (l : list A) :
  f <$> List.filter (fun a => p (f a)) l = List.filter p (f <$> l).
Proof.
  induction l as [|a l IH]; [reflexivity|]. csimpl.
  destruct (p (f a)); csimpl; rewrite IH; reflexivity.
Qed.

Lemma read_list_comprehension keep l s :
  read_list
    (set_heap_lists
       (heap_lists s ++ [List.filter (fun d => keep (dict_at s d)) (list_items s l)]) s)
    (length (heap_lists s)) =
  List.filter keep (read_list s l).
Proof.
  unfold read_list, list_items. cbn [heap_lists set_heap_lists].
  rewrite lookup_total_snoc.
  change (dict_at (set_heap_lists _ s)) with (dict_at s).
  apply filter_fmap_comm.
Qed.

Lemma filter_all {A} (l : list A) : List.filter (fun _ => true) l = l.
Proof. induction l; simpl; congruence. Qed.

Lemma filtered_Return f s l s1 :
  get_all_todos s = (Return l, s1) ->
  exists l' s',
    get_all_todos_filtered f s = (Return l', s') /\
    read_list s' l' = List.filter (selected f) (read_list s1 l) /\
    sheet s' = sheet s1.
Proof.
  intros Hrun. unfold get_all_todos_filtered.
  rewrite (bind_Return _ _ _ _ _ Hrun).
  destruct f as [f|]; simpl; [destruct (f =? "完了")%string eqn:Hf|].
  - do 2 eexists. split; [reflexivity|].
    split; [|reflexivity]. unfold selected. rewrite Hf.
    apply read_list_comprehension.
  - do 2 eexists. split; [reflexivity|].
    split; [|reflexivity]. unfold selected. rewrite Hf. symmetry.
    apply filter_all.
  - do 2 eexists. split; [reflexivity|].
    split; [|reflexivity]. apply read_list_comprehension.
Qed.

Lemma filtered_Raise f s e s1 :
  get_all_todos s = (Raise e, s1) ->
  get_all_todos_filtered f s = (Raise e, s1).
Proof. intros H. unfold get_all_todos_filtered. apply bind_Raise. exact H. Qed.

Lemma filtered_all s : get_all_todos_filtered (Some "all") s = get_all_todos s.
Proof.
  unfold get_all_todos_filtered, bind. simpl.
  destruct (get_all_todos s) as [[l|e] s1]; reflexivity.
Qed.

(** ** The tasks of the data rows *)

Lemma skipped_false row :
  skipped row = false <-> exists c rest, row = c :: rest /\ c <> "".
Proof.
  destruct row as [|c rest]; simpl.
  - split; [discriminate|]. intros (? & ? & ? & _). discriminate.
  - rewrite String.eqb_neq. split; [eauto|].
    intros (c' & rest' & [= -> ->] & H). exact H.
Qed.

Lemma todo_of_row_id i c rest : c <> "" -> t_id (todo_of_row i (c :: rest)) = c.
Proof.
  intros H. apply String.eqb_neq in H. unfold todo_of_row, item. simpl.
  rewrite H. reflexivity.
Qed.

Lemma elem_of_parse_rows t rows : forall i,
  t ∈ parse_rows i rows <->
  exists k row, rows !! k = Some row /\ skipped row = false /\
                t = todo_of_row (i + k) row.
Proof.
  induction rows as [|row rest IH]; intros i; simpl.
  - split; [intros H; inversion H|]. intros (k & r & H & _). discriminate.
  - destruct (skipped row) eqn:Hsk.
    + rewrite IH. split.
      * intros (k & r & H1 & H2 & H3). exists (S k), r.
        rewrite <- Nat.add_succ_comm. auto.
      * intros ([|k] & r & H1 & H2 & H3); simpl in H1.
        -- injection H1 as <-. congruence.
        -- exists k, r. rewrite Nat.add_succ_comm. auto.
    + rewrite elem_of_cons, IH. split.
      * intros [-> | (k & r & H1 & H2 & H3)].
        -- exists 0, row. rewrite Nat.add_0_r. auto.
        -- exists (S k), r. rewrite <- Nat.add_succ_comm. auto.
      * intros ([|k] & r & H1 & H2 & H3); simpl in H1.
        -- injection H1 as <-. left. rewrite Nat.add_0_r in H3. exact H3.
        -- right. exists k, r. rewrite Nat.add_succ_comm. auto.
Qed.

(** ** What the reads return *)

Lemma listing_Return m s l s' :
  m s = (Return l, s') -> listing m s = Return (read_list s' l).
Proof. unfold listing. intros ->. reflexivity. Qed.

Lemma elem_of_filter_bool {A} (p : A -> bool) (l : list A) x :
  x ∈ List.filter p l <-> x ∈ l /\ p x = true.
Proof. rewrite !list_elem_of_In. apply List.filter_In. Qed.

Lemma is_open_true t : is_open t = true <-> t_status t <> "完了".
Proof.
  unfold is_open. rewrite orb_true_iff, negb_true_iff, !String.eqb_neq.
  rewrite String.eqb_eq. split; [|auto].
  intros [H|H]; [rewrite H; discriminate|exact H].
Qed.

Lemma is_completed_true t : is_completed t = true <-> t_status t = "完了".
Proof. apply String.eqb_eq. Qed.

Lemma cell_or_lookup row k d : cell_or row k d = default d (row !! k).
Proof.
  unfold cell_or, item. destruct (Nat.ltb_spec k (length row)) as [H|H].
  - destruct (lookup_lt_is_Some_2 row k H) as [c Hc].
    rewrite Hc. apply list_lookup_total_correct. exact Hc.
  - rewrite lookup_ge_None_2 by lia. reflexivity.
Qed.

(** A fresh read, as the caller sees it. *)
Lemma listing_fresh s f :
  cold s -> fault_free s -> configured s ->
  listing (get_all_todos_filtered f) s =
    Return (List.filter (selected f) (parse_rows 2 (tl (rows_of s)))).
Proof.
  intros Hcold Hf (key & Hkey & Hne).
  destruct (get_all_todos_fresh s key Hcold Hf Hkey Hne) as [tr Hrun].
  destruct (filtered_Return f s _ _ Hrun) as (l' & s' & Hrun' & Hread & _).
  rewrite (listing_Return _ _ _ _ Hrun'), Hread.
  erewrite read_list_last; reflexivity.
Qed.

(** C3, as amended: on a read that goes to the store, every variant of the
    filtered read returns exactly the tasks of the data rows that have a
    first cell and whose first cell, the id, is not empty, and that pass
    the status filter; whether the id is numeric plays no role. *)
Theorem reads_skip_only_empty_ids s f :
  cold s -> fault_free s -> configured s ->
  exists ts,
    listing (get_all_todos_filtered f) s = Return ts /\
    forall t, t ∈ ts <->
      exists k c rest,
        tl (rows_of s) !! k = Some (c :: rest) /\ c <> "" /\
        t = todo_of_row (2 + k) (c :: rest) /\ t_id t = c /\
        selected f t = true.
Proof.
  intros Hcold Hf Hconf. eexists. split; [apply listing_fresh; assumption|].
  intros t. rewrite elem_of_filter_bool, elem_of_parse_rows. split.
  - intros [(k & row & Hk & Hsk & ->) Hsel].
    apply skipped_false in Hsk as (c & rest & -> & Hc).
    exists k, c, rest. repeat split; auto using todo_of_row_id.
  - intros (k & c & rest & Hk & Hc & -> & _ & Hsel). split; [|exact Hsel].
    exists k, (c :: rest). repeat split; auto.
    apply skipped_false. eauto.
Qed.


(** C6: the open tasks and the completed tasks split the list of all tasks:
    the completed ones are those whose status is exactly ["完了"], the open
    ones all the others; no task is in both lists, and every task is in
    one. *)
Theorem status_filters_partition s all_tasks :
  listing (get_all_todos_filtered (Some "all")) s = Return all_tasks ->
  exists open_tasks done_tasks,
    listing (get_all_todos_filtered None) s = Return open_tasks /\
    listing (get_all_todos_filtered (Some "完了")) s = Return done_tasks /\
    open_tasks = List.filter is_open all_tasks /\
    done_tasks = List.filter is_completed all_tasks /\
    (forall t, t ∈ done_tasks <-> t ∈ all_tasks /\ t_status t = "完了") /\
    (forall t, t ∈ open_tasks <-> t ∈ all_tasks /\ t_status t <> "完了") /\
    (forall t, ~ (t ∈ open_tasks /\ t ∈ done_tasks)) /\
    (forall t, t ∈ all_tasks <-> t ∈ open_tasks \/ t ∈ done_tasks).
Proof.
  unfold listing at 1. rewrite filtered_all.
  destruct (get_all_todos s) as [[l|e] s1] eqn:Hrun; [|discriminate].
  intros [= <-].
  destruct (filtered_Return None s _ _ Hrun) as (lo & so & Ho & Hro & _).
  destruct (filtered_Return (Some "完了") s _ _ Hrun) as (lc & sc & Hc & Hrc & _).
  exists (read_list so lo), (read_list sc lc).
  rewrite (listing_Return _ _ _ _ Ho), (listing_Return _ _ _ _ Hc), Hro, Hrc.
  simpl selected.
  do 4 (split; [reflexivity|]).
  assert (Hd : forall t, t ∈ List.filter is_completed (read_list s1 l) <->
                         t ∈ read_list s1 l /\ t_status t = "完了").
  { intros t. rewrite elem_of_filter_bool, is_completed_true. tauto. }
  assert (Ho' : forall t, t ∈ List.filter is_open (read_list s1 l) <->
                          t ∈ read_list s1 l /\ t_status t <> "完了").
  { intros t. rewrite elem_of_filter_bool, is_open_true. tauto. }
  split; [exact Hd|]. split; [exact Ho'|]. split.
  - intros t. rewrite Hd, Ho'. tauto.
  - intros t. rewrite Hd, Ho'.
    destruct (decide (t_status t = "完了")); tauto.
Qed.

(** ** Failures of the read *)

(** A failure of store resolution leaves [get_all_todos] as it is. *)
Lemma resolution_failure_propagates s e s1 :
  cache_unusable s ->
  get_or_create_spreadsheet (tick s) = (Raise e, s1) ->
  get_all_todos s = (Raise e, s1).
Proof.
  intros Hc Hr. rewrite (get_all_todos_unusable s Hc).
  unfold fetch_todos. apply bind_Raise. exact Hr.
Qed.

(** C8, as amended: when the store has been resolved and reading the rows
    fails with an [APIError] (or an [IndexError]), [get_all_todos] prints the
    warning and returns an empty list. *)
Theorem read_failure_is_swallowed s p s1 e :
  cache_unusable s ->
  get_or_create_spreadsheet (tick s) = (Return p, s1) ->
  fault_plan s1 (length (trace s1)) = Some e ->
  index_or_api_error e = true ->
  listing get_all_todos s = Return [] /\
  stdout (after get_all_todos s) = stdout s1 ++ [fetch_warning e].
Proof.
  intros Hc Hr Hp He. unfold listing, after.
  rewrite (get_all_todos_unusable s Hc). unfold fetch_todos.
  rewrite (bind_Return _ _ _ _ _ Hr).
  rewrite (read_todos_failed _ _ s1 e Hp), He.
  split; [|reflexivity].
  f_equal.
  apply (read_list_fresh_empty
           (set_stdout (stdout s1 ++ [fetch_warning e]) (called GetAllValues s1))).
Qed.

(** ** The header row *)

Lemma write_cells_header_short h :
  length h <= 7 -> write_cells 0 HEADER h = HEADER.
Proof.
  intros H. unfold write_cells. simpl take.
  rewrite drop_ge by (simpl; lia). reflexivity.
Qed.

Lemma repaired_header_cases h :
  (length h <= 5 -> repaired_header h = HEADER) /\
  (length h = 6 ->
     repaired_header h = take 4 h ++ ["重要度"; item h 5; "ステータス"]) /\
  (7 <= length h -> item h 0 <> "ID" -> repaired_header h = HEADER ++ drop 7 h) /\
  (7 <= length h -> item h 0 = "ID" -> item h 4 = "重要度" ->
     item h 6 = "ステータス" -> repaired_header h = h).
Proof.
  unfold repaired_header.
  destruct h as [|a [|b [|c [|d [|e [|f [|g h']]]]]]]; cbn [length].
  1-6: split; [intros _; reflexivity|].
  1-6: split; [intros H; exfalso; lia|].
  1-6: split; intros H; exfalso; lia.
  - (* six cells *)
    split; [intros H; exfalso; lia|]. split.
    + intros _. unfold item. simpl.
      destruct (e =? "重要度")%string eqn:He; [|reflexivity].
      apply String.eqb_eq in He. subst e. reflexivity.
    + split; intros H; exfalso; lia.
  - (* seven cells or more *)
    split; [intros H; exfalso; lia|].
    split; [intros H; exfalso; lia|].
    unfold item. simpl. split.
    + intros _ Ha. apply String.eqb_neq in Ha. rewrite Ha. reflexivity.
    + intros _ -> _ _. reflexivity.
Qed.

(** C4, as amended: after schema resolution in a world without failures the
    data rows are as before, and the header row is the seven-column schema
    when it was absent or had at most five cells; a header of six cells
    only gets ["重要度"] in column E and ["ステータス"] in column G; of a header
    of seven cells or more that does not start with ["ID"] the first seven
    cells are rewritten; a header of seven cells or more that has ["ID"],
    ["重要度"] and ["ステータス"] in columns A, E and G is left as it is. *)
Theorem header_after_resolution s :
  fault_free s -> configured s -> _worksheet_cache s = None ->
  let h := header_of s in
  let s' := after get_or_create_spreadsheet s in
  (exists p, result get_or_create_spreadsheet s = Return p) /\
  tl (rows_of s') = tl (rows_of s) /\
  (length h <= 5 -> header_of s' = HEADER) /\
  (length h = 6 ->
     header_of s' = take 4 h ++ ["重要度"; item h 5; "ステータス"]) /\
  (7 <= length h -> item h 0 <> "ID" -> header_of s' = HEADER ++ drop 7 h) /\
  (7 <= length h -> item h 0 = "ID" -> item h 4 = "重要度" ->
     item h 6 = "ステータス" -> header_of s' = h).
Proof.
  intros Hf (key & Hkey & Hne) Hcold. cbv zeta.
  destruct (resolve_cold s key Hf Hkey Hne (or_intror Hcold)) as [tr Hr].
  assert (Hh : header_of (after get_or_create_spreadsheet s) =
               repaired_header (header_of s)).
  { unfold after. rewrite Hr. reflexivity. }
  assert (Ht : tl (rows_of (after get_or_create_spreadsheet s)) = tl (rows_of s)).
  { unfold after. rewrite Hr. reflexivity. }
  rewrite Hh, Ht. unfold result. rewrite Hr.
  split; [eauto|]. split; [reflexivity|].
  apply repaired_header_cases.
Qed.

Lemma filter_is_write_snoc tr c :
  is_write c = false -> List.filter is_write (tr ++ [c]) = List.filter is_write tr.
Proof. intros H. rewrite List.filter_app. simpl. rewrite H. apply app_nil_r. Qed.

Lemma resolution_on_good_header s rest r s' :
  fault_free s -> sheet s = Some (HEADER :: rest) ->
  get_or_create_spreadsheet s = (r, s') ->
  writes s' = writes s /\ sheet s' = sheet s /\
  (configured s -> exists p, r = Return p).
Proof.
  unfold fault_free, writes, configured.
  destruct s as [cl sc wc tc ts hl hd key ef sh plan tr ck tk out].
  simpl. intros Hplan -> Hrun.
  unfold get_or_create_spreadsheet, get_sheets_client, authorize, open_by_key,
    worksheet, check_header, row_values, update, the_rows, remote, try_except,
    bind, gets, modify, ret, raise, when in Hrun.
  simpl in Hrun.
  destruct sc, wc; simpl in Hrun.
  1: { injection Hrun as <- <-. eauto. }
  all: destruct cl; simpl in Hrun; rewrite ?Hplan in Hrun; simpl in Hrun.
  all: destruct key as [k|]; simpl in Hrun.
  all: try destruct (k =? "")%string eqn:Hk; simpl in Hrun.
  all: repeat (rewrite Hplan in Hrun; simpl in Hrun).
  all: injection Hrun as <- <-; simpl.
  all: rewrite ?filter_is_write_snoc by reflexivity.
  all: split; [reflexivity|]; split; [reflexivity|].
  all: try (intros _; eauto; fail).
  all: intros (k' & Hk' & Hne); try discriminate.
  all: injection Hk' as <-; apply String.eqb_eq in Hk; contradiction.
Qed.

(** C5: on a store whose header row is already the seven-column schema,
    schema resolution issues no write and leaves the worksheet as it is,
    whatever is cached; this holds in particular for a second run. *)
Theorem schema_resolution_idempotent s rest :
  fault_free s -> sheet s = Some (HEADER :: rest) ->
  writes (after get_or_create_spreadsheet s) = writes s /\
  sheet (after get_or_create_spreadsheet s) = sheet s /\
  (configured s -> exists p, result get_or_create_spreadsheet s = Return p).
Proof.
  intros Hf Hs. unfold after, result.
  destruct (get_or_create_spreadsheet s) as [r s'] eqn:Hrun.
  exact (resolution_on_good_header s rest r s' Hf Hs Hrun).
Qed.

(** ** The statements at concrete stores *)

Lemma reads_skip_only_empty_ids_witness :
  cold sample_process /\ fault_free sample_process /\ configured sample_process /\
  exists ts,
    listing (get_all_todos_filtered None) sample_process = Return ts /\
    forall t, t ∈ ts <->
      exists k c rest,
        tl (rows_of sample_process) !! k = Some (c :: rest) /\ c <> "" /\
        t = todo_of_row (2 + k) (c :: rest) /\ t_id t = c /\
        selected None t = true.
Proof.
  assert (Hc : cold sample_process) by (split; reflexivity).
  assert (Hf : fault_free sample_process) by (intros n; reflexivity).
  assert (Hk : configured sample_process)
    by (exists "sheet-1"; split; [reflexivity|discriminate]).
  split; [exact Hc|]. split; [exact Hf|]. split; [exact Hk|].
  exact (reads_skip_only_empty_ids sample_process None Hc Hf Hk).
Defined.

(** C3 as stated fails: the row whose id cell is ["abc"] is returned by
    [get_all_todos] and by the filtered read of open tasks. *)
Lemma non_numeric_id_is_listed :
  @str_isdigit ascii_pystr "abc" = false /\
  listing get_all_todos sample_process =
    Return [mk_todo "abc" 2 "Buy milk" "" "" "中" "" "";
            mk_todo "12" 5 "Write report" "" "2025-01-05" "urgent"
              "2025-01-01 09:00:00" "完了"] /\
  listing (get_all_todos_filtered None) sample_process =
    Return [mk_todo "abc" 2 "Buy milk" "" "" "中" "" ""].
Proof. repeat split; vm_compute; reflexivity. Qed.



Lemma status_filters_partition_witness :
  listing (get_all_todos_filtered (Some "all")) sample_process =
    Return (parse_rows 2 (tl sample_rows)) /\
  exists open_tasks done_tasks,
    listing (get_all_todos_filtered None) sample_process = Return open_tasks /\
    listing (get_all_todos_filtered (Some "完了")) sample_process = Return done_tasks /\
    open_tasks = List.filter is_open (parse_rows 2 (tl sample_rows)) /\
    done_tasks = List.filter is_completed (parse_rows 2 (tl sample_rows)) /\
    (forall t, t ∈ done_tasks <->
       t ∈ parse_rows 2 (tl sample_rows) /\ t_status t = "完了") /\
    (forall t, t ∈ open_tasks <->
       t ∈ parse_rows 2 (tl sample_rows) /\ t_status t <> "完了") /\
    (forall t, ~ (t ∈ open_tasks /\ t ∈ done_tasks)) /\
    (forall t, t ∈ parse_rows 2 (tl sample_rows) <->
       t ∈ open_tasks \/ t ∈ done_tasks).
Proof.
  assert (H : listing (get_all_todos_filtered (Some "all")) sample_process =
              Return (parse_rows 2 (tl sample_rows))) by (vm_compute; reflexivity).
  split; [exact H|].
  exact (status_filters_partition sample_process _ H).
Defined.

Lemma read_failure_is_swallowed_witness :
  let s := failing_read_process in
  let s1 := after get_or_create_spreadsheet (tick s) in
  cache_unusable s /\
  fault_plan s1 (length (trace s1)) = Some (APIError "quota exceeded") /\
  listing get_all_todos s = Return [] /\
  stdout (after get_all_todos s) =
    stdout s1 ++ [fetch_warning (APIError "quota exceeded")].
Proof.
  cbv zeta.
  assert (Hc : cache_unusable failing_read_process) by exact I.
  assert (Hp : fault_plan (after get_or_create_spreadsheet (tick failing_read_process))
                 (length (trace (after get_or_create_spreadsheet
                                   (tick failing_read_process)))) =
               Some (APIError "quota exceeded")) by (vm_compute; reflexivity).
  split; [exact Hc|]. split; [exact Hp|].
  refine (read_failure_is_swallowed failing_read_process
            (SpreadsheetHandle "sheet-1", WorksheetHandle "Todos")
            (after get_or_create_spreadsheet (tick failing_read_process))
            (APIError "quota exceeded") Hc _ Hp eq_refl).
  vm_compute. reflexivity.
Defined.

(** C8 as stated fails: a failure while the store is resolved is not
    swallowed by [get_all_todos]. *)
Lemma resolution_failure_reaches_caller :
  listing get_all_todos failing_open_process =
    Raise (Exception_ (AccessFailed "quota exceeded")) /\
  stdout (after get_all_todos failing_open_process) = [].
Proof. split; vm_compute; reflexivity. Qed.

Lemma header_after_resolution_witness :
  let s := other_header_process in
  let h := header_of s in
  let s' := after get_or_create_spreadsheet s in
  fault_free s /\ configured s /\ _worksheet_cache s = None /\
  (exists p, result get_or_create_spreadsheet s = Return p) /\
  tl (rows_of s') = tl (rows_of s) /\
  (length h <= 5 -> header_of s' = HEADER) /\
  (length h = 6 ->
     header_of s' = take 4 h ++ ["重要度"; item h 5; "ステータス"]) /\
  (7 <= length h -> item h 0 <> "ID" -> header_of s' = HEADER ++ drop 7 h) /\
  (7 <= length h -> item h 0 = "ID" -> item h 4 = "重要度" ->
     item h 6 = "ステータス" -> header_of s' = h).
Proof.
  cbv zeta.
  assert (Hf : fault_free other_header_process) by (intros n; reflexivity).
  assert (Hk : configured other_header_process)
    by (exists "sheet-1"; split; [reflexivity|discriminate]).
  split; [exact Hf|]. split; [exact Hk|]. split; [reflexivity|].
  exact (header_after_resolution other_header_process Hf Hk eq_refl).
Defined.

(** C4 as stated fails: a header row of seven cells that starts with ["ID"]
    is not compared with the schema, and stays. *)
Lemma other_header_is_kept :
  result get_or_create_spreadsheet other_header_process =
    Return (SpreadsheetHandle "sheet-1", WorksheetHandle "Todos") /\
  header_of (after get_or_create_spreadsheet other_header_process) = other_header /\
  other_header <> HEADER.
Proof. repeat split; try (vm_compute; reflexivity). discriminate. Qed.

Lemma schema_resolution_idempotent_witness :
  fault_free sample_process /\
  sheet sample_process = Some (HEADER :: tl sample_rows) /\
  writes (after get_or_create_spreadsheet sample_process) = writes sample_process /\
  sheet (after get_or_create_spreadsheet sample_process) = sheet sample_process /\
  (configured sample_process ->
   exists p, result get_or_create_spreadsheet sample_process = Return p).
Proof.
  assert (Hf : fault_free sample_process) by (intros n; reflexivity).
  split; [exact Hf|]. split; [reflexivity|].
  exact (schema_resolution_idempotent sample_process (tl sample_rows) Hf eq_refl).
Defined.

(** ** Sorting *)

Section SortByKey.
Context {A K : Type} (ltb : K -> K -> bool) (key : A -> K).

(** [a] may stand before [b]: the key of [b] is not less than that of [a]. *)
Local Abbreviation le := (fun a b : A => ltb (key b) (key a) = false).

Hypothesis ltb_asym : forall x y, ltb x y = true -> ltb y x = false.
Hypothesis le_trans : forall a b c, le a b -> le b c -> le a c.

Lemma insert_by_key_perm x l : insert_by_key ltb key x l ≡ₚ x :: l.
Proof.
  induction l as [|y l IH]; simpl; [reflexivity|].
  destruct (ltb (key x) (key y)); [reflexivity|].
  rewrite IH. apply Permutation_swap.
Qed.

Lemma insert_by_key_sorted x l :
  StronglySorted le l -> StronglySorted le (insert_by_key ltb key x l).
Proof.
  induction 1 as [|y l Hs IH Hy]; simpl.
  - repeat constructor.
  - destruct (ltb (key x) (key y)) eqn:Hxy.
    + constructor; [constructor; assumption|].
      assert (Hle : le x y) by (apply ltb_asym; exact Hxy).
      constructor; [exact Hle|].
      eapply Forall_impl; [exact Hy|]. intros z Hz. exact (le_trans _ _ _ Hle Hz).
    + constructor; [exact IH|].
      rewrite (insert_by_key_perm x l). constructor; assumption.
Qed.

Lemma fold_insert_perm acc l :
  fold_left (fun sorted x => insert_by_key ltb key x sorted) l acc ≡ₚ acc ++ l.
Proof.
  revert acc. induction l as [|x l IH]; intros acc; simpl.
  - rewrite app_nil_r. reflexivity.
  - rewrite IH, insert_by_key_perm. apply Permutation_middle.
Qed.

Lemma fold_insert_sorted acc l :
  StronglySorted le acc ->
  StronglySorted le
    (fold_left (fun sorted x => insert_by_key ltb key x sorted) l acc).
Proof.
  revert acc. induction l as [|x l IH]; intros acc Hacc; simpl.
  - exact Hacc.
  - apply IH, insert_by_key_sorted, Hacc.
Qed.

Lemma sort_by_key_perm l : sort_by_key ltb key l ≡ₚ l.
Proof. apply (fold_insert_perm [] l). Qed.

Lemma sort_by_key_sorted l : StronglySorted le (sort_by_key ltb key l).
Proof. apply (fold_insert_sorted [] l). constructor. Qed.

End SortByKey.

(** Sorting references by the key of what they refer to is sorting what
    they refer to. *)
Lemma fmap_insert_by_key {A B K} (ltb : K -> K -> bool) (key : B -> K)
    (f : A -> B) x l :
  f <$> insert_by_key ltb (fun a => key (f a)) x l =
  insert_by_key ltb key (f x) (f <$> l).
Proof.
  induction l as [|y l IH]; [reflexivity|]. csimpl.
  destruct (ltb (key (f x)) (key (f y))); csimpl; [reflexivity|].
  rewrite IH. reflexivity.
Qed.

Lemma fmap_sort_by_key {A B K} (ltb : K -> K -> bool) (key : B -> K)
    (f : A -> B) l :
  f <$> sort_by_key ltb (fun a => key (f a)) l = sort_by_key ltb key (f <$> l).
Proof.
  unfold sort_by_key. change (@nil B) with (f <$> @nil A).
  generalize (@nil A).
  induction l as [|x l IH]; intros acc; [reflexivity|]. csimpl.
  rewrite IH, fmap_insert_by_key. reflexivity.
Qed.

(** *** The order of strings *)

Lemma string_ltb_leb a b : String.ltb a b = true <-> String.leb b a = false.
Proof.
  unfold String.ltb, String.leb. rewrite (String.compare_antisym b a).
  destruct (String.compare a b); simpl; split; congruence.
Qed.

Lemma string_ltb_irrefl a : String.ltb a a = false.
Proof.
  destruct (String.ltb a a) eqn:H; [|reflexivity].
  apply string_ltb_leb in H.
  assert (Hr : String.le a a) by reflexivity.
  unfold String.le in Hr. rewrite H in Hr. destruct Hr.
Qed.

Lemma string_ltb_trans a b c :
  String.ltb a b = true -> String.ltb b c = true -> String.ltb a c = true.
Proof.
  intros Hab Hbc.
  destruct (String.ltb a c) eqn:Hac; [reflexivity|exfalso].
  assert (Hca : String.le c a).
  { unfold String.le. destruct (String.leb c a) eqn:E; [exact I|].
    apply string_ltb_leb in E. congruence. }
  assert (Hab' : String.le a b).
  { revert Hab. unfold String.le, String.ltb, String.leb.
    destruct (String.compare a b); first [discriminate | intros _; exact I]. }
  assert (Hcb : String.le c b) by (etrans; eassumption).
  apply string_ltb_leb in Hbc. unfold String.le in Hcb.
  rewrite Hbc in Hcb. destruct Hcb.
Qed.

Lemma string_ltb_asym a b : String.ltb a b = true -> String.ltb b a = false.
Proof.
  intros H. destruct (String.ltb b a) eqn:E; [|reflexivity].
  rewrite <- (string_ltb_irrefl a). symmetry. eapply string_ltb_trans; eassumption.
Qed.

Lemma string_trichotomy a b :
  String.ltb a b = true \/ a = b \/ String.ltb b a = true.
Proof.
  unfold String.ltb. rewrite (String.compare_antisym a b).
  destruct (String.compare b a) eqn:E; simpl; auto.
  right. left. symmetry. apply String.compare_eq_iff. exact E.
Qed.

(** *** The sort by due date *)

Lemma due_date_key_le a b :
  due_date_key_ltb (due_date_key b) (due_date_key a) = false <-> due_date_order a b.
Proof.
  unfold due_date_key_ltb, due_date_key, due_date_order. simpl.
  generalize (due_date_or_sentinel a) (due_date_or_sentinel b)
    (priority_rank a) (priority_rank b). intros x y ra rb.
  rewrite orb_false_iff, andb_false_iff, Z.ltb_ge, String.eqb_neq.
  destruct (string_trichotomy x y) as [Hlt | [Heq | Hgt]].
  - rewrite (string_ltb_asym _ _ Hlt). split; [auto|].
    intros _. split; [reflexivity|]. left. intros ->.
    rewrite string_ltb_irrefl in Hlt. discriminate.
  - subst y. rewrite string_ltb_irrefl. split.
    + intros [_ [H|H]]; [contradiction|auto].
    + intros [H|[_ H]]; [discriminate|auto].
  - rewrite Hgt. split; [intros [H _]; discriminate|].
    intros [H|[H _]].
    + rewrite (string_ltb_asym _ _ Hgt) in H. discriminate.
    + rewrite H, string_ltb_irrefl in Hgt. discriminate.
Qed.

Lemma due_date_key_ltb_asym x y :
  due_date_key_ltb x y = true -> due_date_key_ltb y x = false.
Proof.
  unfold due_date_key_ltb. destruct x as [s1 r1], y as [s2 r2]. simpl.
  rewrite orb_true_iff, andb_true_iff, orb_false_iff, andb_false_iff.
  rewrite String.eqb_eq, Z.ltb_lt, Z.ltb_ge, String.eqb_neq.
  intros [H | [-> H]].
  - split; [apply string_ltb_asym, H|]. left. intros ->.
    rewrite string_ltb_irrefl in H. discriminate.
  - split; [apply string_ltb_irrefl|]. right. lia.
Qed.

Lemma due_date_order_trans a b c :
  due_date_order a b -> due_date_order b c -> due_date_order a c.
Proof.
  unfold due_date_order.
  intros [H1 | [E1 H1]] [H2 | [E2 H2]].
  - left. eapply string_ltb_trans; eassumption.
  - left. rewrite <- E2. exact H1.
  - left. rewrite E1. exact H2.
  - right. split; [congruence|lia].
Qed.

Lemma StronglySorted_weaken {A} (R S : A -> A -> Prop) l :
  (forall a b, R a b -> S a b) -> StronglySorted R l -> StronglySorted S l.
Proof.
  intros HRS. induction 1 as [|x l Hs IH Hx]; constructor; [exact IH|].
  eapply Forall_impl; [exact Hx|]. intros b. apply HRS.
Qed.

Lemma py_sort_due_date_sorted (l : list todo) :
  py_sort due_date_key_ltb due_date_key false l ≡ₚ l /\
  StronglySorted due_date_order (py_sort due_date_key_ltb due_date_key false l).
Proof.
  unfold py_sort. split; [apply sort_by_key_perm|].
  apply (@StronglySorted_weaken todo
           (fun a b => due_date_key_ltb (due_date_key b) (due_date_key a) = false)).
  - intros a b H. apply due_date_key_le. exact H.
  - apply sort_by_key_sorted.
    + apply due_date_key_ltb_asym.
    + intros a b c H1 H2. apply due_date_key_le.
      apply due_date_key_le in H1, H2. eapply due_date_order_trans; eassumption.
Qed.

Lemma fmap_rev_comm {A B} (f : A -> B) (l : list A) :
  f <$> rev l = rev (f <$> l).
Proof.
  induction l as [|x l IH]; [reflexivity|]. csimpl.
  rewrite fmap_app, IH. reflexivity.
Qed.

Lemma read_list_after_sort {K} (ltb : K -> K -> bool) key reverse l s :
  read_list (after (list_sort ltb key reverse l) s) l =
  py_sort ltb key reverse (read_list s l).
Proof.
  unfold after, list_sort, modify, read_list, list_items. cbn [snd heap_lists set_heap_lists].
  change (dict_at (set_heap_lists _ s)) with (dict_at s).
  destruct (decide (l < length (heap_lists s))) as [Hl|Hl].
  - rewrite list_lookup_total_insert_eq by exact Hl.
    unfold py_sort. destruct reverse.
    + rewrite fmap_rev_comm, fmap_sort_by_key, fmap_rev_comm. reflexivity.
    + apply fmap_sort_by_key.
  - rewrite list_insert_ge by lia.
    rewrite (list_lookup_total_alt (heap_lists s)).
    rewrite lookup_ge_None_2 by lia. simpl. destruct reverse; reflexivity.
Qed.

(** C10, as amended: the sort by due date, which sorts the list object in
    place, permutes the tasks and leaves them in the order of the key
    [(due_date or "9999-12-31", rank)]: by due date ascending, the empty due
    date counting as ["9999-12-31"], and among equal due dates by rank
    ascending, that is low before medium before high. *)
Theorem due_date_sort_order s l :
  let sorted := read_list (after (sort_todos "due_date" l) s) l in
  sorted ≡ₚ read_list s l /\ StronglySorted due_date_order sorted.
Proof.
  cbv zeta. change (sort_todos "due_date" l)
    with (list_sort due_date_key_ltb due_date_key false l).
  rewrite read_list_after_sort. apply py_sort_due_date_sorted.
Qed.

(** C10 as stated fails: of two tasks due on the same day the sort puts the
    one of low priority first. *)
Lemma due_date_ties_put_low_first :
  py_sort due_date_key_ltb due_date_key false [milk_high; report_low] =
    [report_low; milk_high] /\
  t_due_date report_low = t_due_date milk_high /\
  ~ StronglySorted specified_due_date_order
      (py_sort due_date_key_ltb due_date_key false [milk_high; report_low]).
Proof.
  split; [vm_compute; reflexivity|]. split; [reflexivity|].
  replace (py_sort due_date_key_ltb due_date_key false [milk_high; report_low])
    with [report_low; milk_high] by (vm_compute; reflexivity).
  intros H. apply StronglySorted_inv in H as [_ H].
  apply Forall_inv in H. destruct H as [H | [_ H]].
  - vm_compute in H. discriminate.
  - vm_compute in H. apply H. reflexivity.
Qed.

(** ** [add_todo] when no id is numeric *)

Section NewId.
Context {PS : PyStr}.

Lemma numeric_ids_none todos :
  Forall (fun t => str_isdigit (t_id t) = false) todos ->
  numeric_ids todos = Return [].
Proof.
  induction 1 as [|t todos Ht _ IH]; [reflexivity|].
  simpl. rewrite Ht. exact IH.
Qed.

(** The generator is empty as soon as no id is numeric, and [max] fails. *)
Lemma new_id_of_no_numeric_id t todos :
  Forall (fun t => str_isdigit (t_id t) = false) (t :: todos) ->
  new_id_of (t :: todos) = Raise (ValueError MaxEmptySequence).
Proof.
  intros H. unfold new_id_of. rewrite (numeric_ids_none _ H). reflexivity.
Qed.

End NewId.

(** C1, the failing input: every task of the store has a non-numeric id;
    [add_todo] raises the [ValueError] of [max] on an empty sequence, and
    appends nothing. *)
Theorem add_fails_when_no_id_is_numeric :
  result (@add_todo ascii_pystr "Write report" "" "2025-01-05" "低")
    non_numeric_process = Raise (ValueError MaxEmptySequence) /\
  sheet (after (@add_todo ascii_pystr "Write report" "" "2025-01-05" "低")
           non_numeric_process) = sheet non_numeric_process.
Proof. split; vm_compute; reflexivity. Qed.

(** C9, the failing inputs: the list returned by a read that went to the
    store is the cached list itself, so that emptying it, or sorting it as
    [index] does, changes what the next read returns; and the copy returned
    by a read from the cache shares its dicts with the cache, so that a
    change of a task shows in the next read. *)
Theorem cached_list_is_shared_with_callers :
  result clear_then_read_again sample_process =
    Return ([task_abc; task_12], []) /\
  result sort_then_read_again sample_process =
    Return ([task_abc; task_12], [task_12; task_abc]) /\
  result rename_then_read_again sample_process =
    Return ([task_abc; task_12],
            [mk_todo "abc" 2 "changed by the caller" "" "" "中" "" ""; task_12]).
Proof. repeat split; vm_compute; reflexivity. Qed.

(** ** The ids that [add_todo] assigns *)

Lemma ascii_digits_py_str n : (0 <= n)%Z -> ascii_digits (py_str n) = Some n.
Proof.
  intros Hn. unfold py_str.
  pose proof (DecimalZ.of_to n) as Hof.
  destruct n as [|p|p]; [reflexivity| |lia].
  simpl Z.to_int in *. simpl Z.of_int in Hof.
  unfold NilZero.string_of_int, NilZero.string_of_uint.
  destruct (Pos.to_uint p) as [|d|d|d|d|d|d|d|d|d|d] eqn:Hd;
    [simpl in Hof; discriminate|..].
  all: unfold ascii_digits; rewrite NilEmpty.usu; simpl; rewrite Hof; reflexivity.
Qed.


Section NewIds.
Context {PS : PyStr}.

Lemma new_id_of_next_number todos :
  new_id_of todos =
    match next_number todos with
    | Return n => Return (py_str n)
    | Raise e => Raise e
    end.
Proof.
  destruct todos as [|t todos]; [reflexivity|].
  unfold new_id_of, next_number.
  destruct (numeric_ids (t :: todos)) as [ns|e]; [|reflexivity].
  destruct (py_max ns); reflexivity.
Qed.

Lemma numeric_ids_nonneg todos : forall ns,
  numeric_ids todos = Return ns -> Forall (fun n => (0 <= n)%Z) ns.
Proof.
  induction todos as [|t todos IH]; intros ns; simpl.
  - intros [= <-]. constructor.
  - destruct (str_isdigit (t_id t)) eqn:Hd; [|apply IH].
    destruct (int_of_digits (t_id t)) as [n|] eqn:Hn; [|discriminate].
    destruct (numeric_ids todos) as [ns'|]; [|discriminate].
    intros [= <-]. constructor; [|apply IH; reflexivity].
    exact (int_of_digits_nonneg _ _ Hd Hn).
Qed.

Lemma fold_max_lower rest : forall a, (a <= fold_left Z.max rest a)%Z.
Proof.
  induction rest as [|b rest IH]; intros a; simpl; [lia|].
  specialize (IH (Z.max a b)). lia.
Qed.

Lemma next_number_positive todos n : next_number todos = Return n -> (1 <= n)%Z.
Proof.
  destruct todos as [|t todos]; [intros [= <-]; lia|].
  unfold next_number.
  destruct (numeric_ids (t :: todos)) as [ns|] eqn:Hns; [|discriminate].
  destruct ns as [|a rest]; [discriminate|]. simpl.
  intros [= <-].
  apply numeric_ids_nonneg in Hns. apply Forall_inv in Hns.
  pose proof (fold_max_lower rest a). lia.
Qed.


Lemma numeric_ids_snoc_Raise todos t e :
  numeric_ids todos = Raise e -> numeric_ids (todos ++ [t]) = Raise e.
Proof.
  induction todos as [|u todos IH]; simpl; [discriminate|].
  destruct (str_isdigit (t_id u)); [|exact IH].
  destruct (int_of_digits (t_id u)); [|auto].
  destruct (numeric_ids todos); [discriminate|].
  intros [= <-]. rewrite (IH eq_refl). reflexivity.
Qed.


End NewIds.

(** ** [add_todo] step by step *)

Lemma resolve_cached s sp ws :
  _spreadsheet_cache s = Some sp -> _worksheet_cache s = Some ws ->
  get_or_create_spreadsheet s = (Return (sp, ws), s).
Proof.
  intros Hs Hw. unfold get_or_create_spreadsheet.
  rewrite !bind_gets, Hs, Hw. reflexivity.
Qed.

Lemma drop_1_nil {A} (l : list A) : drop 1 l = [] <-> length l <= 1.
Proof. destruct l as [|x [|y l]]; simpl; split; intros; try lia; try discriminate; reflexivity. Qed.

(** A read that goes to a store already resolved. *)
Lemma get_all_todos_resolved s sp ws rows :
  cache_unusable s -> fault_free s ->
  _spreadsheet_cache s = Some sp -> _worksheet_cache s = Some ws ->
  sheet s = Some rows ->
  let data := drop 1 rows in
  get_all_todos s =
    (Return (length (heap_lists s)),
     mk_state (_sheets_client s) (_spreadsheet_cache s) (_worksheet_cache s)
       (match data with [] => _todos_cache s | _ => Some (length (heap_lists s)) end)
       (match data with
        | [] => _cache_timestamp s
        | _ => Some (clock s (ticks s))
        end)
       (heap_lists s ++ [seq (length (heap_dicts s)) (length (parse_rows 2 data))])
       (heap_dicts s ++ parse_rows 2 data)
       (env_SPREADSHEET_ID s) (env_file_exists s) (sheet s) (fault_plan s)
       (trace s ++ [GetAllValues]) (clock s) (S (ticks s)) (stdout s)).
Proof.
  intros Hc Hf Hsc Hwc Hs data.
  rewrite (get_all_todos_unusable s Hc). unfold fetch_todos.
  rewrite (bind_Return _ _ _ _ _ (resolve_cached (tick s) sp ws Hsc Hwc)).
  simpl snd.
  destruct data as [|row rest] eqn:Hdata.
  - rewrite (read_todos_short ws _ (tick s) rows (Hf _) Hs)
      by (apply drop_1_nil; exact Hdata).
    simpl. rewrite app_nil_r. destruct s; reflexivity.
  - rewrite (read_todos_full ws _ (tick s) rows (Hf _) Hs).
    + fold data. rewrite Hdata. reflexivity.
    + destruct (decide (length rows <= 1)) as [Hl|Hl]; [|lia].
      apply drop_1_nil in Hl. fold data in Hl. congruence.
Qed.

(** A read answered from the cache: a new list object with the elements of
    the cached one. *)
Lemma get_all_todos_cached s l t :
  _todos_cache s = Some l -> _cache_timestamp s = Some t ->
  (dt_micros (clock s (ticks s)) - dt_micros t < CACHE_DURATION)%Z ->
  get_all_todos s =
    (Return (length (heap_lists s)),
     set_heap_lists (heap_lists s ++ [list_items s l]) (tick s)).
Proof.
  intros Hc Ht Hfresh. unfold get_all_todos.
  unfold bind at 1, datetime_now. rewrite !bind_gets.
  change (set_ticks (S (ticks s)) s) with (tick s).
  change (_todos_cache (tick s)) with (_todos_cache s).
  change (_cache_timestamp (tick s)) with (_cache_timestamp s).
  rewrite Hc, Ht. apply Z.ltb_lt in Hfresh. rewrite Hfresh. reflexivity.
Qed.

Lemma append_row_ok ws v s rows :
  fault_free s -> sheet s = Some rows ->
  append_row ws v s =
    (Return tt, set_sheet (Some (rows ++ [v])) (called (AppendRow v) s)).
Proof.
  intros Hf Hs. unfold append_row.
  rewrite (bind_Return _ _ _ _ _ (remote_ok _ s Hf)).
  unfold bind, the_rows, modify. simpl. rewrite Hs. reflexivity.
Qed.

Lemma clear_cache_run s :
  clear_cache s =
    (Return tt,
     set_worksheet_cache None
       (set_spreadsheet_cache None
          (set_cache_timestamp None (set_todos_cache None s)))).
Proof. reflexivity. Qed.

Lemma bind_lift_Return {A B} (a : A) (k : A -> M B) s :
  bind (lift (Return a)) k s = k a s.
Proof. reflexivity. Qed.

Lemma bind_lift_Raise {A B} e (k : A -> M B) s :
  bind (lift (Raise e)) k s = (Raise e, s).
Proof. reflexivity. Qed.

Section AddTodo.
Context {PS : PyStr}.

(** The first two steps of [add_todo] in a new process: the store is
    resolved, then read. *)
Lemma add_todo_reads s key (k : Spreadsheet * Worksheet -> list todo -> M added) :
  cold s -> fault_free s -> env_SPREADSHEET_ID s = Some key -> key <> "" ->
  let data := tl (rows_of s) in
  exists tr,
    (p <- get_or_create_spreadsheet ;;
     todos <- get_all_todos_filtered (Some "all") ;;
     seen <- gets (fun s => read_list s todos) ;;
     k p seen) s =
    k (SpreadsheetHandle key, WorksheetHandle "Todos") (parse_rows 2 data)
      (mk_state (Some ClientHandle) (Some (SpreadsheetHandle key))
         (Some (WorksheetHandle "Todos"))
         (match data with [] => None | _ => Some (length (heap_lists s)) end)
         (match data with
          | [] => _cache_timestamp s
          | _ => Some (clock s (ticks s))
          end)
         (heap_lists s ++ [seq (length (heap_dicts s)) (length (parse_rows 2 data))])
         (heap_dicts s ++ parse_rows 2 data)
         (env_SPREADSHEET_ID s) (env_file_exists s)
         (Some (repaired_header (header_of s) :: data))
         (fault_plan s) tr (clock s) (S (ticks s)) (stdout s)).
Proof.
  intros [Hw Hc] Hf Hkey Hne data.
  destruct (resolve_cold s key Hf Hkey Hne (or_intror Hw)) as [tr Hr].
  exists (tr ++ [GetAllValues]).
  rewrite (bind_Return _ _ _ _ _ Hr).
  match type of Hr with _ = (_, ?st) => set (s1 := st) end.
  assert (Hread := get_all_todos_resolved s1 _ _
            (repaired_header (header_of s) :: data)
            ltac:(unfold cache_unusable; simpl; rewrite Hc; exact I)
            Hf eq_refl eq_refl eq_refl).
  cbv zeta in Hread.
  change (drop 1 (repaired_header (header_of s) :: data)) with (drop 0 data) in Hread.
  rewrite drop_0 in Hread.
  rewrite <- filtered_all in Hread.
  match type of Hread with _ = (_, ?st) => set (s2 := st) in * end.
  rewrite (bind_Return _ _ _ _ _ Hread). rewrite bind_gets.
  change (length (heap_lists s1)) with (length (heap_lists s)).
  rewrite (read_list_last s2 (heap_lists s) (heap_dicts s) (parse_rows 2 data)
             eq_refl eq_refl).
  unfold s2, s1. cbn [_todos_cache _cache_timestamp heap_lists heap_dicts
    _sheets_client _spreadsheet_cache _worksheet_cache env_SPREADSHEET_ID
    env_file_exists sheet fault_plan trace clock ticks stdout].
  rewrite Hc. reflexivity.
Qed.

(** [add_todo] in a new process, when the new id can be computed. *)
Lemma add_todo_cold_Return s key title content due priority nid :
  cold s -> fault_free s -> env_SPREADSHEET_ID s = Some key -> key <> "" ->
  let data := tl (rows_of s) in
  new_id_of (parse_rows 2 data) = Return nid ->
  exists tr hl hd,
    add_todo title content due priority s =
      (Return (mk_added nid title content due priority
                 (dt_text (clock s (S (ticks s))))),
       mk_state (Some ClientHandle) None None None None hl hd
         (env_SPREADSHEET_ID s) (env_file_exists s)
         (Some (repaired_header (header_of s) ::
                data ++ [[nid; title; content; due; priority;
                          dt_text (clock s (S (ticks s))); ""]]))
         (fault_plan s) tr (clock s) (S (S (ticks s))) (stdout s)).
Proof.
  intros Hcold Hf Hkey Hne data Hnew.
  unfold add_todo.
  destruct (add_todo_reads s key
    (fun p seen =>
       new_id <- lift (new_id_of seen) ;;
       now <- datetime_now ;;
       append_row (snd p)
         [new_id; title; content; due; priority; dt_text now; ""] ;;;
       clear_cache ;;;
       ret (mk_added new_id title content due priority (dt_text now)))
    Hcold Hf Hkey Hne) as [tr Hrun].
  cbv zeta in Hrun. fold data in Hrun. rewrite Hrun. clear Hrun.
  rewrite Hnew, bind_lift_Return.
  unfold bind at 1, datetime_now. cbn [ticks clock].
  erewrite bind_Return; cycle 1.
  { apply append_row_ok; [exact Hf|reflexivity]. }
  rewrite (bind_Return _ _ _ _ _ (clear_cache_run _)). unfold ret.
  exists (tr ++ [AppendRow [nid; title; content; due; priority;
                            dt_text (clock s (S (ticks s))); ""]]),
    (heap_lists s ++ [seq (length (heap_dicts s)) (length (parse_rows 2 data))]),
    (heap_dicts s ++ parse_rows 2 data).
  reflexivity.
Qed.

(** [add_todo] in a new process, when the computation of the new id
    fails: nothing is appended, and the caches stay filled. *)
Lemma add_todo_cold_Raise s key title content due priority e :
  cold s -> fault_free s -> env_SPREADSHEET_ID s = Some key -> key <> "" ->
  new_id_of (parse_rows 2 (tl (rows_of s))) = Raise e ->
  exists s',
    add_todo title content due priority s = (Raise e, s') /\
    stuck e s' /\ fault_free s'.
Proof.
  intros Hcold Hf Hkey Hne Hnew.
  unfold add_todo.
  destruct (add_todo_reads s key
    (fun p seen =>
       new_id <- lift (new_id_of seen) ;;
       now <- datetime_now ;;
       append_row (snd p)
         [new_id; title; content; due; priority; dt_text now; ""] ;;;
       clear_cache ;;;
       ret (mk_added new_id title content due priority (dt_text now)))
    Hcold Hf Hkey Hne) as [tr Hrun].
  cbv zeta in Hrun. rewrite Hrun. clear Hrun.
  rewrite Hnew, bind_lift_Raise.
  eexists. split; [reflexivity|]. split; [|exact Hf].
  destruct (tl (rows_of s)) as [|row rest] eqn:Hdata; [discriminate|].
  unfold stuck. cbn [_spreadsheet_cache _worksheet_cache _todos_cache
    _cache_timestamp heap_lists sheet].
  do 5 eexists. repeat (split; [reflexivity|]).
  split; [rewrite length_app; simpl; lia|].
  split; [reflexivity|]. split; [simpl; lia|].
  split; [|exact Hnew].
  eapply read_list_last; reflexivity.
Qed.


Lemma read_list_copy s l :
  read_list (set_heap_lists (heap_lists s ++ [list_items s l]) (tick s))
    (length (heap_lists s)) = read_list s l.
Proof.
  unfold read_list, list_items. cbn [heap_lists set_heap_lists tick set_ticks].
  rewrite lookup_total_snoc. reflexivity.
Qed.



Lemma parse_rows_snoc rows r : forall i,
  parse_rows i (rows ++ [r]) =
  parse_rows i rows ++
    (if skipped r then [] else [todo_of_row (i + length rows) r]).
Proof.
  induction rows as [|row rows IH]; intros i; simpl.
  - rewrite Nat.add_0_r. destruct (skipped r); reflexivity.
  - rewrite IH, <- Nat.add_succ_comm.
    destruct (skipped row); reflexivity.
Qed.

Lemma py_str_nonempty n : (0 <= n)%Z -> py_str n <> "".
Proof.
  intros Hn He. pose proof (ascii_digits_py_str n Hn) as H.
  rewrite He in H. discriminate.
Qed.










End AddTodo.


(** The ids of the two calls on the sample store, where the greatest
    numeric id is 12, and on the empty store. *)
Example added_ids_on_sample_store :
  @ids_assigned_by ascii_pystr two_calls sample_process = Some ["13"; "14"].
Proof. vm_compute. reflexivity. Qed.

Example added_ids_on_empty_store :
  @ids_assigned_by ascii_pystr two_calls empty_store_process = Some ["1"; "2"].
Proof. vm_compute. reflexivity. Qed.

(** Why the store must not fail: a read of the rows that fails is swallowed
    by [get_all_todos], and [add_todo] then starts again at ["1"]. *)
Example added_ids_after_a_failed_read :
  @ids_assigned_by ascii_pystr two_calls failing_second_read_process =
    Some ["13"; "1"].
Proof. vm_compute. reflexivity. Qed.

(** The example of the specification: sorted by priority the task of high
    priority comes first, sorted by due date the task due first. *)
Example specification_example :
  result (@add_then_sort ascii_pystr two_calls) empty_store_process =
    Return (["Buy milk"; "Write report"], ["Write report"; "Buy milk"]).
Proof. vm_compute. reflexivity. Qed.

(** ** Schema resolution, twice in a row *)

(** On a worksheet that did not exist the first run writes the header, and
    the second run writes nothing. *)
Example second_resolution_writes_nothing :
  writes (resolved_once None) =
    [AddWorksheet "Todos" 1000 10; AppendRow CREATED_HEADER; Update 1 0 HEADER] /\
  header_of (resolved_once None) = HEADER /\
  writes (after get_or_create_spreadsheet (resolved_once None)) =
    writes (resolved_once None).
Proof.
  split; [vm_compute; reflexivity|]. split; vm_compute; reflexivity.
Qed.

(** A header row of six cells that does not start with ["ID"] is patched by
    the first run and rewritten by the second: only a header that is already
    the schema is sure to be left alone. *)
Example second_resolution_of_six_cells_writes :
  header_of (resolved_once (Some [six_cells])) =
    ["No"; "タイトル"; "内容"; "期日"; "重要度"; "作成日時"; "ステータス"] /\
  writes (after get_or_create_spreadsheet (resolved_once (Some [six_cells]))) =
    writes (resolved_once (Some [six_cells])) ++ [Update 1 0 HEADER].
Proof. split; vm_compute; reflexivity. Qed.

(* ================================================================== *)
(** * Further properties of the repository and of [index] *)

(** ** Rows written, deleted and read back *)

Lemma listing_all_fresh s :
  cold s -> fault_free s -> configured s ->
  listing get_all_todos s = Return (parse_rows 2 (tl (rows_of s))).
Proof.
  intros Hc Hf Hk. pose proof (listing_fresh s (Some "all") Hc Hf Hk) as H.
  unfold listing in *. rewrite filtered_all in H. rewrite H.
  simpl. rewrite filter_all. reflexivity.
Qed.

Lemma delete_rows_ok ws r s rows :
  fault_free s -> sheet s = Some rows ->
  delete_rows ws r s =
    (Return tt,
     set_sheet (Some (take (pred r) rows ++ drop r rows)) (called (DeleteRows r) s)).
Proof.
  intros Hf Hs. unfold delete_rows.
  rewrite (bind_Return _ _ _ _ _ (remote_ok _ s Hf)).
  unfold bind, the_rows, modify. simpl. rewrite Hs. reflexivity.
Qed.

(** A write into one row, from cold caches, in a world without failures. *)
Lemma update_then_clear s key r c vs :
  cold s -> fault_free s -> env_SPREADSHEET_ID s = Some key -> key <> "" ->
  exists tr,
    (p <- get_or_create_spreadsheet ;; update (snd p) r c vs ;;; clear_cache) s =
      (Return tt,
       mk_state (Some ClientHandle) None None None None (heap_lists s)
         (heap_dicts s) (env_SPREADSHEET_ID s) (env_file_exists s)
         (Some (write_row r c vs (repaired_header (header_of s) :: tl (rows_of s))))
         (fault_plan s) tr (clock s) (ticks s) (stdout s)).
Proof.
  intros [Hw Hc] Hf Hkey Hne.
  destruct (resolve_cold s key Hf Hkey Hne (or_intror Hw)) as [tr Hr].
  rewrite (bind_Return _ _ _ _ _ Hr).
  erewrite bind_Return; cycle 1.
  { apply update_ok; [exact Hf|reflexivity]. }
  rewrite clear_cache_run.
  exists (tr ++ [Update r c vs]). reflexivity.
Qed.

Lemma delete_then_clear s key r :
  cold s -> fault_free s -> env_SPREADSHEET_ID s = Some key -> key <> "" ->
  exists tr,
    delete_todo r s =
      (Return tt,
       mk_state (Some ClientHandle) None None None None (heap_lists s)
         (heap_dicts s) (env_SPREADSHEET_ID s) (env_file_exists s)
         (Some (take (pred r) (repaired_header (header_of s) :: tl (rows_of s)) ++
                drop r (repaired_header (header_of s) :: tl (rows_of s))))
         (fault_plan s) tr (clock s) (ticks s) (stdout s)).
Proof.
  intros [Hw Hc] Hf Hkey Hne. unfold delete_todo.
  destruct (resolve_cold s key Hf Hkey Hne (or_intror Hw)) as [tr Hr].
  rewrite (bind_Return _ _ _ _ _ Hr).
  erewrite bind_Return; cycle 1.
  { apply delete_rows_ok; [exact Hf|reflexivity]. }
  rewrite clear_cache_run.
  exists (tr ++ [DeleteRows r]). reflexivity.
Qed.

Lemma write_row_nil k c vs :
  write_row (S k) c vs [] = replicate k [] ++ [write_cells c vs []].
Proof.
  unfold write_row.
  change ([] ++ replicate (S k - length (@nil cells)) [])
    with (replicate (S k) (@nil string)).
  rewrite replicate_S_end. simpl pred.
  assert (Hl : k = length (replicate k (@nil string)))
    by (symmetry; apply length_replicate).
  revert Hl. generalize (replicate k (@nil string)). intros l ->.
  rewrite lookup_total_snoc, insert_snoc. reflexivity.
Qed.

Lemma write_row_later k c vs row rest :
  write_row (S (S k)) c vs (row :: rest) = row :: write_row (S k) c vs rest.
Proof. reflexivity. Qed.

Lemma parse_rows_skipped rows : forall i,
  Forall (fun row => skipped row = true) rows -> parse_rows i rows = [].
Proof.
  induction rows as [|row rows IH]; intros i H; [reflexivity|].
  inversion H as [|? ? Hrow Hrest]; subst. simpl. rewrite Hrow. auto.
Qed.

Lemma parse_rows_app rows1 rows2 : forall i,
  parse_rows i (rows1 ++ rows2) =
  parse_rows i rows1 ++ parse_rows (i + length rows1) rows2.
Proof.
  induction rows1 as [|row rows1 IH]; intros i; simpl.
  - rewrite Nat.add_0_r. reflexivity.
  - rewrite IH, <- Nat.add_succ_comm. destruct (skipped row); reflexivity.
Qed.

Lemma parse_rows_from rows : forall i,
  Forall (fun t => i <= t_row t) (parse_rows i rows).
Proof.
  induction rows as [|row rows IH]; intros i; simpl; [constructor|].
  assert (Hrest : Forall (fun t => i <= t_row t) (parse_rows (S i) rows)).
  { eapply Forall_impl; [apply IH|]. simpl. intros; lia. }
  destruct (skipped row); [exact Hrest|].
  constructor; [simpl; lia|exact Hrest].
Qed.

(** Writing cells into one row changes the task of that row only. *)
Lemma parse_rows_write_row (R : todo -> todo -> Prop) c vs :
  (forall row, skipped (write_cells c vs row) = skipped row) ->
  (forall i row, skipped row = false ->
     R (todo_of_row i row) (todo_of_row i (write_cells c vs row))) ->
  forall k data i,
    Forall2 (fun x y => if (t_row x =? i + k)%nat then R x y else y = x)
      (parse_rows i data) (parse_rows i (write_row (S k) c vs data)).
Proof.
  intros Hskip HR.
  assert (Hsame : forall i j rows, i < j ->
            Forall2 (fun x y => if (t_row x =? i)%nat then R x y else y = x)
              (parse_rows j rows) (parse_rows j rows)).
  { intros i j rows Hlt. apply Forall2_same_length_lookup_2; [reflexivity|].
    intros n x y Hx Hy. rewrite Hx in Hy. injection Hy as <-.
    pose proof (parse_rows_from rows j) as Hfrom.
    rewrite Forall_lookup in Hfrom. specialize (Hfrom n x Hx).
    destruct (Nat.eqb_spec (t_row x) i); [lia|reflexivity]. }
  induction k as [|k IH]; intros data i.
  - rewrite Nat.add_0_r. destruct data as [|row rest].
    + rewrite write_row_first_nil. simpl.
      replace (skipped (write_cells c vs [])) with true
        by (symmetry; apply (Hskip [])).
      constructor.
    + rewrite write_row_first_cons. simpl. rewrite Hskip.
      destruct (skipped row) eqn:Hrow.
      * apply Hsame. lia.
      * constructor; [|apply Hsame; lia].
        simpl. rewrite Nat.eqb_refl. apply HR, Hrow.
  - destruct data as [|row rest].
    + rewrite write_row_nil. simpl parse_rows at 1.
      rewrite parse_rows_app, parse_rows_skipped.
      * simpl. replace (skipped (write_cells c vs [])) with true
          by (symmetry; apply (Hskip [])).
        constructor.
      * apply Forall_replicate. reflexivity.
    + rewrite write_row_later. simpl.
      specialize (IH rest (S i)).
      replace (S i + k) with (i + S k) in IH by lia.
      destruct (skipped row) eqn:Hrow; [exact IH|].
      constructor; [|exact IH].
      simpl. destruct (Nat.eqb_spec i (i + S k)); [lia|reflexivity].
Qed.

Lemma Forall2_fmap_eq {A} (f : A -> A) (l l' : list A) :
  Forall2 (fun x y => y = f x) l l' -> l' = f <$> l.
Proof. induction 1; csimpl; congruence. Qed.

Lemma skipped_write_cells c vs row :
  0 < c -> skipped (write_cells c vs row) = skipped row.
Proof.
  intros Hc. unfold write_cells. destruct c as [|c]; [lia|].
  destruct row as [|x row]; reflexivity.
Qed.

Lemma todo_of_row_edited i row title content due priority :
  skipped row = false ->
  todo_of_row i (write_cells 1 [title; content; due; priority] row) =
  edited title content due priority (todo_of_row i row).
Proof.
  destruct row as [|c0 rest]; [discriminate|]. intros Hs.
  unfold write_cells. simpl take. simpl drop. simpl app.
  unfold edited, todo_of_row. rewrite !cell_or_lookup. simpl.
  f_equal.
  - rewrite lookup_drop. reflexivity.
  - rewrite lookup_drop. reflexivity.
Qed.

Lemma filter_none {A} (p : A -> bool) (l : list A) :
  Forall (fun x => p x = false) l -> List.filter p l = [].
Proof. induction 1 as [|x l Hx _ IH]; simpl; [|rewrite Hx]; auto. Qed.

Lemma filter_every {A} (p : A -> bool) (l : list A) :
  Forall (fun x => p x = true) l -> List.filter p l = l.
Proof. induction 1 as [|x l Hx _ IH]; simpl; [|rewrite Hx, IH]; auto. Qed.

Lemma filter_rev_comm {A} (p : A -> bool) (l : list A) :
  List.filter p (rev l) = rev (List.filter p l).
Proof.
  induction l as [|x l IH]; [reflexivity|]. simpl.
  rewrite List.filter_app, IH. simpl. destruct (p x); simpl.
  - reflexivity.
  - apply app_nil_r.
Qed.

(** The state after a write into row [r], from cold caches. *)
Lemma after_row_write s r c vs :
  cold s -> fault_free s -> configured s -> 1 <= r ->
  let m := (p <- get_or_create_spreadsheet ;; update (snd p) r c vs ;;; clear_cache) in
  result m s = Return tt /\
  cold (after m s) /\ fault_free (after m s) /\ configured (after m s) /\
  tl (rows_of (after m s)) =
    match r with
    | S (S k) => write_row (S k) c vs (tl (rows_of s))
    | _ => tl (rows_of s)
    end.
Proof.
  intros Hcold Hf (key & Hkey & Hne) Hr m.
  destruct (update_then_clear s key r c vs Hcold Hf Hkey Hne) as [tr Hrun].
  unfold result, after, m. rewrite Hrun. cbn [fst snd].
  split; [reflexivity|]. split; [split; reflexivity|].
  split; [exact Hf|]. split; [exists key; split; assumption|].
  unfold rows_of at 1. cbn [sheet default].
  destruct r as [|[|k]]; [lia| |].
  - rewrite write_row_first_cons. reflexivity.
  - rewrite write_row_later. reflexivity.
Qed.

(** The tasks listed after a write into row [r], from cold caches. *)
Lemma listing_after_row_write s r c vs :
  cold s -> fault_free s -> configured s -> 1 <= r ->
  result (p <- get_or_create_spreadsheet ;; update (snd p) r c vs ;;; clear_cache) s
    = Return tt /\
  listing get_all_todos
    (after (p <- get_or_create_spreadsheet ;; update (snd p) r c vs ;;; clear_cache) s) =
  Return (match r with
          | S (S k) => parse_rows 2 (write_row (S k) c vs (tl (rows_of s)))
          | _ => parse_rows 2 (tl (rows_of s))
          end).
Proof.
  intros Hcold Hf Hk Hr.
  destruct (after_row_write s r c vs Hcold Hf Hk Hr) as (Hres & Hc' & Hf' & Hk' & Hrows).
  split; [exact Hres|].
  rewrite (listing_all_fresh _ Hc' Hf' Hk'), Hrows.
  destruct r as [|[|k]]; reflexivity.
Qed.

(** X1: [update_todo] changes the title, the content, the due date and the
    priority of the task read from row [row], and nothing else: the id, the
    creation time and the status of that task stay, and so does every other
    task.  When no task is read from that row the listing does not change. *)
Theorem update_changes_four_fields s row title content due_date priority old :
  cold s -> fault_free s -> configured s -> 1 <= row ->
  listing get_all_todos s = Return old ->
  result (update_todo row title content due_date priority) s = Return tt /\
  listing get_all_todos (after (update_todo row title content due_date priority) s) =
    Return ((fun t => if (t_row t =? row)%nat
                      then edited title content due_date priority t else t) <$> old).
Proof.
  intros Hcold Hf Hk Hr Hold.
  rewrite (listing_all_fresh s Hcold Hf Hk) in Hold. injection Hold as <-.
  destruct (listing_after_row_write s row 1 [title; content; due_date; priority]
              Hcold Hf Hk Hr) as [Hres Hlist].
  split; [exact Hres|].
  unfold update_todo. rewrite Hlist. f_equal.
  destruct row as [|[|k]]; [lia| |].
  - symmetry. etransitivity; [|apply list_fmap_id].
    apply list_fmap_ext. intros n t Ht.
    pose proof (parse_rows_from (tl (rows_of s)) 2) as Hfrom.
    rewrite Forall_lookup in Hfrom. specialize (Hfrom n t Ht).
    destruct (Nat.eqb_spec (t_row t) 1); [lia|reflexivity].
  - apply Forall2_fmap_eq.
    eapply Forall2_impl.
    + apply (parse_rows_write_row
               (fun x y => y = edited title content due_date priority x)).
      * intros r. apply skipped_write_cells. lia.
      * intros i r Hs. apply todo_of_row_edited, Hs.
    + intros x y. simpl. replace (2 + k) with (S (S k)) by lia.
      destruct (t_row x =? S (S k))%nat; auto.
Qed.

Lemma update_changes_four_fields_witness :
  listing get_all_todos
    (after (update_todo 5 "Report" "for Monday" "2025-02-01" "高") sample_process) =
  Return [task_abc;
          mk_todo "12" 5 "Report" "for Monday" "2025-02-01" "高"
            "2025-01-01 09:00:00" "完了"].
Proof.
  apply (update_changes_four_fields sample_process 5 "Report" "for Monday"
           "2025-02-01" "高" [task_abc; task_12]).
  - split; reflexivity.
  - intros n. reflexivity.
  - exists "sheet-1". split; [reflexivity|discriminate].
  - lia.
  - vm_compute. reflexivity.
Defined.

Lemma todo_of_row_completed i row :
  skipped row = false ->
  completed_version (todo_of_row i row) (todo_of_row i (write_cells 6 ["完了"] row)).
Proof.
  destruct row as [|c0 rest]; [discriminate|]. simpl. intros Hs.
  unfold completed_version, todo_of_row, write_cells.
  destruct rest as [|c1 [|c2 [|c3 [|c4 [|c5 [|c6 rest]]]]]];
    cbn; rewrite ?Hs; cbn; auto 10.
Qed.



Lemma open_after_completion r (l l' : list todo) :
  Forall2 (fun x y => if (t_row x =? r)%nat then completed_version x y else y = x)
    l l' ->
  List.filter is_open l' =
  List.filter (fun t => negb (t_row t =? r)%nat) (List.filter is_open l).
Proof.
  induction 1 as [|x y l l' Hxy _ IH]; [reflexivity|].
  destruct (t_row x =? r)%nat eqn:Hrow.
  - destruct Hxy as (Hst & _).
    assert (Hy : is_open y = false).
    { apply not_true_iff_false. rewrite is_open_true. auto. }
    simpl. rewrite Hy, IH. destruct (is_open x); [|reflexivity].
    simpl. rewrite Hrow. reflexivity.
  - subst y. simpl. rewrite IH. destruct (is_open x); [|reflexivity].
    simpl. rewrite Hrow. reflexivity.
Qed.

(** X3: after [complete_todo], the list of open tasks is the one before
    without the task of row [row]. *)
Theorem complete_removes_from_open s row open :
  cold s -> fault_free s -> configured s -> 2 <= row ->
  listing (get_all_todos_filtered None) s = Return open ->
  listing (get_all_todos_filtered None) (after (complete_todo row) s) =
    Return (List.filter (fun t => negb (t_row t =? row)%nat) open).
Proof.
  intros Hcold Hf Hk Hr Hopen.
  rewrite (listing_fresh s None Hcold Hf Hk) in Hopen. injection Hopen as <-.
  destruct (after_row_write s row 6 ["完了"] Hcold Hf Hk)
    as (_ & Hc' & Hf' & Hk' & Hrows); [lia|].
  unfold complete_todo.
  rewrite (listing_fresh _ None Hc' Hf' Hk'), Hrows. f_equal.
  destruct row as [|[|k]]; [lia|lia|].
  apply open_after_completion.
  change (S (S k)) with (2 + k).
  apply (parse_rows_write_row completed_version 6 ["完了"]).
  - intros r. apply skipped_write_cells. lia.
  - intros i r Hs. apply todo_of_row_completed, Hs.
Qed.

Lemma complete_removes_from_open_witness :
  listing (get_all_todos_filtered None) (after (complete_todo 2) sample_process) =
    Return [].
Proof.
  apply (complete_removes_from_open sample_process 2 [task_abc]).
  - split; reflexivity.
  - intros n. reflexivity.
  - exists "sheet-1". split; [reflexivity|discriminate].
  - lia.
  - vm_compute. reflexivity.
Defined.

Lemma parse_rows_moved_up rows : forall i,
  moved_up <$> parse_rows (S i) rows = parse_rows i rows.
Proof.
  induction rows as [|row rows IH]; intros i; [reflexivity|].
  simpl. destruct (skipped row); csimpl; rewrite IH; reflexivity.
Qed.

(** The tasks of the rows that are left when one row is taken out. *)
Lemma parse_rows_delete k : forall data i,
  parse_rows i (take k data ++ drop (S k) data) =
  List.filter (fun t => (t_row t <? i + k)%nat) (parse_rows i data) ++
  (moved_up <$> List.filter (fun t => (i + k <? t_row t)%nat) (parse_rows i data)).
Proof.
  induction k as [|k IH]; intros [|row rest] i; try reflexivity.
  - rewrite Nat.add_0_r. simpl take. simpl drop. rewrite drop_0. simpl app.
    pose proof (parse_rows_from rest (S i)) as Hfrom.
    assert (H1 : List.filter (fun t => (t_row t <? i)%nat) (parse_rows (S i) rest) = []).
    { apply filter_none. eapply Forall_impl; [exact Hfrom|].
      simpl. intros t Ht. apply Nat.ltb_ge. lia. }
    assert (H2 : List.filter (fun t => (i <? t_row t)%nat) (parse_rows (S i) rest)
                 = parse_rows (S i) rest).
    { apply filter_every. eapply Forall_impl; [exact Hfrom|].
      simpl. intros t Ht. apply Nat.ltb_lt. lia. }
    simpl parse_rows. destruct (skipped row).
    + rewrite H1, H2. simpl. symmetry. apply parse_rows_moved_up.
    + simpl List.filter. rewrite Nat.ltb_irrefl, H1, H2. simpl.
      symmetry. apply parse_rows_moved_up.
  - simpl take. simpl drop. simpl app. simpl parse_rows.
    rewrite IH. replace (S i + k) with (i + S k) by lia.
    destruct (skipped row); [reflexivity|].
    simpl List.filter.
    assert (Hlt : (i <? i + S k)%nat = true) by (apply Nat.ltb_lt; lia).
    assert (Hge : (i + S k <? i)%nat = false) by (apply Nat.ltb_ge; lia).
    rewrite Hlt, Hge. reflexivity.
Qed.

(** X4: [delete_todo] takes out the task read from row [row]; the tasks of
    the rows above stay as they are, and the tasks of the rows below are
    read from one row higher. The header row is row 1: [row] is at least 2. *)
Theorem delete_removes_row_and_shifts s row old :
  cold s -> fault_free s -> configured s -> 2 <= row ->
  listing get_all_todos s = Return old ->
  result (delete_todo row) s = Return tt /\
  listing get_all_todos (after (delete_todo row) s) =
    Return (List.filter (fun t => (t_row t <? row)%nat) old ++
            (moved_up <$> List.filter (fun t => (row <? t_row t)%nat) old)).
Proof.
  intros Hcold Hf Hk Hr Hold.
  rewrite (listing_all_fresh s Hcold Hf Hk) in Hold. injection Hold as <-.
  destruct Hk as (key & Hkey & Hne).
  destruct (delete_then_clear s key row Hcold Hf Hkey Hne) as [tr Hrun].
  unfold result, after. rewrite Hrun. cbn [fst snd]. split; [reflexivity|].
  rewrite listing_all_fresh.
  - f_equal. unfold rows_of at 1. cbn [sheet default].
    destruct row as [|[|k]]; [lia|lia|].
    simpl pred. simpl take. simpl drop. simpl tl.
    change (S (S k)) with (2 + k). apply parse_rows_delete.
  - split; reflexivity.
  - exact Hf.
  - exists key. split; assumption.
Qed.

Lemma delete_removes_row_and_shifts_witness :
  listing get_all_todos (after (delete_todo 2) sample_process) =
    Return [mk_todo "12" 4 "Write report" "" "2025-01-05" "urgent"
              "2025-01-01 09:00:00" "完了"].
Proof.
  apply (delete_removes_row_and_shifts sample_process 2 [task_abc; task_12]).
  - split; reflexivity.
  - intros n. reflexivity.
  - exists "sheet-1". split; [reflexivity|discriminate].
  - lia.
  - vm_compute. reflexivity.
Defined.

Section AddRoundTrip.
Context {PS : PyStr}.

(** X5: a task added by [add_todo] is the last one of the next listing, with
    the id, the four fields and the creation time that the call returned, no
    status, and the number of the last row of the worksheet; the tasks listed
    before are unchanged. *)
Theorem add_then_read s title content due_date priority a old :
  cold s -> fault_free s -> configured s ->
  listing get_all_todos s = Return old ->
  result (add_todo title content due_date priority) s = Return a ->
  let s' := after (add_todo title content due_date priority) s in
  listing get_all_todos s' =
    Return (old ++ [mk_todo (a_id a) (length (rows_of s')) title content due_date
                      priority (a_created_at a) ""]).
Proof.
  intros Hcold Hf Hk Hold Hres s'.
  rewrite (listing_all_fresh s Hcold Hf Hk) in Hold. injection Hold as <-.
  destruct Hk as (key & Hkey & Hne).
  destruct (new_id_of (parse_rows 2 (tl (rows_of s)))) as [nid|e] eqn:Hnew.
  - destruct (add_todo_cold_Return s key title content due_date priority nid
               Hcold Hf Hkey Hne Hnew) as (tr & hl & hd & Hrun).
    unfold result in Hres. unfold s', after. rewrite Hrun in Hres |- *.
    injection Hres as <-. cbn [snd a_id a_created_at].
    rewrite listing_all_fresh.
    + f_equal.
      assert (Hid : nid <> "").
      { rewrite new_id_of_next_number in Hnew.
        destruct (next_number (parse_rows 2 (tl (rows_of s)))) as [n|]
          eqn:Hn; [|discriminate].
        injection Hnew as <-. apply py_str_nonempty.
        pose proof (next_number_positive _ _ Hn). lia. }
      apply String.eqb_neq in Hid.
      generalize (tl (rows_of s)). intros data.
      unfold rows_of. cbn [sheet default from_option id tl length].
      rewrite parse_rows_snoc, length_app. cbn [length skipped]. rewrite Hid.
      replace (S (length data + 1)) with (2 + length data) by lia.
      unfold todo_of_row. cbn. rewrite Hid. reflexivity.
    + split; reflexivity.
    + exact Hf.
    + exists key. split; assumption.
  - destruct (add_todo_cold_Raise s key title content due_date priority e
               Hcold Hf Hkey Hne Hnew) as (x & Hrun & _).
    unfold result in Hres. rewrite Hrun in Hres. discriminate.
Qed.

End AddRoundTrip.

Lemma add_then_read_witness :
  let s' := after (@add_todo ascii_pystr "Call Bob" "" "2025-03-01" "低") sample_process in
  listing get_all_todos s' =
  Return ([task_abc; task_12] ++
          [mk_todo "13" (length (rows_of s')) "Call Bob" "" "2025-03-01" "低"
             "2025-01-01 00:00:00" ""]).
Proof.
  refine (@add_then_read ascii_pystr sample_process "Call Bob" "" "2025-03-01" "低"
           (mk_added "13" "Call Bob" "" "2025-03-01" "低" "2025-01-01 00:00:00")
           [task_abc; task_12] _ _ _ _ _).
  - split; reflexivity.
  - intros n. reflexivity.
  - exists "sheet-1". split; [reflexivity|discriminate].
  - vm_compute. reflexivity.
  - vm_compute. reflexivity.
Defined.

(** ** The cache of [get_all_todos] *)

(** X6: a second read within [CACHE_DURATION] of a read that found data rows
    is answered from the cache: no remote call is made, the tasks are the
    same, and the list object returned is a new one, not the cached one. *)
Theorem second_read_is_served_from_cache s :
  cold s -> fault_free s -> configured s ->
  tl (rows_of s) <> [] ->
  (dt_micros (clock s (S (ticks s))) - dt_micros (clock s (ticks s))
     < CACHE_DURATION)%Z ->
  let s1 := after get_all_todos s in
  listing get_all_todos s1 = listing get_all_todos s /\
  trace (after get_all_todos s1) = trace s1 /\
  forall l, result get_all_todos s1 = Return l -> _todos_cache s1 <> Some l.
Proof.
  intros Hcold Hf Hk Hdata Hfresh s1.
  rewrite (listing_all_fresh s Hcold Hf Hk).
  destruct Hk as (key & Hkey & Hne).
  destruct (get_all_todos_fresh s key Hcold Hf Hkey Hne) as [tr Hrun].
  cbv zeta in Hrun. unfold s1, after. rewrite Hrun. cbn [snd].
  match type of Hrun with _ = (_, ?st) => set (st1 := st) end.
  destruct (tl (rows_of s)) as [|row rest] eqn:Hd; [congruence|].
  assert (Hcached := get_all_todos_cached st1 (length (heap_lists s))
                       (clock s (ticks s)) eq_refl eq_refl Hfresh).
  split; [|split].
  - rewrite (listing_Return _ _ _ _ Hcached).
    rewrite read_list_copy. f_equal. eapply read_list_last; reflexivity.
  - rewrite Hcached. reflexivity.
  - unfold result. rewrite Hcached. cbn [fst]. intros l [= <-].
    unfold st1. cbn [heap_lists _todos_cache]. rewrite length_app. simpl.
    intros [= H]. lia.
Qed.

Lemma second_read_is_served_from_cache_witness :
  let s1 := after get_all_todos sample_process in
  listing get_all_todos s1 = listing get_all_todos sample_process /\
  trace (after get_all_todos s1) = trace s1 /\
  forall l, result get_all_todos s1 = Return l -> _todos_cache s1 <> Some l.
Proof.
  refine (second_read_is_served_from_cache sample_process _ _ _ _ _).
  - split; reflexivity.
  - intros n. reflexivity.
  - exists "sheet-1". split; [reflexivity|discriminate].
  - discriminate.
  - vm_compute. reflexivity.
Defined.

(** The state after a read that went to the store and found data rows. *)
Lemma after_fresh_read s :
  cold s -> fault_free s -> configured s ->
  let s1 := after get_all_todos s in
  exists sp ws,
    _spreadsheet_cache s1 = Some sp /\ _worksheet_cache s1 = Some ws /\
    fault_free s1 /\
    sheet s1 = Some (repaired_header (header_of s) :: tl (rows_of s)) /\
    clock s1 = clock s /\ ticks s1 = S (ticks s) /\
    _todos_cache s1 =
      match tl (rows_of s) with [] => None | _ => Some (length (heap_lists s)) end /\
    (tl (rows_of s) <> [] -> _cache_timestamp s1 = Some (clock s (ticks s))).
Proof.
  intros Hcold Hf (key & Hkey & Hne) s1.
  destruct (get_all_todos_fresh s key Hcold Hf Hkey Hne) as [tr Hrun].
  cbv zeta in Hrun. unfold s1, after. rewrite Hrun. cbn [snd].
  do 2 eexists. cbn.
  split; [reflexivity|]. split; [reflexivity|]. split; [exact Hf|].
  split; [reflexivity|]. split; [reflexivity|]. split; [reflexivity|].
  split; [reflexivity|].
  destruct (tl (rows_of s)); [congruence|reflexivity].
Qed.

(** X7: once [CACHE_DURATION] has passed, the next read goes to the store
    again: it reads the rows with one remote call and, the store being
    unchanged, returns the same tasks. *)
Theorem stale_cache_is_refreshed s :
  cold s -> fault_free s -> configured s ->
  (CACHE_DURATION <=
     dt_micros (clock s (S (ticks s))) - dt_micros (clock s (ticks s)))%Z ->
  let s1 := after get_all_todos s in
  listing get_all_todos s1 = listing get_all_todos s /\
  trace (after get_all_todos s1) = trace s1 ++ [GetAllValues].
Proof.
  intros Hcold Hf Hk Hstale s1.
  rewrite (listing_all_fresh s Hcold Hf Hk).
  destruct (after_fresh_read s Hcold Hf Hk)
    as (sp & ws & Hsp & Hws & Hf1 & Hsheet & Hclock & Hticks & Hcache & Hstamp).
  fold s1 in Hsp, Hws, Hf1, Hsheet, Hclock, Hticks, Hcache, Hstamp.
  assert (Hun : cache_unusable s1).
  { unfold cache_unusable. rewrite Hcache.
    destruct (tl (rows_of s)) as [|row rest] eqn:Hd; [exact I|].
    rewrite Hstamp by discriminate. rewrite Hclock, Hticks. exact Hstale. }
  pose proof (get_all_todos_resolved s1 sp ws _ Hun Hf1 Hsp Hws Hsheet) as Hrun.
  cbv zeta in Hrun. split.
  - rewrite (listing_Return _ _ _ _ Hrun). f_equal.
    eapply read_list_last; reflexivity.
  - unfold after at 1. rewrite Hrun. reflexivity.
Qed.

Lemma stale_cache_is_refreshed_witness :
  let s1 := after get_all_todos slow_process in
  listing get_all_todos s1 = listing get_all_todos slow_process /\
  trace (after get_all_todos s1) = trace s1 ++ [GetAllValues].
Proof.
  refine (stale_cache_is_refreshed slow_process _ _ _ _).
  - split; reflexivity.
  - intros n. reflexivity.
  - exists "sheet-1". split; [reflexivity|discriminate].
  - vm_compute. discriminate.
Defined.

(** X8: a worksheet without data rows is never cached: the read returns an
    empty list and leaves the cache empty, so that the next read goes to
    the store again, however soon it comes. *)
Theorem empty_store_is_not_cached s :
  cold s -> fault_free s -> configured s ->
  tl (rows_of s) = [] ->
  let s1 := after get_all_todos s in
  listing get_all_todos s = Return [] /\
  _todos_cache s1 = None /\
  listing get_all_todos s1 = Return [] /\
  trace (after get_all_todos s1) = trace s1 ++ [GetAllValues].
Proof.
  intros Hcold Hf Hk Hdata s1.
  pose proof (listing_all_fresh s Hcold Hf Hk) as Hl. rewrite Hdata in Hl.
  destruct (after_fresh_read s Hcold Hf Hk)
    as (sp & ws & Hsp & Hws & Hf1 & Hsheet & Hclock & Hticks & Hcache & _).
  fold s1 in Hsp, Hws, Hf1, Hsheet, Hclock, Hticks, Hcache.
  rewrite Hdata in Hcache, Hsheet.
  assert (Hun : cache_unusable s1) by (unfold cache_unusable; rewrite Hcache; exact I).
  pose proof (get_all_todos_resolved s1 sp ws _ Hun Hf1 Hsp Hws Hsheet) as Hrun.
  cbv zeta in Hrun.
  split; [exact Hl|]. split; [exact Hcache|]. split.
  - rewrite (listing_Return _ _ _ _ Hrun). f_equal.
    eapply (read_list_last _ _ _ []); reflexivity.
  - unfold after at 1. rewrite Hrun. reflexivity.
Qed.

Lemma empty_store_is_not_cached_witness :
  let s1 := after get_all_todos empty_store_process in
  listing get_all_todos empty_store_process = Return [] /\
  _todos_cache s1 = None /\
  listing get_all_todos s1 = Return [] /\
  trace (after get_all_todos s1) = trace s1 ++ [GetAllValues].
Proof.
  refine (empty_store_is_not_cached empty_store_process _ _ _ _).
  - split; reflexivity.
  - intros n. reflexivity.
  - exists "sheet-1". split; [reflexivity|discriminate].
  - reflexivity.
Defined.

(** ** The failures and the writes of the resolution *)

Lemma get_sheets_client_run s :
  fault_free s ->
  get_sheets_client s =
    (Return ClientHandle,
     set_sheets_client (Some ClientHandle)
       (set_trace (trace s ++ authorization s) s)).
Proof.
  intros Hf. unfold get_sheets_client, authorization. rewrite bind_gets.
  destruct (_sheets_client s) as [[]|] eqn:Hc.
  - unfold ret. f_equal. rewrite app_nil_r.
    destruct s; simpl in *; subst; reflexivity.
  - unfold authorize.
    rewrite (bind_Return _ _ _ _ _
      (bind_Return _ (fun _ => ret ClientHandle) _ _ _ (remote_ok Authorize s Hf))).
    rewrite bind_modify. reflexivity.
Qed.

Lemma unresolved_match s {X} (a : Spreadsheet -> Worksheet -> X) (b : X) :
  unresolved s ->
  match _spreadsheet_cache s, _worksheet_cache s with
  | Some sp, Some ws => a sp ws
  | _, _ => b
  end = b.
Proof.
  intros [-> | ->]; [reflexivity|]. destruct (_spreadsheet_cache s); reflexivity.
Qed.

Lemma resolve_unconfigured s :
  fault_free s -> unresolved s -> ~ configured s ->
  get_or_create_spreadsheet s =
    (Raise (Exception_
              (if env_file_exists s then SpreadsheetIdNotSet else EnvFileMissing)),
     set_sheets_client (Some ClientHandle)
       (set_trace (trace s ++ authorization s) s)).
Proof.
  intros Hf Hun Hno.
  unfold get_or_create_spreadsheet. rewrite !bind_gets.
  rewrite (unresolved_match s _ _ Hun).
  rewrite (bind_Return _ _ _ _ _ (get_sheets_client_run s Hf)), !bind_gets.
  cbn [env_SPREADSHEET_ID env_file_exists set_sheets_client set_trace].
  destruct (env_SPREADSHEET_ID s) as [key|] eqn:Hkey; [|reflexivity].
  destruct (key =? "")%string eqn:Hk; [reflexivity|].
  exfalso. apply Hno. exists key. split; [exact Hkey|].
  apply String.eqb_neq. exact Hk.
Qed.

(** X9: without a store identifier (the variable is not set, or set to the
    empty string) the resolution raises the configuration error, the one
    about the missing [.env] file when that file does not exist; it has
    authorized the client if that was still to be done, and has neither
    opened the spreadsheet nor cached any handle. *)
Theorem resolution_without_identifier s :
  fault_free s -> unresolved s -> ~ configured s ->
  get_or_create_spreadsheet s =
    (Raise (Exception_
              (if env_file_exists s then SpreadsheetIdNotSet else EnvFileMissing)),
     set_sheets_client (Some ClientHandle)
       (set_trace (trace s ++ authorization s) s)).
Proof. apply resolve_unconfigured. Qed.

Lemma resolution_without_identifier_witness :
  get_or_create_spreadsheet (fresh_process (Some "") (Some sample_rows) no_faults) =
    (Raise (Exception_ SpreadsheetIdNotSet),
     set_sheets_client (Some ClientHandle)
       (set_trace [Authorize] (fresh_process (Some "") (Some sample_rows) no_faults))).
Proof.
  refine (resolution_without_identifier
            (fresh_process (Some "") (Some sample_rows) no_faults) _ _ _).
  - intros n. reflexivity.
  - left. reflexivity.
  - intros (key & Hkey & Hne). injection Hkey as <-. apply Hne. reflexivity.
Defined.

(** X10: when opening the spreadsheet fails, the resolution raises an
    [Exception] instead: the message says that the identifier was not found
    when the failure is [SpreadsheetNotFound], and carries the text of the
    failure otherwise.  Nothing is cached and nothing is written. *)
Theorem open_failure_is_wrapped s client key e :
  _sheets_client s = Some client -> unresolved s ->
  env_SPREADSHEET_ID s = Some key -> key <> "" ->
  fault_plan s (length (trace s)) = Some e ->
  get_or_create_spreadsheet s =
    (Raise (Exception_ (if is_spreadsheet_not_found e
                        then SpreadsheetIdNotFound key
                        else AccessFailed (exn_str e))),
     called (OpenByKey key) s).
Proof.
  intros Hc Hun Hkey Hne He. apply String.eqb_neq in Hne.
  unfold get_or_create_spreadsheet. rewrite !bind_gets.
  rewrite (unresolved_match s _ _ Hun).
  assert (Hclient : get_sheets_client s = (Return client, s)).
  { unfold get_sheets_client. rewrite bind_gets, Hc. reflexivity. }
  rewrite (bind_Return _ _ _ _ _ Hclient), !bind_gets.
  rewrite Hkey, Hne.
  erewrite bind_Raise; [reflexivity|].
  erewrite try_Raise; cycle 1.
  { unfold open_by_key. apply bind_Raise. unfold remote. rewrite He. reflexivity. }
  cbn [any_exception]. destruct (is_spreadsheet_not_found e); reflexivity.
Qed.

Lemma open_failure_is_wrapped_witness :
  get_or_create_spreadsheet (authorized_process (APIError "quota exceeded")) =
    (Raise (Exception_ (AccessFailed "quota exceeded")),
     called (OpenByKey "sheet-1") (authorized_process (APIError "quota exceeded"))).
Proof.
  refine (open_failure_is_wrapped (authorized_process (APIError "quota exceeded"))
            ClientHandle "sheet-1" (APIError "quota exceeded") _ _ _ _ _).
  - reflexivity.
  - left. reflexivity.
  - reflexivity.
  - discriminate.
  - reflexivity.
Defined.

(** X11: when the spreadsheet has no worksheet named Todos, the resolution
    creates it with 1000 rows and 10 columns, appends the five-column header
    and then writes the seven-column header over it: these are its three
    writes, and the worksheet then holds the header row only. *)
Theorem missing_worksheet_is_created s :
  fault_free s -> unresolved s -> configured s -> sheet s = None ->
  let s' := after get_or_create_spreadsheet s in
  (exists sp, result get_or_create_spreadsheet s = Return (sp, WorksheetHandle "Todos")) /\
  sheet s' = Some [HEADER] /\
  writes s' =
    writes s ++ [AddWorksheet "Todos" 1000 10; AppendRow CREATED_HEADER;
                 Update 1 0 HEADER].
Proof.
  intros Hf Hun (key & Hkey & Hne) Hsheet s'. apply String.eqb_neq in Hne.
  assert (Hrun : get_or_create_spreadsheet s =
    (Return (SpreadsheetHandle key, WorksheetHandle "Todos"),
     mk_state (Some ClientHandle) (Some (SpreadsheetHandle key))
       (Some (WorksheetHandle "Todos")) (_todos_cache s) (_cache_timestamp s)
       (heap_lists s) (heap_dicts s) (env_SPREADSHEET_ID s) (env_file_exists s)
       (Some [HEADER]) (fault_plan s)
       (trace s ++ authorization s ++
          [OpenByKey key; GetWorksheet "Todos"; AddWorksheet "Todos" 1000 10;
           AppendRow CREATED_HEADER; RowValues 1; Update 1 0 HEADER])
       (clock s) (ticks s) (stdout s))).
  { unfold get_or_create_spreadsheet. rewrite !bind_gets.
    rewrite (unresolved_match s _ _ Hun).
    rewrite (bind_Return _ _ _ _ _ (get_sheets_client_run s Hf)), !bind_gets.
    set (s1 := set_sheets_client _ _).
    assert (Hf1 : fault_free s1) by exact Hf.
    replace (env_SPREADSHEET_ID s1) with (Some key) by (symmetry; exact Hkey).
    rewrite Hne.
    erewrite bind_Return; cycle 1.
    { eapply try_Return. apply open_by_key_ok. exact Hf1. }
    set (s2 := set_trace (trace s1 ++ [OpenByKey key]) s1).
    assert (Hf2 : fault_free s2) by exact Hf.
    erewrite bind_Return; cycle 1.
    { erewrite try_Raise; cycle 1.
      { unfold worksheet. rewrite (bind_Return _ _ _ _ _ (remote_ok _ s2 Hf2)).
        rewrite bind_gets. simpl. rewrite Hsheet. simpl. reflexivity. }
      simpl. unfold add_worksheet.
      erewrite bind_Return; cycle 1.
      { erewrite bind_Return; [|apply remote_ok; exact Hf].
        rewrite bind_gets. simpl. rewrite Hsheet. simpl.
        rewrite bind_modify. reflexivity. }
      unfold append_row.
      erewrite bind_Return; cycle 1.
      { erewrite bind_Return; [|apply remote_ok; exact Hf].
        unfold bind, the_rows, modify. simpl. reflexivity. }
      unfold ret. reflexivity. }
    match goal with |- bind _ _ ?st = _ => set (s3 := st) end.
    assert (Hf3 : fault_free s3) by exact Hf.
    erewrite bind_Return; cycle 1.
    { unfold check_header. apply try_Return.
      rewrite (bind_Return _ _ _ _ _
        (row_values_ok _ 1 s3 [CREATED_HEADER] Hf3 eq_refl)).
      simpl. apply update_ok; [exact Hf|reflexivity]. }
    rewrite !bind_modify. unfold ret. f_equal.
    unfold s3, s2, s1. cbn.
    rewrite <- !app_assoc. reflexivity. }
  unfold s', result, after. rewrite Hrun. cbn [fst snd sheet].
  split; [eauto|]. split; [reflexivity|].
  unfold writes. cbn [trace]. rewrite !List.filter_app.
  unfold authorization. destruct (_sheets_client s); simpl; reflexivity.
Qed.

Lemma missing_worksheet_is_created_witness :
  let s' := after get_or_create_spreadsheet
              (fresh_process (Some "sheet-1") None no_faults) in
  (exists sp, result get_or_create_spreadsheet
                (fresh_process (Some "sheet-1") None no_faults)
              = Return (sp, WorksheetHandle "Todos")) /\
  sheet s' = Some [HEADER] /\
  writes s' =
    writes (fresh_process (Some "sheet-1") None no_faults) ++
      [AddWorksheet "Todos" 1000 10; AppendRow CREATED_HEADER; Update 1 0 HEADER].
Proof.
  refine (missing_worksheet_is_created
            (fresh_process (Some "sheet-1") None no_faults) _ _ _ _).
  - intros n. reflexivity.
  - left. reflexivity.
  - exists "sheet-1". split; [reflexivity|discriminate].
  - reflexivity.
Defined.

(** ** What the calls leave as it is *)

Section Keeps.
Context (R : state -> state -> Prop) `{!PreOrder R}.

Lemma keeps_ret {A} (a : A) : keeps R (ret a).
Proof. intros s. reflexivity. Qed.

Lemma keeps_raise {A} e : keeps R (@raise A e).
Proof. intros s. reflexivity. Qed.

Lemma keeps_gets {A} (f : state -> A) : keeps R (gets f).
Proof. intros s. reflexivity. Qed.

Lemma keeps_lift {A} (o : outcome A) : keeps R (lift o).
Proof. intros s. reflexivity. Qed.

Lemma keeps_modify f : (forall s, R s (f s)) -> keeps R (modify f).
Proof. intros H s. apply H. Qed.

Lemma keeps_bind {A B} (m : M A) (k : A -> M B) :
  keeps R m -> (forall a, keeps R (k a)) -> keeps R (bind m k).
Proof.
  intros Hm Hk s. specialize (Hm s). unfold after, bind in *.
  destruct (m s) as [[a|e] s1]; simpl in *; [|exact Hm].
  etransitivity; [exact Hm|]. apply Hk.
Qed.

Lemma keeps_try {A} (body : M A) c (h : exn -> M A) :
  keeps R body -> (forall e, keeps R (h e)) -> keeps R (try_except body c h).
Proof.
  intros Hm Hh s. specialize (Hm s). unfold after, try_except in *.
  destruct (body s) as [[a|e] s1]; simpl in *; [exact Hm|].
  destruct (c e); [|exact Hm].
  etransitivity; [exact Hm|]. apply Hh.
Qed.

Lemma keeps_when c m : keeps R m -> keeps R (when c m).
Proof. intros H. destruct c; [exact H|apply keeps_ret]. Qed.

Lemma keeps_attempt {A} (m : M A) : keeps R m -> keeps R (attempt m).
Proof. intros H s. apply H. Qed.

End Keeps.

Ltac keeps_step :=
  match goal with
  | |- keeps _ (bind _ _) => apply keeps_bind; [exact _| |intros ?]
  | |- keeps _ (try_except _ _ _) => apply keeps_try; [exact _| |intros ?]
  | |- keeps _ (ret _) => apply keeps_ret; exact _
  | |- keeps _ (raise _) => apply keeps_raise; exact _
  | |- keeps _ (gets _) => apply keeps_gets; exact _
  | |- keeps _ (lift _) => apply keeps_lift; exact _
  | |- keeps _ (when _ _) => apply keeps_when; [exact _|]
  | |- keeps _ (attempt _) => apply keeps_attempt
  | |- keeps _ (if ?b then _ else _) => destruct b
  | |- keeps _ (match ?x with _ => _ end) => destruct x
  end.

(** *** Data rows *)

Global Instance same_data_rows_preorder : PreOrder same_data_rows.
Proof.
  split.
  - intros s. reflexivity.
  - intros a b c Hab Hbc. unfold same_data_rows in *. congruence.
Qed.

Lemma same_rows_remote c : keeps same_data_rows (remote c).
Proof. intros s. unfold after, remote. destruct (fault_plan s _); reflexivity. Qed.

Lemma same_rows_the_rows : keeps same_data_rows the_rows.
Proof. intros s. unfold after, the_rows. destruct (sheet s); reflexivity. Qed.

Lemma same_rows_update_header ws c vs : keeps same_data_rows (update ws 1 c vs).
Proof.
  intros [cl sc wc tc ts hl hd k ef sh plan tr ck tk out].
  unfold after, update, bind, remote, the_rows, modify, same_data_rows, rows_of.
  simpl. destruct (plan (length tr)); [reflexivity|].
  destruct sh as [rows|]; simpl; [|reflexivity].
  rewrite write_row_first. reflexivity.
Qed.

Lemma same_rows_created sp :
  keeps same_data_rows
    (ws <- add_worksheet sp "Todos" 1000 10 ;;
     append_row ws CREATED_HEADER ;;; ret ws).
Proof.
  intros [cl sc wc tc ts hl hd k ef sh plan tr ck tk out].
  unfold after, add_worksheet, append_row, bind, remote, the_rows, modify, gets,
    ret, raise, same_data_rows, rows_of.
  simpl. destruct (plan (length tr)); [reflexivity|].
  destruct sh as [rows|]; simpl; [reflexivity|].
  destruct (plan _); reflexivity.
Qed.

Lemma same_rows_collect todos rows : forall i,
  keeps same_data_rows (collect_todos todos i rows).
Proof.
  induction rows as [|row rows IH]; intros i; simpl.
  - apply keeps_ret. exact _.
  - destruct (skipped row); [apply IH|].
    repeat keeps_step; try apply IH; intros s; reflexivity.
Qed.

Lemma same_rows_check_header ws : keeps same_data_rows (check_header ws).
Proof.
  unfold check_header, row_values.
  repeat first [apply same_rows_update_header | apply same_rows_remote
               | apply same_rows_the_rows | keeps_step].
Qed.

Lemma same_rows_resolution : keeps same_data_rows get_or_create_spreadsheet.
Proof.
  unfold get_or_create_spreadsheet, get_sheets_client, authorize, open_by_key,
    worksheet.
  repeat first [apply same_rows_check_header | apply same_rows_created
               | apply same_rows_remote | keeps_step
               | (apply keeps_modify; intros ?; reflexivity)].
Qed.

Lemma same_rows_get_all_todos : keeps same_data_rows get_all_todos.
Proof.
  unfold get_all_todos, fetch_todos, read_todos, list_copy, get_all_values, print.
  repeat first [apply same_rows_resolution | apply same_rows_collect
               | apply same_rows_remote | apply same_rows_the_rows
               | keeps_step
               | (apply keeps_modify; intros ?; reflexivity)
               | (intros ?; reflexivity)].
Qed.

(** X12: a read never changes a task row, whatever fails on the way: the
    only row that the reads write to is the header row. *)
Theorem reads_leave_data_rows f s :
  tl (rows_of (after (get_all_todos_filtered f) s)) = tl (rows_of s).
Proof.
  revert s. change (keeps same_data_rows (get_all_todos_filtered f)).
  unfold get_all_todos_filtered, comprehension.
  repeat first [apply same_rows_get_all_todos | keeps_step
               | (intros ?; reflexivity)].
Qed.

(** *** The client *)

Global Instance stays_authorized_preorder : PreOrder stays_authorized.
Proof.
  split.
  - intros s H. split; [exact H|reflexivity].
  - intros a b c Hab Hbc H. destruct (Hab H) as [Hb Hn].
    destruct (Hbc Hb) as [Hc Hm]. split; [exact Hc|congruence].
Qed.

Lemma authorized_remote c :
  is_authorize c = false -> keeps stays_authorized (remote c).
Proof.
  intros Hc s H. unfold after, remote, authorizations.
  destruct (fault_plan s _); simpl; (split; [exact H|]);
    rewrite List.filter_app; simpl; rewrite Hc, app_nil_r; reflexivity.
Qed.

Lemma authorized_frame (f : state -> state) :
  (forall s, _sheets_client (f s) = _sheets_client s) ->
  (forall s, trace (f s) = trace s) ->
  keeps stays_authorized (modify f).
Proof.
  intros Hc Ht. apply keeps_modify. intros s H.
  unfold authorizations. rewrite Hc, Ht. split; [exact H|reflexivity].
Qed.

Lemma authorized_the_rows : keeps stays_authorized the_rows.
Proof.
  intros s H. unfold after, the_rows. destruct (sheet s); split; auto.
Qed.

Lemma authorized_get_sheets_client : keeps stays_authorized get_sheets_client.
Proof.
  intros s H. unfold after, get_sheets_client. rewrite bind_gets.
  destruct (_sheets_client s) eqn:Hc; [|congruence].
  simpl. rewrite Hc. split; [discriminate|reflexivity].
Qed.

Lemma authorized_datetime_now : keeps stays_authorized datetime_now.
Proof. intros s H. split; [exact H|reflexivity]. Qed.

Lemma authorized_alloc_list items : keeps stays_authorized (alloc_list items).
Proof. intros s H. split; [exact H|reflexivity]. Qed.

Lemma authorized_alloc_dict t : keeps stays_authorized (alloc_dict t).
Proof. intros s H. split; [exact H|reflexivity]. Qed.

Ltac authorized_step :=
  first
    [ apply authorized_get_sheets_client
    | apply authorized_the_rows
    | apply authorized_datetime_now
    | apply authorized_alloc_list
    | apply authorized_alloc_dict
    | (apply authorized_remote; reflexivity)
    | (apply authorized_frame; intros ?; reflexivity)
    | keeps_step ].

Lemma authorized_collect todos rows : forall i,
  keeps stays_authorized (collect_todos todos i rows).
Proof.
  induction rows as [|row rows IH]; intros i; simpl.
  - apply keeps_ret. exact _.
  - destruct (skipped row); [apply IH|].
    unfold list_append. repeat first [apply IH | authorized_step].
Qed.

Lemma authorized_resolution : keeps stays_authorized get_or_create_spreadsheet.
Proof.
  unfold get_or_create_spreadsheet, check_header, open_by_key, worksheet,
    add_worksheet, append_row, row_values, update.
  repeat authorized_step.
Qed.

Lemma authorized_clear_cache : keeps stays_authorized clear_cache.
Proof. unfold clear_cache. repeat authorized_step. Qed.

Lemma authorized_filtered f : keeps stays_authorized (get_all_todos_filtered f).
Proof.
  unfold get_all_todos_filtered, comprehension, get_all_todos, fetch_todos,
    read_todos, list_copy, get_all_values, print.
  repeat first [apply authorized_resolution | apply authorized_collect
               | authorized_step].
Qed.

Section Requests.
Context {PS : PyStr}.

Lemma authorized_run c : keeps stays_authorized (run c).
Proof.
  destruct c; unfold run, add_todo, update_todo, delete_todo, complete_todo,
    update, delete_rows, append_row.
  all: repeat first [apply authorized_resolution | apply authorized_filtered
                    | apply authorized_clear_cache | authorized_step].
Qed.

Lemma authorized_serve calls : keeps stays_authorized (serve calls).
Proof.
  induction calls as [|c calls IH]; simpl.
  - apply keeps_ret. exact _.
  - apply keeps_bind; [exact _| |intros _; exact IH].
    apply keeps_attempt, authorized_run.
Qed.

(** X13: the client is authorized once per process: a process that holds a
    client still holds it after any sequence of repository calls, and has
    not authorized again, whatever failed on the way. *)
Theorem client_is_authorized_once calls s :
  _sheets_client s <> None ->
  _sheets_client (after (serve calls) s) <> None /\
  authorizations (after (serve calls) s) = authorizations s.
Proof. apply authorized_serve. Qed.

Lemma bind_Return_inv {A B} (m : M A) (k : A -> M B) s b s' :
  bind m k s = (Return b, s') ->
  exists a s1, m s = (Return a, s1) /\ k a s1 = (Return b, s').
Proof.
  unfold bind. destruct (m s) as [[a|e] s1]; [eauto|discriminate].
Qed.

Lemma cleared_after_clear_cache s r s' : clear_cache s = (r, s') -> cleared s'.
Proof. rewrite clear_cache_run. intros [= _ <-]. repeat split. Qed.

(** X14: a call that changes the store and returns has emptied every cache,
    whatever state it started in: the next read goes to the store. *)
Theorem successful_mutation_clears_caches c s :
  is_mutation c = true ->
  result (run c) s = Return tt ->
  cleared (after (run c) s) /\ cache_unusable (after (run c) s).
Proof.
  intros Hc Hres.
  assert (H : cleared (after (run c) s)).
  { unfold result, after in *. destruct (run c s) as [r s'] eqn:Hrun.
    simpl in *. subst r.
    destruct c; [discriminate| | | |];
      unfold run, add_todo, update_todo, delete_todo, complete_todo in Hrun.
    - apply bind_Return_inv in Hrun as (a & s1 & Hrun & [= <-]).
      repeat (apply bind_Return_inv in Hrun as (? & ? & _ & Hrun); cbv zeta in Hrun;
              lazymatch type of Hrun with
              | bind clear_cache _ _ = _ => fail
              | _ => idtac
              end).
      apply bind_Return_inv in Hrun as (? & ? & _ & Hrun).
      apply bind_Return_inv in Hrun as (? & ? & Hclear & [= _ <-]).
      eapply cleared_after_clear_cache, Hclear.
    - do 2 (apply bind_Return_inv in Hrun as (? & ? & _ & Hrun)).
      eapply cleared_after_clear_cache, Hrun.
    - do 2 (apply bind_Return_inv in Hrun as (? & ? & _ & Hrun)).
      eapply cleared_after_clear_cache, Hrun.
    - do 2 (apply bind_Return_inv in Hrun as (? & ? & _ & Hrun)).
      eapply cleared_after_clear_cache, Hrun. }
  split; [exact H|]. unfold cache_unusable.
  destruct H as (-> & _). exact I.
Qed.

End Requests.

Lemma client_is_authorized_once_witness :
  _sheets_client
    (after (@serve ascii_pystr session) (authorized_process (APIError "quota exceeded")))
    <> None /\
  authorizations
    (after (@serve ascii_pystr session) (authorized_process (APIError "quota exceeded")))
  = authorizations (authorized_process (APIError "quota exceeded")).
Proof.
  refine (@client_is_authorized_once ascii_pystr session
            (authorized_process (APIError "quota exceeded")) _).
  discriminate.
Defined.

Lemma successful_mutation_clears_caches_witness :
  cleared (after (@run ascii_pystr (CompleteTodo 2)) sample_process) /\
  cache_unusable (after (@run ascii_pystr (CompleteTodo 2)) sample_process).
Proof.
  refine (@successful_mutation_clears_caches ascii_pystr (CompleteTodo 2)
            sample_process _ _).
  - reflexivity.
  - vm_compute. reflexivity.
Defined.



Section NumericOrder.
Context {PS : PyStr}.



End NumericOrder.


(** ** The sort by priority, and stability *)

Lemma priority_key_le a b :
  priority_key_ltb (priority_key a) (priority_key b) = false <->
  priority_sort_order a b.
Proof.
  unfold priority_key_ltb, priority_key, priority_sort_order. simpl.
  generalize (t_due_date a) (t_due_date b) (priority_rank a) (priority_rank b).
  intros x y ra rb.
  rewrite orb_false_iff, andb_false_iff, Z.ltb_ge, Z.eqb_neq.
  destruct (string_trichotomy x y) as [Hlt | [Heq | Hgt]].
  - rewrite Hlt. split.
    + intros [H [H'|H']]; [|discriminate]. left. lia.
    + intros [H|[H [H'|H']]].
      * split; [lia|left; lia].
      * rewrite (string_ltb_asym _ _ Hlt) in H'. discriminate.
      * subst y. rewrite string_ltb_irrefl in Hlt. discriminate.
  - subst y. rewrite string_ltb_irrefl. split.
    + intros [H _]. destruct (Z.eq_dec ra rb); [right; auto|left; lia].
    + intros [H|[H _]]; (split; [lia|auto]).
  - rewrite (string_ltb_asym _ _ Hgt). split.
    + intros [H _]. destruct (Z.eq_dec ra rb); [right; auto|left; lia].
    + intros [H|[H _]]; (split; [lia|auto]).
Qed.

Lemma priority_key_ltb_asym x y :
  priority_key_ltb x y = true -> priority_key_ltb y x = false.
Proof.
  unfold priority_key_ltb. destruct x as [r1 s1], y as [r2 s2]. simpl.
  rewrite orb_true_iff, andb_true_iff, orb_false_iff, andb_false_iff.
  rewrite Z.eqb_eq, Z.ltb_lt, Z.ltb_ge, Z.eqb_neq.
  intros [H | [-> H]].
  - split; [lia|left; lia].
  - split; [lia|]. right. apply string_ltb_asym, H.
Qed.

Lemma priority_sort_order_trans a b c :
  priority_sort_order a b -> priority_sort_order b c -> priority_sort_order a c.
Proof.
  unfold priority_sort_order.
  intros [H1 | [E1 H1]] [H2 | [E2 H2]].
  - left. lia.
  - left. lia.
  - left. lia.
  - right. split; [lia|].
    destruct H1 as [H1|H1], H2 as [H2|H2].
    + left. eapply string_ltb_trans; eassumption.
    + left. rewrite <- H2. exact H1.
    + left. rewrite H1. exact H2.
    + right. congruence.
Qed.

Lemma StronglySorted_snoc {A} (R : A -> A -> Prop) l x :
  StronglySorted R l -> Forall (fun y => R y x) l -> StronglySorted R (l ++ [x]).
Proof.
  induction 1 as [|y l Hs IH Hy]; intros Hx; simpl.
  - repeat constructor.
  - inversion Hx as [|? ? Hyx Hlx]; subst.
    constructor; [apply IH, Hlx|].
    apply Forall_app. split; [exact Hy|]. repeat constructor. exact Hyx.
Qed.

Lemma StronglySorted_rev {A} (R : A -> A -> Prop) l :
  StronglySorted R l -> StronglySorted (fun a b => R b a) (rev l).
Proof.
  induction 1 as [|x l Hs IH Hx]; simpl; [constructor|].
  apply StronglySorted_snoc; [exact IH|].
  apply Forall_forall. intros y Hy.
  apply list_elem_of_In, in_rev in Hy.
  rewrite Forall_forall in Hx. apply Hx, list_elem_of_In, Hy.
Qed.

Lemma py_sort_priority_sorted (l : list todo) :
  py_sort priority_key_ltb priority_key true l ≡ₚ l /\
  StronglySorted priority_sort_order (py_sort priority_key_ltb priority_key true l).
Proof.
  unfold py_sort. split.
  - rewrite <- (Permutation_rev (sort_by_key _ _ _)), sort_by_key_perm.
    symmetry. apply Permutation_rev.
  - apply (@StronglySorted_weaken todo
             (fun a b => priority_key_ltb (priority_key a) (priority_key b) = false)).
    + intros a b H. apply priority_key_le. exact H.
    + apply (StronglySorted_rev
               (fun a b => priority_key_ltb (priority_key b) (priority_key a) = false)).
      apply sort_by_key_sorted.
      * apply priority_key_ltb_asym.
      * intros a b c H1 H2. apply priority_key_le.
        apply priority_key_le in H1, H2.
        eapply priority_sort_order_trans; eassumption.
Qed.

(** X16: the sort by priority, which sorts the list object in place, permutes
    the tasks and leaves them in the order of the key [(rank, due_date)]
    reversed: by rank descending (高, then 中 and every unknown priority,
    then 低), and within one rank by due date descending as text, tasks
    without due date last. *)
Theorem priority_sort_is_descending s l :
  let sorted := read_list (after (sort_todos "priority" l) s) l in
  sorted ≡ₚ read_list s l /\ StronglySorted priority_sort_order sorted.
Proof.
  cbv zeta. change (sort_todos "priority" l)
    with (list_sort priority_key_ltb priority_key true l).
  rewrite read_list_after_sort. apply py_sort_priority_sorted.
Qed.

(** *** Stability *)

Section Stable.
Context {A K : Type} `{EqDecision K} (ltb : K -> K -> bool) (key : A -> K).

Local Abbreviation le := (fun a b : A => ltb (key b) (key a) = false).
Local Abbreviation keyed k := (fun x : A => bool_decide (key x = k)).

Hypothesis ltb_asym : forall x y, ltb x y = true -> ltb y x = false.
Hypothesis le_trans : forall a b c, le a b -> le b c -> le a c.

Lemma insert_by_key_keyed k x l :
  StronglySorted le l ->
  List.filter (keyed k) (insert_by_key ltb key x l) = List.filter (keyed k) (l ++ [x]).
Proof.
  induction 1 as [|y l Hs IH Hy]; [reflexivity|].
  simpl insert_by_key. destruct (ltb (key x) (key y)) eqn:Hxy.
  - rewrite List.filter_app.
    assert (Hnone : bool_decide (key x = k) = true ->
                    List.filter (keyed k) (y :: l) = []).
    { intros Hk. apply bool_decide_eq_true in Hk.
      apply filter_none. constructor.
      - apply bool_decide_eq_false. intros Hy'.
        rewrite Hk, Hy' in Hxy. pose proof (ltb_asym _ _ Hxy). congruence.
      - eapply Forall_impl; [exact Hy|]. intros z Hz.
        apply bool_decide_eq_false. intros Hz'.
        simpl in Hz. rewrite Hz', <- Hk in Hz. congruence. }
    revert Hnone. generalize (y :: l). intros rest Hnone.
    change (List.filter (keyed k) (x :: rest))
      with (if bool_decide (key x = k) then x :: List.filter (keyed k) rest
            else List.filter (keyed k) rest).
    change (List.filter (keyed k) [x])
      with (if bool_decide (key x = k) then [x] else []).
    destruct (bool_decide (key x = k)).
    + rewrite Hnone by reflexivity. reflexivity.
    + rewrite app_nil_r. reflexivity.
  - simpl. rewrite IH. reflexivity.
Qed.

Lemma fold_insert_keyed k l : forall acc,
  StronglySorted le acc ->
  List.filter (keyed k)
    (fold_left (fun sorted x => insert_by_key ltb key x sorted) l acc) =
  List.filter (keyed k) (acc ++ l).
Proof.
  induction l as [|x l IH]; intros acc Hacc; simpl.
  - rewrite app_nil_r. reflexivity.
  - rewrite IH by (apply insert_by_key_sorted; assumption).
    rewrite !List.filter_app, insert_by_key_keyed by exact Hacc.
    rewrite List.filter_app, <- app_assoc.
    change (x :: l) with ([x] ++ l). rewrite List.filter_app. reflexivity.
Qed.

Lemma py_sort_keyed k reverse l :
  List.filter (keyed k) (py_sort ltb key reverse l) = List.filter (keyed k) l.
Proof.
  assert (Hsort : forall l', List.filter (keyed k) (sort_by_key ltb key l') =
                             List.filter (keyed k) l').
  { intros l'. apply (fold_insert_keyed k l' []). constructor. }
  unfold py_sort. destruct reverse; [|apply Hsort].
  rewrite filter_rev_comm, Hsort, filter_rev_comm, rev_involutive. reflexivity.
Qed.

End Stable.

Lemma filter_filter_implied {A} (p q : A -> bool) (l : list A) :
  (forall x, p x = true -> q x = true) ->
  List.filter p (List.filter q l) = List.filter p l.
Proof.
  intros Hpq. induction l as [|x l IH]; [reflexivity|]. simpl.
  destruct (q x) eqn:Hq; simpl; rewrite IH; [reflexivity|].
  destruct (p x) eqn:Hp; [|reflexivity].
  rewrite (Hpq x Hp) in Hq. discriminate.
Qed.

Lemma tied_priority_key rank due t :
  tied rank due t = true -> priority_key t = (rank, due).
Proof.
  unfold tied, priority_key. rewrite andb_true_iff, Z.eqb_eq, String.eqb_eq.
  intros [-> ->]. reflexivity.
Qed.

Lemma tied_due_date_key rank due t :
  tied rank due t = true ->
  due_date_key t = (if (due =? "")%string then "9999-12-31" else due, rank).
Proof.
  unfold tied, due_date_key, due_date_or_sentinel.
  rewrite andb_true_iff, Z.eqb_eq, String.eqb_eq.
  intros [-> ->]. reflexivity.
Qed.

Lemma py_sort_tied {K} `{EqDecision K} (ltb : K -> K -> bool) (key : todo -> K)
    rank due k reverse l :
  (forall x y, ltb x y = true -> ltb y x = false) ->
  (forall a b c : todo, ltb (key b) (key a) = false -> ltb (key c) (key b) = false ->
                        ltb (key c) (key a) = false) ->
  (forall t, tied rank due t = true -> key t = k) ->
  List.filter (tied rank due) (py_sort ltb key reverse l) =
  List.filter (tied rank due) l.
Proof.
  intros Hasym Htrans Hkey.
  rewrite <- (filter_filter_implied (tied rank due)
                (fun t => bool_decide (key t = k)) (py_sort ltb key reverse l)).
  - rewrite (py_sort_keyed ltb key Hasym Htrans).
    apply filter_filter_implied.
    intros t Ht. apply bool_decide_eq_true, Hkey, Ht.
  - intros t Ht. apply bool_decide_eq_true, Hkey, Ht.
Qed.

(** X17: both sorts are stable: the tasks that have the same priority rank and
    the same due date stay in the order they had, whatever the value of
    [sort_by]. *)
Theorem sort_keeps_ties_in_order s l sort_by rank due :
  let sorted := read_list (after (sort_todos sort_by l) s) l in
  List.filter (tied rank due) sorted = List.filter (tied rank due) (read_list s l).
Proof.
  cbv zeta. unfold sort_todos.
  destruct (sort_by =? "priority")%string; [|destruct (sort_by =? "due_date")%string].
  - rewrite read_list_after_sort.
    apply (py_sort_tied priority_key_ltb priority_key rank due (rank, due)).
    + apply priority_key_ltb_asym.
    + intros a b c H1 H2. apply priority_key_le.
      apply priority_key_le in H1, H2.
      eapply priority_sort_order_trans; eassumption.
    + apply tied_priority_key.
  - rewrite read_list_after_sort.
    apply (py_sort_tied due_date_key_ltb due_date_key rank due
             (if (due =? "")%string then "9999-12-31" else due, rank)).
    + apply due_date_key_ltb_asym.
    + intros a b c H1 H2. apply due_date_key_le.
      apply due_date_key_le in H1, H2.
      eapply due_date_order_trans; eassumption.
    + apply tied_due_date_key.
  - reflexivity.
Qed.

(** ** [index] *)

(** A step of [index] that may put the tasks it keeps of the list [l] into
    a new list object. *)
Lemma optional_comprehension (c : bool) keep l s :
  exists l' s',
    (if c then comprehension keep l else ret l) s = (Return l', s') /\
    read_list s' l' = List.filter (fun t => negb c || keep t) (read_list s l) /\
    clock s' = clock s /\ ticks s' = ticks s.
Proof.
  destruct c; simpl.
  - do 2 eexists. split; [reflexivity|]. split; [|split; reflexivity].
    apply read_list_comprehension.
  - do 2 eexists. split; [reflexivity|]. split; [|split; reflexivity].
    symmetry. apply filter_all.
Qed.

Lemma arranged_after_sort sort_by l s :
  read_list (after (sort_todos sort_by l) s) l = arranged sort_by (read_list s l).
Proof.
  unfold sort_todos, arranged.
  destruct (sort_by =? "priority"); [apply read_list_after_sort|].
  destruct (sort_by =? "due_date"); [apply read_list_after_sort|reflexivity].
Qed.

Lemma filter_filter_and {A} (p q : A -> bool) (l : list A) :
  List.filter q (List.filter p l) = List.filter (fun x => p x && q x) l.
Proof.
  induction l as [|x l IH]; [reflexivity|]. simpl.
  destruct (p x); simpl; [destruct (q x)|]; rewrite IH; reflexivity.
Qed.

Lemma filter_ext_bool {A} (p q : A -> bool) (l : list A) :
  (forall x, p x = q x) -> List.filter p l = List.filter q l.
Proof. intros H. induction l as [|x l IH]; simpl; [|rewrite H, IH]; reflexivity. Qed.

Section IndexProperties.
Context {CAL : Calendar}.

(** What [index] shows, from what the read gave it. *)
Lemma index_listing status_filter priority_filter due_date_filter sort_by s l s1 :
  get_all_todos_filtered (status_argument status_filter) s = (Return l, s1) ->
  listing (index_todos status_filter priority_filter due_date_filter sort_by) s =
    Return (arranged sort_by
              (List.filter
                 (passes priority_filter due_date_filter
                    (date_text (clock s1 (ticks s1)) 0)
                    (date_text (clock s1 (ticks s1)) 7)
                    (date_text (clock s1 (ticks s1)) 30))
                 (read_list s1 l))).
Proof.
  intros Hread. unfold index_todos.
  assert (Hfirst :
    (if status_filter =? "完了" then get_all_todos_filtered (Some "完了")
     else if status_filter =? "すべて" then get_all_todos_filtered (Some "all")
     else get_all_todos_filtered None) s = (Return l, s1)).
  { unfold status_argument in Hread.
    destruct (status_filter =? "完了"); [exact Hread|].
    destruct (status_filter =? "すべて"); exact Hread. }
  unfold listing. rewrite (bind_Return _ _ _ _ _ Hfirst).
  destruct (optional_comprehension (negb (priority_filter =? "すべて"))
              (fun todo => t_priority todo =? priority_filter) l s1)
    as (l2 & s2 & Hrun2 & Hread2 & Hclock2 & Hticks2).
  rewrite (bind_Return _ _ _ _ _ Hrun2).
  unfold bind at 1, datetime_now. cbv zeta.
  rewrite Hclock2, Hticks2.
  set (today := date_text (clock s1 (ticks s1)) 0).
  set (week := date_text (clock s1 (ticks s1)) 7).
  set (month := date_text (clock s1 (ticks s1)) 30).
  set (s3 := set_ticks (S (ticks s1)) s2).
  assert (Hread3 : read_list s3 l2 = read_list s2 l2) by reflexivity.
  assert (Hdue : exists l4 s4,
    (if due_date_filter =? "今日" then
       comprehension (fun todo => t_due_date todo =? today) l2
     else if due_date_filter =? "今週" then
       comprehension
         (fun todo => truthy (t_due_date todo)
                      && String.leb today (t_due_date todo)
                      && String.leb (t_due_date todo) week) l2
     else if due_date_filter =? "今月" then
       comprehension
         (fun todo => truthy (t_due_date todo)
                      && String.leb today (t_due_date todo)
                      && String.leb (t_due_date todo) month) l2
     else if due_date_filter =? "期限切れ" then
       comprehension
         (fun todo => truthy (t_due_date todo)
                      && String.ltb (t_due_date todo) today) l2
     else if due_date_filter =? "期日未設定" then
       comprehension (fun todo => negb (truthy (t_due_date todo))) l2
     else ret l2) s3 = (Return l4, s4) /\
    read_list s4 l4 =
      List.filter (passes "すべて" due_date_filter today week month) (read_list s3 l2)).
  { unfold passes. simpl orb. simpl andb.
    destruct (due_date_filter =? "今日");
      [do 2 eexists; split; [reflexivity|apply read_list_comprehension]|].
    destruct (due_date_filter =? "今週");
      [do 2 eexists; split; [reflexivity|apply read_list_comprehension]|].
    destruct (due_date_filter =? "今月");
      [do 2 eexists; split; [reflexivity|apply read_list_comprehension]|].
    destruct (due_date_filter =? "期限切れ");
      [do 2 eexists; split; [reflexivity|apply read_list_comprehension]|].
    destruct (due_date_filter =? "期日未設定");
      [do 2 eexists; split; [reflexivity|apply read_list_comprehension]|].
    do 2 eexists. split; [reflexivity|]. symmetry. apply filter_all. }
  destruct Hdue as (l4 & s4 & Hrun4 & Hread4).
  rewrite (bind_Return _ _ _ _ _ Hrun4).
  unfold bind.
  pose proof (arranged_after_sort sort_by l4 s4) as Hsort.
  unfold after in Hsort.
  destruct (sort_todos sort_by l4 s4) as [[[]|e] s5] eqn:Hs5.
  - unfold ret. simpl in Hsort. rewrite Hsort, Hread4, Hread3, Hread2.
    rewrite filter_filter_and. f_equal. f_equal.
    apply filter_ext_bool. intros t. unfold passes.
    rewrite negb_involutive. reflexivity.
  - exfalso. unfold sort_todos, list_sort, modify, ret in Hs5.
    destruct (sort_by =? "priority"); [discriminate|].
    destruct (sort_by =? "due_date"); discriminate.
Qed.

End IndexProperties.

Lemma string_leb_refl a : String.leb a a = true.
Proof.
  destruct (String.leb a a) eqn:H; [reflexivity|].
  apply string_ltb_leb in H. rewrite string_ltb_irrefl in H. discriminate.
Qed.

Lemma string_leb_trans a b c :
  String.leb a b = true -> String.leb b c = true -> String.leb a c = true.
Proof.
  intros Hab Hbc. destruct (String.leb a c) eqn:Hac; [reflexivity|].
  apply string_ltb_leb in Hac.
  assert (Hba : String.ltb b a = false).
  { destruct (String.ltb b a) eqn:H; [|reflexivity].
    apply string_ltb_leb in H. congruence. }
  assert (Hcb : String.ltb c b = false).
  { destruct (String.ltb c b) eqn:H; [|reflexivity].
    apply string_ltb_leb in H. congruence. }
  destruct (string_trichotomy b c) as [H | [H | H]].
  - rewrite (string_ltb_trans _ _ _ H Hac) in Hba. discriminate.
  - subst c. congruence.
  - congruence.
Qed.

Lemma arranged_perm sort_by l : arranged sort_by l ≡ₚ l.
Proof.
  unfold arranged, py_sort.
  destruct (sort_by =? "priority").
  - rewrite <- (Permutation_rev (sort_by_key _ _ _)), sort_by_key_perm.
    symmetry. apply Permutation_rev.
  - destruct (sort_by =? "due_date"); [apply sort_by_key_perm|reflexivity].
Qed.

Lemma elem_of_arranged_filter sort_by p (l : list todo) t :
  t ∈ arranged sort_by (List.filter p l) <-> t ∈ l /\ p t = true.
Proof. rewrite arranged_perm. apply elem_of_filter_bool. Qed.

Section IndexTheorems.
Context {CAL : Calendar}.

Lemma index_listing_cases status_filter priority_filter due_date_filter sort_by s :
  listing (index_todos status_filter priority_filter due_date_filter sort_by) s =
    match get_all_todos_filtered (status_argument status_filter) s with
    | (Return l, s1) =>
        Return (arranged sort_by
                  (List.filter
                     (passes priority_filter due_date_filter
                        (date_text (clock s1 (ticks s1)) 0)
                        (date_text (clock s1 (ticks s1)) 7)
                        (date_text (clock s1 (ticks s1)) 30))
                     (read_list s1 l)))
    | (Raise e, _) => Raise e
    end.
Proof.
  destruct (get_all_todos_filtered (status_argument status_filter) s)
    as [[l|e] s1] eqn:Hread.
  - apply index_listing, Hread.
  - unfold listing, index_todos.
    erewrite bind_Raise; [reflexivity|].
    unfold status_argument in Hread.
    destruct (status_filter =? "完了"); [exact Hread|].
    destruct (status_filter =? "すべて"); exact Hread.
Qed.

(** X18: [index] shows the tasks of the status filter that pass the priority
    filter and the due-date filter, the dates being those of the reading of
    the clock taken after the read, in the order of the sort; it raises
    exactly when the read raises, with the same exception.  The list
    object that is sorted in place is the one read through at the end. *)
Theorem index_filters_then_sorts status_filter priority_filter due_date_filter
    sort_by s :
  listing (index_todos status_filter priority_filter due_date_filter sort_by) s =
    match get_all_todos_filtered (status_argument status_filter) s with
    | (Return l, s1) =>
        Return (arranged sort_by
                  (List.filter
                     (passes priority_filter due_date_filter
                        (date_text (clock s1 (ticks s1)) 0)
                        (date_text (clock s1 (ticks s1)) 7)
                        (date_text (clock s1 (ticks s1)) 30))
                     (read_list s1 l)))
    | (Raise e, _) => Raise e
    end.
Proof. apply index_listing_cases. Qed.

(** X19: the spans of the due-date filter nest: with the same other
    parameters, a task shown for 今日 is shown for 今週, and a task shown for
    今週 is shown for 今月. *)
Theorem due_date_spans_nest status_filter priority_filter sort_by s
    today this_week this_month :
  ascending_dates ->
  listing (index_todos status_filter priority_filter "今日" sort_by) s = Return today ->
  listing (index_todos status_filter priority_filter "今週" sort_by) s
    = Return this_week ->
  listing (index_todos status_filter priority_filter "今月" sort_by) s
    = Return this_month ->
  today ⊆ this_week /\ this_week ⊆ this_month.
Proof.
  intros Hdates H1 H2 H3.
  rewrite index_listing_cases in H1, H2, H3.
  destruct (get_all_todos_filtered (status_argument status_filter) s)
    as [[l|e] s1]; [|discriminate].
  injection H1 as <-. injection H2 as <-. injection H3 as <-.
  destruct (Hdates (clock s1 (ticks s1))) as (Hne & Hweek & Hmonth).
  revert Hne Hweek Hmonth.
  generalize (date_text (clock s1 (ticks s1)) 0) (date_text (clock s1 (ticks s1)) 7)
    (date_text (clock s1 (ticks s1)) 30).
  intros d0 d7 d30 Hne Hweek Hmonth.
  split; intros t; rewrite !elem_of_arranged_filter; intros [Hin Hp];
    (split; [exact Hin|]); revert Hp; unfold passes;
    change ("今日" =? "今日") with true; change ("今週" =? "今日") with false;
    change ("今週" =? "今週") with true; change ("今月" =? "今日") with false;
    change ("今月" =? "今週") with false; change ("今月" =? "今月") with true;
    cbv iota; rewrite !andb_true_iff.
  - intros [Hpr Hd]. apply String.eqb_eq in Hd. rewrite Hd.
    split; [exact Hpr|]. split; [split|].
    + unfold truthy. apply negb_true_iff, String.eqb_neq, Hne.
    + apply string_leb_refl.
    + exact Hweek.
  - intros [Hpr [[Ht Hlo] Hhi]]. split; [exact Hpr|]. split; [split|]; auto.
    eapply string_leb_trans; eassumption.
Qed.

(** X20: a task without due date is shown for 期日未設定 and for no filter
    that names a span of days; a task with a due date is not shown for
    期日未設定. *)
Theorem undated_tasks_have_their_own_filter status_filter priority_filter
    due_date_filter sort_by s shown t :
  ascending_dates ->
  listing (index_todos status_filter priority_filter due_date_filter sort_by) s
    = Return shown ->
  t ∈ shown ->
  (due_date_filter ∈ dated_filters -> t_due_date t <> "") /\
  (due_date_filter = "期日未設定" -> t_due_date t = "").
Proof.
  intros Hdates Hshown Ht.
  rewrite index_listing_cases in Hshown.
  destruct (get_all_todos_filtered (status_argument status_filter) s)
    as [[l|e] s1]; [|discriminate].
  injection Hshown as <-.
  apply elem_of_arranged_filter in Ht as [_ Hp].
  destruct (Hdates (clock s1 (ticks s1))) as (Hne & _).
  revert Hne Hp.
  generalize (date_text (clock s1 (ticks s1)) 0) (date_text (clock s1 (ticks s1)) 7)
    (date_text (clock s1 (ticks s1)) 30).
  intros d0 d7 d30 Hne Hp.
  unfold passes in Hp. apply andb_true_iff in Hp as [_ Hp].
  split.
  - intros Hf. unfold dated_filters in Hf.
    repeat (apply elem_of_cons in Hf as [-> | Hf]); [| | | |inversion Hf];
      cbn -[String.leb String.ltb truthy] in Hp.
    + apply String.eqb_eq in Hp. congruence.
    + rewrite !andb_true_iff in Hp. destruct Hp as [[Hp _] _].
      apply negb_true_iff, String.eqb_neq in Hp. exact Hp.
    + rewrite !andb_true_iff in Hp. destruct Hp as [[Hp _] _].
      apply negb_true_iff, String.eqb_neq in Hp. exact Hp.
    + rewrite !andb_true_iff in Hp. destruct Hp as [Hp _].
      apply negb_true_iff, String.eqb_neq in Hp. exact Hp.
  - intros ->. cbn -[String.leb String.ltb truthy] in Hp.
    unfold truthy in Hp. rewrite negb_involutive in Hp.
    apply String.eqb_eq, Hp.
Qed.

End IndexTheorems.

Lemma due_date_spans_nest_witness :
  [pay_rent] ⊆ [pay_rent; book_flight] /\
  [pay_rent; book_flight] ⊆ [pay_rent; book_flight; renew_passport].
Proof.
  refine (@due_date_spans_nest january_10 "すべて" "すべて" "due_date" dated_process
            [pay_rent] [pay_rent; book_flight]
            [pay_rent; book_flight; renew_passport] _ _ _ _).
  - intros now. split; [discriminate|]. split; reflexivity.
  - vm_compute. reflexivity.
  - vm_compute. reflexivity.
  - vm_compute. reflexivity.
Defined.

Lemma undated_tasks_have_their_own_filter_witness :
  ("期日未設定" ∈ dated_filters -> t_due_date learn_chess <> "") /\
  ("期日未設定" = "期日未設定" -> t_due_date learn_chess = "").
Proof.
  refine (@undated_tasks_have_their_own_filter january_10 "未完了" "すべて"
            "期日未設定" "priority" dated_process [learn_chess] learn_chess _ _ _).
  - intros now. split; [discriminate|]. split; reflexivity.
  - vm_compute. reflexivity.
  - apply list_elem_of_here.
Defined.

(** ** [edit], and the row numbers that are not checked *)

Lemma find_none_fmap {A B} (f : A -> B) (p : B -> bool) (l : list A) :
  List.find (fun a => p (f a)) l = None <->
  Forall (fun b => p b = false) (f <$> l).
Proof.
  induction l as [|a l IH]; csimpl.
  - split; [constructor|reflexivity].
  - destruct (p (f a)) eqn:Hp.
    + split; [discriminate|]. intros H. inversion H; congruence.
    + rewrite IH. split; [intros H; constructor; assumption|].
      intros H. inversion H; assumption.
Qed.

(** X21: [edit] does not write to a row from which no task is read, be it
    the header row, an empty row or a row past the end: it flashes that the
    task was not found and redirects to the index, and has done nothing but
    the read.  When the read raises, [edit] raises: the read is outside its
    [try] statement. *)
Theorem edit_of_missing_row_only_reads row post s r s1 :
  get_all_todos_filtered (Some "all") s = (r, s1) ->
  (forall l, r = Return l -> Forall (fun t => t_row t <> row) (read_list s1 l)) ->
  edit row post s =
    (match r with
     | Return _ => Return ([TodoNotFound], Redirect "index")
     | Raise e => Raise e
     end, s1).
Proof.
  intros Hread Hrows. destruct r as [l|e].
  - unfold edit.
    rewrite (bind_Return _ _ _ _ _ Hread). unfold find_by_row. rewrite bind_gets.
    replace (List.find _ _) with (@None ref); [reflexivity|].
    symmetry. apply (find_none_fmap (dict_at s1) (fun t => (t_row t =? row)%nat)).
    eapply Forall_impl; [exact (Hrows l eq_refl)|].
    intros t Ht. apply Nat.eqb_neq, Ht.
  - unfold edit. apply bind_Raise, Hread.
Qed.

Lemma edit_of_missing_row_only_reads_witness :
  edit 3 (Some (mk_form "Report" "" "" "高")) sample_process =
    (match fst (get_all_todos_filtered (Some "all") sample_process) with
     | Return _ => Return ([TodoNotFound], Redirect "index")
     | Raise e => Raise e
     end, snd (get_all_todos_filtered (Some "all") sample_process)).
Proof.
  refine (edit_of_missing_row_only_reads 3 (Some (mk_form "Report" "" "" "高"))
            sample_process
            (fst (get_all_todos_filtered (Some "all") sample_process))
            (snd (get_all_todos_filtered (Some "all") sample_process)) _ _).
  - apply surjective_pairing.
  - intros l Hl. vm_compute in Hl. injection Hl as <-.
    vm_compute. repeat constructor; discriminate.
Defined.

Lemma find_first_with_row (s : state) row : forall (items : list ref),
  NoDup (t_row <$> (dict_at s <$> items)) ->
  forall d, d ∈ items -> t_row (dict_at s d) = row ->
  List.find (fun d => (t_row (dict_at s d) =? row)%nat) items = Some d.
Proof.
  induction items as [|x items IH]; intros Hnd d Hd Hrow.
  - inversion Hd.
  - csimpl in Hnd. apply NoDup_cons in Hnd as [Hx Hnd]. simpl.
    apply elem_of_cons in Hd as [->|Hd].
    + rewrite Hrow, Nat.eqb_refl. reflexivity.
    + destruct (Nat.eqb_spec (t_row (dict_at s x)) row) as [Heq|Hne].
      * exfalso. apply Hx. rewrite Heq, <- Hrow.
        apply list_elem_of_fmap_2, list_elem_of_fmap_2, Hd.
      * apply IH; assumption.
Qed.

Lemma parse_rows_rows rows : forall i,
  exists js, t_row <$> parse_rows i rows = js /\
             StronglySorted lt js /\ Forall (fun j => i <= j) js.
Proof.
  induction rows as [|row rows IH]; intros i; simpl.
  - exists []. repeat constructor.
  - destruct (IH (S i)) as (js & Hjs & Hs & Hge).
    assert (Hge' : Forall (fun j => i <= j) js).
    { eapply Forall_impl; [exact Hge|]. simpl. intros; lia. }
    destruct (skipped row).
    + exists js. auto.
    + exists (i :: js). csimpl. rewrite Hjs. split; [reflexivity|].
      split; [|constructor; [lia|exact Hge']].
      constructor; [exact Hs|].
      eapply Forall_impl; [exact Hge|]. simpl. intros; lia.
Qed.

Lemma parse_rows_NoDup rows i : NoDup (t_row <$> parse_rows i rows).
Proof.
  destruct (parse_rows_rows rows i) as (js & -> & Hs & _).
  induction Hs as [|j js Hs IH Hj]; constructor; [|exact IH].
  intros Hin. rewrite Forall_forall in Hj. specialize (Hj j Hin). lia.
Qed.

Lemma parse_rows_edited k title content due priority data :
  parse_rows 2 (write_row (S k) 1 [title; content; due; priority] data) =
  (fun t => if (t_row t =? S (S k))%nat
            then edited title content due priority t else t) <$> parse_rows 2 data.
Proof.
  apply Forall2_fmap_eq. eapply Forall2_impl.
  - apply (parse_rows_write_row (fun x y => y = edited title content due priority x)).
    + intros r. apply skipped_write_cells. lia.
    + intros i r Hs. apply todo_of_row_edited, Hs.
  - intros x y. simpl. destruct (t_row x =? S (S k))%nat; auto.
Qed.

(** X22: a POST request to [edit] for the row of a listed task, with a title
    that is not empty, flashes the success message, redirects to the index
    and has changed the four fields of that task and nothing else, as the
    next listing shows. *)
Theorem edit_updates_the_task s row f old t :
  cold s -> fault_free s -> configured s ->
  listing get_all_todos s = Return old ->
  t ∈ old -> t_row t = row -> f_title f <> "" ->
  result (edit row (Some f)) s = Return ([TodoUpdated], Redirect "index") /\
  listing get_all_todos (after (edit row (Some f)) s) =
    Return ((fun x => if (t_row x =? row)%nat
                      then edited (f_title f) (f_content f) (f_due_date f)
                             (f_priority f) x
                      else x) <$> old).
Proof.
  intros Hcold Hf Hk Hold Ht Hrow Htitle.
  rewrite (listing_all_fresh s Hcold Hf Hk) in Hold. injection Hold as <-.
  destruct Hk as (key & Hkey & Hne).
  destruct (get_all_todos_fresh s key Hcold Hf Hkey Hne) as [tr Hrun].
  cbv zeta in Hrun. rewrite <- filtered_all in Hrun.
  match type of Hrun with _ = (_, ?st) => set (s1 := st) in * end.
  assert (Hread : read_list s1 (length (heap_lists s)) = parse_rows 2 (tl (rows_of s)))
    by (eapply read_list_last; reflexivity).
  assert (Hrow2 : 2 <= row).
  { pose proof (parse_rows_from (tl (rows_of s)) 2) as Hfrom.
    rewrite Forall_forall in Hfrom. rewrite <- Hrow. apply Hfrom, Ht. }
  assert (Hfind : exists d,
            List.find (fun d => (t_row (dict_at s1 d) =? row)%nat)
              (list_items s1 (length (heap_lists s))) = Some d).
  { rewrite <- Hread in Ht. unfold read_list in Ht.
    apply list_elem_of_fmap in Ht as (d & Hd & Hin).
    exists d. apply find_first_with_row.
    - change (dict_at s1 <$> list_items s1 (length (heap_lists s)))
        with (read_list s1 (length (heap_lists s))).
      rewrite Hread. apply parse_rows_NoDup.
    - exact Hin.
    - rewrite <- Hd. exact Hrow. }
  destruct Hfind as [d Hfind].
  apply String.eqb_neq in Htitle.
  assert (Hupd : exists s2,
    update_todo row (f_title f) (f_content f) (f_due_date f) (f_priority f) s1
      = (Return tt, s2) /\
    cold s2 /\ fault_free s2 /\ configured s2 /\
    rows_of s2 =
      write_row row 1 [f_title f; f_content f; f_due_date f; f_priority f]
        (repaired_header (header_of s) :: tl (rows_of s))).
  { unfold update_todo.
    rewrite (bind_Return _ _ _ _ _
      (resolve_cached s1 (SpreadsheetHandle key) (WorksheetHandle "Todos")
         eq_refl eq_refl)).
    erewrite bind_Return; cycle 1.
    { apply update_ok; [exact Hf|reflexivity]. }
    rewrite clear_cache_run. eexists. split; [reflexivity|].
    split; [split; reflexivity|]. split; [exact Hf|].
    split; [exists key; split; assumption|reflexivity]. }
  destruct Hupd as (s2 & Hupd & Hc2 & Hf2 & Hk2 & Hrows2).
  assert (Hedit : edit row (Some f) s = (Return ([TodoUpdated], Redirect "index"), s2)).
  { unfold edit. rewrite (bind_Return _ _ _ _ _ Hrun).
    unfold find_by_row. rewrite bind_gets, Hfind, Htitle.
    apply try_Return. rewrite (bind_Return _ _ _ _ _ Hupd). reflexivity. }
  unfold result, after. rewrite Hedit. cbn [fst snd]. split; [reflexivity|].
  rewrite (listing_all_fresh s2 Hc2 Hf2 Hk2), Hrows2. f_equal.
  destruct row as [|[|k]]; [lia|lia|].
  rewrite write_row_later. cbn [tl]. apply parse_rows_edited.
Qed.

Lemma edit_updates_the_task_witness :
  result (edit 5 (Some (mk_form "Report" "for Monday" "2025-02-01" "高")))
    sample_process = Return ([TodoUpdated], Redirect "index") /\
  listing get_all_todos
    (after (edit 5 (Some (mk_form "Report" "for Monday" "2025-02-01" "高")))
       sample_process) =
    Return ((fun x => if (t_row x =? 5)%nat
                      then edited "Report" "for Monday" "2025-02-01" "高" x
                      else x) <$> [task_abc; task_12]).
Proof.
  refine (edit_updates_the_task sample_process 5
            (mk_form "Report" "for Monday" "2025-02-01" "高")
            [task_abc; task_12] task_12 _ _ _ _ _ _ _).
  - split; reflexivity.
  - intros n. reflexivity.
  - exists "sheet-1". split; [reflexivity|discriminate].
  - vm_compute. reflexivity.
  - apply list_elem_of_further, list_elem_of_here.
  - reflexivity.
  - discriminate.
Defined.

(** X23: the row number is not checked by [delete_todo]: for row 1 it deletes
    the header row.  The next resolution then takes the first data row for
    the header row, and writes the header over it unless it has seven cells
    or more and starts with ID: a task read from row 2 is lost, and the
    other tasks are read from one row higher. *)
Theorem delete_of_header_row_loses_first_data_row s old :
  cold s -> fault_free s -> configured s ->
  listing get_all_todos s = Return old ->
  result (delete_todo 1) s = Return tt /\
  listing get_all_todos (after (delete_todo 1) s) =
    Return (moved_up <$> List.filter (fun t => (2 <? t_row t)%nat) old).
Proof.
  intros Hcold Hf Hk Hold.
  rewrite (listing_all_fresh s Hcold Hf Hk) in Hold. injection Hold as <-.
  destruct Hk as (key & Hkey & Hne).
  destruct (delete_then_clear s key 1 Hcold Hf Hkey Hne) as [tr Hrun].
  unfold result, after. rewrite Hrun. cbn [fst snd].
  split; [reflexivity|].
  rewrite listing_all_fresh.
  - f_equal. unfold rows_of at 1. cbn [sheet default from_option id].
    simpl pred. simpl take. simpl drop. simpl app. rewrite ?drop_0.
    generalize (tl (rows_of s)). intros data.
    replace (tl data) with (take 0 data ++ drop 1 data)
      by (destruct data; simpl; rewrite ?drop_0; reflexivity).
    rewrite (parse_rows_delete 0 data 2). simpl Nat.add.
    rewrite filter_none; [reflexivity|].
    eapply Forall_impl; [apply parse_rows_from|].
    simpl. intros t Ht. apply Nat.ltb_ge. exact Ht.
  - split; reflexivity.
  - exact Hf.
  - exists key. split; assumption.
Qed.

Lemma delete_of_header_row_loses_first_data_row_witness :
  result (delete_todo 1) sample_process = Return tt /\
  listing get_all_todos (after (delete_todo 1) sample_process) =
    Return (moved_up <$> List.filter (fun t => (2 <? t_row t)%nat) [task_abc; task_12]).
Proof.
  refine (delete_of_header_row_loses_first_data_row sample_process
            [task_abc; task_12] _ _ _ _).
  - split; reflexivity.
  - intros n. reflexivity.
  - exists "sheet-1". split; [reflexivity|discriminate].
  - vm_compute. reflexivity.
Defined.

(** ** Copies of the cached list; calls without identifier *)

(** X24: the copy that a read from the cache returns protects the cached list
    against changes of the list itself: when the caller empties the list it
    was given, the next read from the cache still shows every task. *)
Theorem copy_protects_the_cached_list s l t :
  warm l t s ->
  result clear_copy_then_read_again s = Return (read_list s l).
Proof.
  intros (Hc & Ht & Hl & Hw1 & Hw2).
  unfold result, clear_copy_then_read_again.
  rewrite (bind_Return _ _ _ _ _ (get_all_todos_cached s l t Hc Ht Hw1)).
  unfold list_clear. rewrite bind_modify.
  set (s1 := set_heap_lists _ _).
  assert (Hitems : list_items s1 l = list_items s l).
  { unfold s1, list_items. cbn [heap_lists set_heap_lists tick set_ticks].
    rewrite list_lookup_total_insert_ne by lia.
    rewrite lookup_total_app_l by exact Hl. reflexivity. }
  erewrite bind_Return; cycle 1.
  { apply (get_all_todos_cached s1 l t); [exact Hc|exact Ht|exact Hw2]. }
  unfold gets. cbn [fst]. f_equal.
  rewrite read_list_copy. unfold read_list. rewrite Hitems. reflexivity.
Qed.

Lemma copy_protects_the_cached_list_witness :
  result clear_copy_then_read_again (after get_all_todos sample_process) =
    Return (read_list (after get_all_todos sample_process) 0).
Proof.
  refine (copy_protects_the_cached_list (after get_all_todos sample_process) 0
            (one_second_clock 0) _).
  repeat split; vm_compute; first [reflexivity | lia].
Defined.

Section Unconfigured.
Context {PS : PyStr}.

(** X25: without a store identifier every repository call of a process with
    cold caches raises the configuration error, the listings included (the
    resolution is outside the [try] statement of [get_all_todos]), and no
    call writes to the store. *)
Theorem calls_without_identifier_raise c s :
  cold s -> fault_free s -> ~ configured s ->
  result (run c) s =
    Raise (Exception_
             (if env_file_exists s then SpreadsheetIdNotSet else EnvFileMissing)) /\
  sheet (after (run c) s) = sheet s /\
  writes (after (run c) s) = writes s.
Proof.
  intros [Hw Hc] Hf Hno.
  assert (Hres : forall s0, s0 = s \/ s0 = tick s ->
    get_or_create_spreadsheet s0 =
      (Raise (Exception_
                (if env_file_exists s then SpreadsheetIdNotSet else EnvFileMissing)),
       set_sheets_client (Some ClientHandle)
         (set_trace (trace s0 ++ authorization s0) s0))).
  { intros s0 [-> | ->].
    - apply resolve_unconfigured; [exact Hf|right; exact Hw|exact Hno].
    - apply (resolve_unconfigured (tick s));
        [exact Hf|right; exact Hw|exact Hno]. }
  assert (Hwrites : forall s0, s0 = s \/ s0 = tick s ->
    writes (set_sheets_client (Some ClientHandle)
              (set_trace (trace s0 ++ authorization s0) s0)) = writes s).
  { intros s0 H0. unfold writes. cbn [trace set_sheets_client set_trace].
    rewrite List.filter_app. unfold authorization.
    assert (Htr : trace s0 = trace s) by (destruct H0 as [-> | ->]; reflexivity).
    rewrite Htr. destruct (_sheets_client s0); simpl; apply app_nil_r. }
  assert (Hsheet : forall s0, s0 = s \/ s0 = tick s ->
    sheet (set_sheets_client (Some ClientHandle)
             (set_trace (trace s0 ++ authorization s0) s0)) = sheet s).
  { intros s0 [-> | ->]; reflexivity. }
  unfold result, after.
  destruct c as [f|title content due priority|row title content due priority|row|row];
    unfold run.
  - assert (Hrun : get_all_todos s = _)
      by (rewrite (get_all_todos_unusable s (cold_cache_unusable s (conj Hw Hc)));
          unfold fetch_todos; apply bind_Raise, (Hres (tick s)); auto).
    rewrite (bind_Raise _ _ _ _ _ (filtered_Raise f s _ _ Hrun)).
    cbn [fst snd]. auto.
  - unfold add_todo.
    rewrite (bind_Raise _ _ _ _ _ (bind_Raise _ _ _ _ _ (Hres s (or_introl eq_refl)))).
    cbn [fst snd]. auto.
  - unfold update_todo. rewrite (bind_Raise _ _ _ _ _ (Hres s (or_introl eq_refl))).
    cbn [fst snd]. auto.
  - unfold delete_todo. rewrite (bind_Raise _ _ _ _ _ (Hres s (or_introl eq_refl))).
    cbn [fst snd]. auto.
  - unfold complete_todo. rewrite (bind_Raise _ _ _ _ _ (Hres s (or_introl eq_refl))).
    cbn [fst snd]. auto.
Qed.

End Unconfigured.

Lemma calls_without_identifier_raise_witness :
  result (@run ascii_pystr (DeleteTodo 2))
    (fresh_process (Some "") (Some sample_rows) no_faults) =
    Raise (Exception_ SpreadsheetIdNotSet) /\
  sheet (after (@run ascii_pystr (DeleteTodo 2))
           (fresh_process (Some "") (Some sample_rows) no_faults)) =
    sheet (fresh_process (Some "") (Some sample_rows) no_faults) /\
  writes (after (@run ascii_pystr (DeleteTodo 2))
            (fresh_process (Some "") (Some sample_rows) no_faults)) =
    writes (fresh_process (Some "") (Some sample_rows) no_faults).
Proof.
  refine (@calls_without_identifier_raise ascii_pystr (DeleteTodo 2)
            (fresh_process (Some "") (Some sample_rows) no_faults) _ _ _).
  - split; reflexivity.
  - intros n. reflexivity.
  - intros (key & Hkey & Hne). injection Hkey as <-. apply Hne. reflexivity.
Defined.
